(** * FarmAssist backend: daily aggregation and agronomic advisories

    A shallow embedding of [src/services/weather.ts] (class [WeatherService]),
    of the agricultural advisory service (class [AgriculturalService]) and of
    the market price service (class [MarketService]), followed by the
    properties of the specification that concern them.

    Conventions of the embedding.
    - A JavaScript [number] is a member of the interface [JSNumber].  Two
      instances are given: exact rationals ([Q], arithmetic without rounding
      and without the special values) and IEEE-754 binary64 ([float], the
      arithmetic the program really runs on).  Every definition of the program
      is written once, over the interface.  A comparison of finite values
      reads the same on both; a sum or a quotient is rounded by the program,
      so what depends on one is stated on the interface or on doubles.
    - An [async] method is a function of the responses it awaits; the clock
      ([new Date().toISOString()], [new Date().getHours()]) is a parameter.
    - [try { ... } catch] is the [completion] monad followed by a [match].
    - A template literal is a list of [Fragment]s, so that no number has to be
      printed. *)

From Stdlib Require Import Bool ZArith QArith Qabs Qround Qminmax Lia Lqa.
From Stdlib Require Import String Ascii List Sorted Permutation OrdersEx.
From Stdlib Require Import Floats Uint63.
Import ListNotations.

Set Implicit Arguments.

Local Open Scope string_scope.
Local Open Scope list_scope.

(* ================================================================== *)
(** ** JavaScript numbers *)
(* ================================================================== *)

Declare Scope js_scope.
Delimit Scope js_scope with js.

(** The operations on [number] that the two services use. *)
Class JSNumber (num : Type) : Type := {
  ofQ : Q -> num;                  (* a numeric literal, an array length *)
  nadd : num -> num -> num;        (* a + b *)
  nsub : num -> num -> num;        (* a - b *)
  nmul : num -> num -> num;        (* a * b *)
  ndiv : num -> num -> num;        (* a / b *)
  nlt : num -> num -> bool;        (* a < b *)
  nle : num -> num -> bool;        (* a <= b *)
  neq : num -> num -> bool;        (* a === b *)
  isNaN : num -> bool;             (* Number.isNaN(a) *)
  Math_abs : num -> num;
  Math_round : num -> num
}.

Notation "a + b" := (nadd a b) : js_scope.
Notation "a - b" := (nsub a b) : js_scope.
Notation "a * b" := (nmul a b) : js_scope.
Notation "a / b" := (ndiv a b) : js_scope.
Notation "a <? b" := (nlt a b) (at level 70, no associativity) : js_scope.
Notation "a <=? b" := (nle a b) (at level 70, no associativity) : js_scope.
Notation "a >? b" := (nlt b a) (at level 70, no associativity, only parsing) : js_scope.
Notation "a >=? b" := (nle b a) (at level 70, no associativity, only parsing) : js_scope.
Notation "a === b" := (neq a b) (at level 70, no associativity) : js_scope.

(** *** Exact instance: rationals.  No NaN, no infinities, no rounding.
    [x / 0] is [0] in [Q]; the services divide by a literal or by the length
    of a non-empty array only. *)

Definition Q_ltb (a b : Q) : bool := negb (Qle_bool b a).

Definition Q_round (x : Q) : Q := inject_Z (Qfloor (x + (1 # 2))).

#[export] Instance Q_JSNumber : JSNumber Q := {|
  ofQ := fun q => q;
  nadd := Qplus;
  nsub := Qminus;
  nmul := Qmult;
  ndiv := Qdiv;
  nlt := Q_ltb;
  nle := Qle_bool;
  neq := Qeq_bool;
  isNaN := fun _ => false;
  Math_abs := Qabs;
  Math_round := Q_round
|}.

(** *** IEEE-754 binary64 instance: the kernel's primitive floats. *)

Definition float_of_Z (z : Z) : float :=
  match z with
  | Z0 => PrimFloat.zero
  | Zpos _ => PrimFloat.of_uint63 (Uint63.of_Z z)
  | Zneg p => PrimFloat.opp (PrimFloat.of_uint63 (Uint63.of_Z (Zpos p)))
  end.

(** A literal [n/d] with [n] and [d] below [2^53]: both are exact and the
    quotient is rounded once, to the double nearest to the decimal. *)
Definition float_of_Q (q : Q) : float :=
  PrimFloat.div (float_of_Z (Qnum q)) (float_of_Z (Zpos (Qden q))).

(** [Math.round]: the nearest integer, a tie going up. *)
Definition float_round (x : float) : float :=
  match Prim2SF x with
  | S754_finite s m e =>
      if (0 <=? e)%Z then x
      else
        let n := if s then Zneg m else Zpos m in
        float_of_Z ((2 * n + 2 ^ (- e)) / 2 ^ (1 - e))
  | _ => x
  end.

#[export] Instance float_JSNumber : JSNumber float := {|
  ofQ := float_of_Q;
  nadd := PrimFloat.add;
  nsub := PrimFloat.sub;
  nmul := PrimFloat.mul;
  ndiv := PrimFloat.div;
  nlt := PrimFloat.ltb;
  nle := PrimFloat.leb;
  neq := PrimFloat.eqb;
  isNaN := PrimFloat.is_nan;
  Math_abs := PrimFloat.abs;
  Math_round := float_round
|}.

(** The result of [Math.min(...xs)] and [Math.max(...xs)]: a member of the
    array, or the infinity an empty array gives. *)
Inductive extremum (num : Type) : Type :=
| Attained (x : num)
| PlusInfinity
| MinusInfinity.
Arguments PlusInfinity {num}.
Arguments MinusInfinity {num}.

Section Numbers.
Context {num : Type} `{JSNumber num}.

(** Integer literals and array lengths. *)
Definition ofZ (z : Z) : num := ofQ (inject_Z z).
Definition ofNat (n : nat) : num := ofZ (Z.of_nat n).

(** [0] and [NaN] are the falsy numbers. *)
Definition falsy (x : num) : bool := isNaN x || (x === ofZ 0)%js.

(** [x || d] *)
Definition orElse (x d : num) : num := if falsy x then d else x.

(** One step of [Math.min]: NaN is absorbing, otherwise the smaller. *)
Definition min_step (lowest x : num) : num :=
  if isNaN lowest then lowest
  else if isNaN x then x
  else if (x <? lowest)%js then x else lowest.

Definition max_step (highest x : num) : num :=
  if isNaN highest then highest
  else if isNaN x then x
  else if (x >? highest)%js then x else highest.

(** [Math.min(x, ...rest)] and [Math.max(x, ...rest)] *)
Definition Math_min_of (x : num) (rest : list num) : num := fold_left min_step rest x.
Definition Math_max_of (x : num) (rest : list num) : num := fold_left max_step rest x.

(** [Math.min(...xs)] and [Math.max(...xs)] *)
Definition Math_min (xs : list num) : extremum num :=
  match xs with
  | [] => PlusInfinity
  | x :: rest => Attained (Math_min_of x rest)
  end.

Definition Math_max (xs : list num) : extremum num :=
  match xs with
  | [] => MinusInfinity
  | x :: rest => Attained (Math_max_of x rest)
  end.

(** Comparisons of a [Math.min] result with a number. *)
Definition extremum_le (e : extremum num) (b : num) : bool :=
  match e with
  | Attained x => (x <=? b)%js
  | PlusInfinity => false
  | MinusInfinity => true
  end.

(** [xs.reduce((sum, x) => sum + x, 0)] *)
Definition sum (xs : list num) : num := fold_left nadd xs (ofZ 0).
End Numbers.

(** [Math.sqrt] is kept apart: it has no exact counterpart on [Q]. *)
Class JSMath (num : Type) : Type := { Math_sqrt : num -> num }.

#[export] Instance float_JSMath : JSMath float := {| Math_sqrt := PrimFloat.sqrt |}.

(* ================================================================== *)
(** ** Exceptions *)
(* ================================================================== *)

(** How a block of statements ends: normally with a value, or by a [throw]
    that carries the error's message. *)
Inductive completion (A : Type) : Type :=
| Normal (a : A)
| Thrown (message : string).
Arguments Thrown {A} message.

Definition bind {A B : Type} (c : completion A) (k : A -> completion B) : completion B :=
  match c with
  | Normal a => k a
  | Thrown m => Thrown m
  end.

Notation "x <- c ;; k" := (bind c (fun x => k))
  (at level 61, c at next level, right associativity).

(** [xs.map(f)] where [f] may throw: the first throw ends the loop. *)
Fixpoint mapM {A B : Type} (f : A -> completion B) (xs : list A) : completion (list B) :=
  match xs with
  | [] => Normal []
  | x :: rest => y <- f x ;; ys <- mapM f rest ;; Normal (y :: ys)
  end.

(** [xs.forEach(x => { acc = f(acc, x) })] where the body may throw. *)
Fixpoint foldM {A S : Type} (f : S -> A -> completion S) (xs : list A) (acc : S) : completion S :=
  match xs with
  | [] => Normal acc
  | x :: rest => acc' <- f acc x ;; foldM f rest acc'
  end.

(** The message of a [TypeError] raised by a property read on [undefined]. *)
Definition TypeError : string := "TypeError: Cannot read properties of undefined".

(** [a.localeCompare(b)], on ISO dates [YYYY-MM-DD]: digits and hyphens
    collate in code-unit order. *)
Definition localeCompare (a b : string) : comparison := String_as_OT.compare a b.

(** [xs.sort(cmp)]: a stable sort; [x] goes before the first [y] that is not
    smaller. *)
Fixpoint sort_insert {A : Type} (cmp : A -> A -> comparison) (x : A) (sorted : list A) : list A :=
  match sorted with
  | [] => [x]
  | y :: rest =>
      match cmp x y with
      | Gt => y :: sort_insert cmp x rest
      | _ => x :: y :: rest
      end
  end.

Definition Array_sort {A : Type} (cmp : A -> A -> comparison) (xs : list A) : list A :=
  fold_right (sort_insert cmp) [] xs.

(* ================================================================== *)
(** ** Data model ([weather.ts]) *)
(* ================================================================== *)

Record Weather : Type := {
  main : string;
  description : string;
  icon : string
}.

(** The [weather] of a daily entry; historical days carry no icon. *)
Record DailyWeather : Type := {
  d_main : string;
  d_description : string;
  d_icon : option string
}.

(** [{ success, data?, error?, timestamp }] *)
Record WeatherResponse (T : Type) : Type := {
  success : bool;
  data : option T;
  error : option string;
  timestamp : string
}.

Section DataModel.
Variable num : Type.

Record Location : Type := {
  name : string;
  lat : num;
  lon : num
}.

(** An entry of [WeatherForecast.forecast] and of [HistoricalWeather.data]. *)
Record Measurement : Type := {
  date : string;
  datetime : string;
  temperature : num;
  humidity : num;
  pressure : num;
  windSpeed : num;
  precipitation : num;
  weather : Weather
}.

Record TemperatureSummary : Type := {
  t_min : num;
  t_max : num;
  t_average : num
}.

(** An entry of [DailyForecast.forecast] and of [HistoricalDailyWeather.data]. *)
Record DailyAggregate : Type := {
  d_date : string;
  d_temperature : TemperatureSummary;
  d_humidity : num;
  d_pressure : num;
  d_windSpeed : num;
  d_precipitation : num;
  d_weather : DailyWeather
}.

(** [CurrentWeather["current"]] *)
Record Current : Type := {
  c_temperature : num;
  c_feelsLike : num;
  c_humidity : num;
  c_pressure : num;
  c_windSpeed : num;
  c_windDirection : num;
  c_visibility : num;
  c_uvIndex : num;
  c_weather : Weather
}.

Record CurrentWeather : Type := {
  cw_location : Location;
  cw_country : string;
  cw_current : Current;
  cw_timestamp : string
}.

Record WeatherForecast : Type := {
  wf_location : Location;
  wf_forecast : list Measurement;
  wf_timestamp : string
}.

Record DailyForecast : Type := {
  df_location : Location;
  df_forecast : list DailyAggregate;
  df_timestamp : string
}.

Record Period : Type := { p_start : string; p_end : string }.

Record HistoricalWeather : Type := {
  hw_location : Location;
  hw_data : list Measurement;
  hw_period : Period;
  hw_timestamp : string
}.

Record HistoricalDailyWeather : Type := {
  hd_location : Location;
  hd_data : list DailyAggregate;
  hd_period : Period;
  hd_timestamp : string
}.

Record AgriculturalInsights : Type := {
  growingDegreeDays : num;
  evapotranspiration : num;
  soilTemperature : num;
  frostRisk : bool;
  irrigationRecommendation : string;
  sprayingWindow : bool;
  heatStress : bool
}.

Record AgriculturalWeather : Type := {
  aw_current : CurrentWeather;
  aw_forecast : option WeatherForecast;   (* [forecast.data!] is not read *)
  aw_dailyForecast : DailyForecast;
  aw_insights : AgriculturalInsights
}.

(** [Map<string, any[]>]: the entries in insertion order of their keys. *)
Definition DailyMap : Type := list (string * list Measurement).
End DataModel.

Arguments DailyMap num : clear implicits.

(* ================================================================== *)
(** ** [WeatherService] ([weather.ts]) *)
(* ================================================================== *)

Section WeatherService.
Context {num : Type} `{JSNumber num}.

Local Abbreviation Measurement := (Measurement num).
Local Abbreviation DailyAggregate := (DailyAggregate num).
Local Abbreviation DailyMap := (DailyMap num).

(** *** The [Map] of the two aggregators *)

(** [dailyMap.has(key)] *)
Definition Map_has (dailyMap : DailyMap) (key : string) : bool :=
  existsb (fun entry => String.eqb (fst entry) key) dailyMap.

(** [dailyMap.set(key, value)]: a present key keeps its place, a new one
    goes last. *)
Fixpoint Map_set (dailyMap : DailyMap) (key : string) (value : list Measurement) : DailyMap :=
  match dailyMap with
  | [] => [(key, value)]
  | (k, v) :: rest =>
      if String.eqb k key then (key, value) :: rest
      else (k, v) :: Map_set rest key value
  end.

(** [dailyMap.get(key)!.push(item)]: the array is the one the map holds, so
    the push is seen through the map; on an absent key [get] is [undefined]
    and the call throws. *)
Fixpoint Map_get_push (dailyMap : DailyMap) (key : string) (item : Measurement)
  : completion DailyMap :=
  match dailyMap with
  | [] => Thrown TypeError
  | (k, v) :: rest =>
      if String.eqb k key then Normal ((k, v ++ [item]) :: rest)
      else rest' <- Map_get_push rest key item ;; Normal ((k, v) :: rest')
  end.

(** The body of [forEach(item => { ... })] in both aggregators. *)
Definition groupStep (dailyMap : DailyMap) (item : Measurement) : completion DailyMap :=
  let date := date item in
  let dailyMap := if negb (Map_has dailyMap date) then Map_set dailyMap date [] else dailyMap in
  Map_get_push dailyMap date item.

(** [const dailyMap = new Map(); samples.forEach(...)] *)
Definition groupByDate (samples : list Measurement) : completion DailyMap :=
  foldM groupStep samples [].

(** *** One day *)

(** The callback of [Array.from(dailyMap.entries()).map(([date, items]) => ...)].
    [withIcon] tells the forecast aggregator (which copies the icon) from the
    historical one (which does not).  On an empty [items] the reductions give
    infinities and NaN and [items[0].weather] throws. *)
Definition aggregateGroup (withIcon : bool) (entry : string * list Measurement)
  : completion DailyAggregate :=
  let '(date, items) := entry in
  let temperatures := map (@temperature num) items in
  let count := ofNat (List.length items) in
  let precipitationSum := fold_left (fun sum item => sum + precipitation item)%js items (ofZ 0) in
  let avgHumidity := (fold_left (fun sum item => sum + humidity item) items (ofZ 0) / count)%js in
  let avgPressure := (fold_left (fun sum item => sum + pressure item) items (ofZ 0) / count)%js in
  let avgWindSpeed := (fold_left (fun sum item => sum + windSpeed item) items (ofZ 0) / count)%js in
  match temperatures, nth_error items (List.length items / 2) with
  | t :: ts, Some middle =>
      Normal {|
        d_date := date;
        d_temperature := {|
          t_min := Math_min_of t ts;
          t_max := Math_max_of t ts;
          t_average := (fold_left (fun sum temp => sum + temp) temperatures (ofZ 0)
                        / ofNat (List.length temperatures))%js
        |};
        d_humidity := Math_round avgHumidity;
        d_pressure := Math_round avgPressure;
        d_windSpeed := (Math_round (avgWindSpeed * ofZ 100) / ofZ 100)%js;
        d_precipitation := (Math_round (precipitationSum * ofZ 100) / ofZ 100)%js;
        d_weather := {|
          d_main := main (weather middle);
          d_description := description (weather middle);
          d_icon := if withIcon then Some (icon (weather middle)) else None
        |}
      |}
  | _, _ => Thrown TypeError
  end.

(** *** [getDailyForecast] *)

Definition ok {T : Type} (now : string) (value : T) : WeatherResponse T :=
  {| success := true; data := Some value; error := None; timestamp := now |}.

Definition failed {T : Type} (now : string) (message : string) : WeatherResponse T :=
  {| success := false; data := None; error := Some message; timestamp := now |}.

(** [try { return ok(body) } catch (error) { return failed(error.message) }] *)
Definition tryCatch {T : Type} (now : string) (body : completion T) : WeatherResponse T :=
  match body with
  | Normal value => ok now value
  | Thrown message => failed now message
  end.

(** [if (!response.success || !response.data) throw new Error(message)] *)
Definition requireData {T : Type} (response : WeatherResponse T) (message : string) : completion T :=
  match success response, data response with
  | true, Some d => Normal d
  | _, _ => Thrown message
  end.

(** [hourlyResponse] is what [await this.getHourlyForecast(lat, lon)]
    returned, [now] what the clock says. *)
Definition getDailyForecast (now : string) (hourlyResponse : WeatherResponse (WeatherForecast num))
  : WeatherResponse (DailyForecast num) :=
  tryCatch now (
    hourlyData <- requireData hourlyResponse
                    "Failed to fetch hourly forecast for daily aggregation" ;;
    dailyMap <- groupByDate (wf_forecast hourlyData) ;;
    days <- mapM (aggregateGroup true) dailyMap ;;
    Normal {| df_location := wf_location hourlyData;
              df_forecast := days;
              df_timestamp := now |}).

(** *** [getHistoricalDailyWeather] *)

Definition getHistoricalDailyWeather (now : string)
    (historicalResponse : WeatherResponse (HistoricalWeather num))
  : WeatherResponse (HistoricalDailyWeather num) :=
  tryCatch now (
    historicalData <- requireData historicalResponse
                        "Failed to fetch historical weather for daily aggregation" ;;
    dailyMap <- groupByDate (hw_data historicalData) ;;
    days <- mapM (aggregateGroup false) dailyMap ;;
    Normal {| hd_location := hw_location historicalData;
              hd_data := Array_sort (fun a b => localeCompare (d_date a) (d_date b)) days;
              hd_period := hw_period historicalData;
              hd_timestamp := now |}).

(** *** [calculateGrowingDegreeDays] *)

(** [Math.max(a, b)] *)
Definition Math_max2 (a b : num) : num := Math_max_of a [b].

(** [baseTemp: number = 10]: an omitted argument is [None]. *)
Definition calculateGrowingDegreeDays (historicalData : HistoricalDailyWeather num)
    (baseTemp : option num) : num :=
  let baseTemp := match baseTemp with Some b => b | None => ofZ 10 end in
  fold_left (fun total day =>
               let avgTemp := t_average (d_temperature day) in
               let gdd := Math_max2 (ofZ 0) (avgTemp - baseTemp)%js in
               (total + gdd)%js)
            (hd_data historicalData) (ofZ 0).

(** *** [calculateAgriculturalInsights] *)

(** [forecast.forecast[0]?.temperature.max - forecast.forecast[0]?.temperature.min || 10]:
    without a first day both operands are [undefined], the difference is
    NaN and [||] gives 10; with one, [||] gives 10 when the difference is
    falsy. *)
Definition day0Range (days : list DailyAggregate) : num :=
  match nth_error days 0 with
  | Some day0 => orElse (t_max (d_temperature day0) - t_min (d_temperature day0))%js (ofZ 10)
  | None => ofZ 10
  end.

Context `{JSMath num}.

Definition calculateAgriculturalInsights (current : CurrentWeather num)
    (forecast : DailyForecast num) : AgriculturalInsights num :=
  let temp := c_temperature (cw_current current) in
  let humidity := c_humidity (cw_current current) in
  let windSpeed := c_windSpeed (cw_current current) in
  let baseTemp := ofZ 10 in
  let growingDegreeDays := Math_max2 (ofZ 0) (temp - baseTemp)%js in
  let evapotranspiration :=
    Math_max2 (ofZ 0)
      ((ofQ 0.0023 * (temp + ofQ 17.8)
        * Math_sqrt (Math_abs (day0Range (df_forecast forecast)))
        * (temp + ofQ 273.16) / ofQ 273.16) * ofQ 2.45)%js in
  let soilTemperature := (temp * ofQ 0.85)%js in
  let frostRisk :=
    existsb (fun day => (t_min (d_temperature day) <? ofZ 2)%js)
            (firstn 3 (df_forecast forecast)) in
  let irrigationRecommendation :=
    if (humidity <? ofZ 40)%js && (temp >? ofZ 25)%js then "High need"
    else if (humidity <? ofZ 60)%js && (temp >? ofZ 20)%js then "Moderate need"
    else if (humidity >? ofZ 80)%js then "Low need"
    else "Monitor" in
  let sprayingWindow :=
    (windSpeed <? ofZ 15)%js
    && negb (existsb (fun day => (d_precipitation day >? ofZ 0)%js)
                     (firstn 1 (df_forecast forecast))) in
  let heatStress :=
    (temp >? ofZ 35)%js || ((temp >? ofZ 30)%js && (humidity >? ofZ 70)%js) in
  {| growingDegreeDays := growingDegreeDays;
     evapotranspiration := evapotranspiration;
     soilTemperature := soilTemperature;
     frostRisk := frostRisk;
     irrigationRecommendation := irrigationRecommendation;
     sprayingWindow := sprayingWindow;
     heatStress := heatStress |}.

(** *** [getAgriculturalWeather] *)

(** [response.data!]: a read through an absent [data] throws. *)
Definition nonNull {T : Type} (response : WeatherResponse T) : completion T :=
  match data response with
  | Some d => Normal d
  | None => Thrown TypeError
  end.

(** The three arguments are what [Promise.all] resolved to; none of the
    three fetches rejects, each catches its own errors. *)
Definition getAgriculturalWeather (now : string)
    (current : WeatherResponse (CurrentWeather num))
    (forecast : WeatherResponse (WeatherForecast num))
    (dailyForecast : WeatherResponse (DailyForecast num))
  : WeatherResponse (AgriculturalWeather num) :=
  tryCatch now (
    if negb (success current) || negb (success forecast) || negb (success dailyForecast)
    then Thrown "Failed to fetch complete weather data"
    else
      currentData <- nonNull current ;;
      dailyData <- nonNull dailyForecast ;;
      let insights := calculateAgriculturalInsights currentData dailyData in
      Normal {| aw_current := currentData;
                aw_forecast := data forecast;
                aw_dailyForecast := dailyData;
                aw_insights := insights |}).
End WeatherService.

(* ================================================================== *)
(** ** Data model (agricultural service) *)
(* ================================================================== *)

Inductive FrostRisk : Type :=
| FrostNone | FrostLow | FrostModerate | FrostHigh | FrostCritical.

Inductive Recommendation : Type :=
| Immediate | Within24h | Within48h | Skip | Monitor.

Inductive HeatRisk : Type :=
| HeatNone | HeatLow | HeatModerate | HeatHigh | HeatExtreme.

Inductive Priority : Type :=
| Low | Medium | High | Urgent.

(** The pictograph an advice line starts with. *)
Inductive Emoji : Type :=
| WarningSign | HighVoltage | Clipboard | CheckMark | Droplet | Herb | MobilePhone.

Record AdviceLine : Type := { emoji : Emoji; text : string }.

(** [{ success, data?, error? }], the reply of the two single-alert methods. *)
Record Reply (T : Type) : Type := {
  r_success : bool;
  r_data : option T;
  r_error : option string
}.

Section AdvisoryModel.
Variable num : Type.

(** A piece of a template literal. *)
Inductive Fragment : Type :=
| Text (s : string)
| Num (x : num)                       (* ${x} *)
| Fixed (digits : nat) (x : num)      (* ${x.toFixed(digits)} *)
| Count (n : nat)                     (* ${n}, n a small integer *)
| Degree.                             (* the degree sign *)

Definition Template : Type := list Fragment.

Record FrostAlert : Type := {
  f_risk : FrostRisk;
  f_message : string;
  f_action : string;
  f_timeframe : string;
  f_temperature : extremum num
}.

Record IrrigationAdvice : Type := {
  recommendation : Recommendation;
  i_message : string;
  i_reason : Template;
  nextCheck : string;
  waterAmount : string
}.

Record SprayingWindow : Type := {
  suitable : bool;
  s_message : string;
  bestTime : string;
  nextOpportunity : Template;
  s_reason : Template
}.

Record HeatStressAlert : Type := {
  h_risk : HeatRisk;
  h_message : string;
  h_action : string;
  h_duration : Template;
  h_temperature : num
}.

Record OverallAdvice : Type := {
  o_priority : Priority;
  o_generalAdvice : list AdviceLine
}.

Record CropAdvisory : Type := {
  a_location : Location num;
  a_frost : FrostAlert;
  a_irrigation : IrrigationAdvice;
  a_spraying : SprayingWindow;
  a_heatStress : HeatStressAlert;
  a_generalAdvice : list AdviceLine;
  a_priority : Priority;
  a_lastUpdated : string
}.
End AdvisoryModel.

Arguments Text {num} s.
Arguments Count {num} n.
Arguments Degree {num}.

(** Decidable equality of the enumerations ([===] on their string values). *)
Definition FrostRisk_eqb (a b : FrostRisk) : bool :=
  match a, b with
  | FrostNone, FrostNone | FrostLow, FrostLow | FrostModerate, FrostModerate
  | FrostHigh, FrostHigh | FrostCritical, FrostCritical => true
  | _, _ => false
  end.

Definition Recommendation_eqb (a b : Recommendation) : bool :=
  match a, b with
  | Immediate, Immediate | Within24h, Within24h | Within48h, Within48h
  | Skip, Skip | Monitor, Monitor => true
  | _, _ => false
  end.

Definition HeatRisk_eqb (a b : HeatRisk) : bool :=
  match a, b with
  | HeatNone, HeatNone | HeatLow, HeatLow | HeatModerate, HeatModerate
  | HeatHigh, HeatHigh | HeatExtreme, HeatExtreme => true
  | _, _ => false
  end.

(** [xs.findIndex(p)], as a position; [None] is [-1]. *)
Fixpoint findIndex {A : Type} (p : A -> bool) (xs : list A) : option nat :=
  match xs with
  | [] => None
  | x :: rest => if p x then Some 0%nat else option_map S (findIndex p rest)
  end.

(** [xs.filter((x, index) => p(x, index))], the index counted from [start]. *)
Fixpoint filter_indexed {A : Type} (p : A -> nat -> bool) (start : nat) (xs : list A) : list A :=
  match xs with
  | [] => []
  | x :: rest =>
      if p x start then x :: filter_indexed p (S start) rest
      else filter_indexed p (S start) rest
  end.

(* ================================================================== *)
(** ** [AgriculturalService] *)
(* ================================================================== *)

Section AgriculturalService.
Context {num : Type} `{JSNumber num}.

Local Abbreviation Measurement := (Measurement num).

(** *** [analyzeFrostRisk] *)

Definition analyzeFrostRisk (currentTemp : num) (forecastData : list Measurement)
  : FrostAlert num :=
  let minTemps := map (@temperature num) (firstn 8 forecastData) in
  let lowestTemp := Math_min minTemps in
  if extremum_le lowestTemp (ofZ (-2)) then
    {| f_risk := FrostCritical;
       f_message := "Severe frost expected - immediate action required";
       f_action := "Cover all sensitive crops, use frost protection methods, move potted plants indoors";
       f_timeframe := "Within next 6-12 hours";
       f_temperature := lowestTemp |}
  else if extremum_le lowestTemp (ofZ 0) then
    {| f_risk := FrostHigh;
       f_message := "Hard frost likely - protect vulnerable crops";
       f_action := "Cover young plants, drain irrigation lines, harvest sensitive crops";
       f_timeframe := "Within next 12-24 hours";
       f_temperature := lowestTemp |}
  else if extremum_le lowestTemp (ofZ 2) then
    {| f_risk := FrostModerate;
       f_message := "Light frost possible - monitor closely";
       f_action := "Prepare frost protection materials, monitor weather updates";
       f_timeframe := "Within next 24-48 hours";
       f_temperature := lowestTemp |}
  else if extremum_le lowestTemp (ofZ 5) then
    {| f_risk := FrostLow;
       f_message := "Cool temperatures ahead - minimal frost risk";
       f_action := "Normal operations, keep frost protection ready";
       f_timeframe := "Next 2-3 days";
       f_temperature := lowestTemp |}
  else
    {| f_risk := FrostNone;
       f_message := "No frost risk detected";
       f_action := "Continue normal farming activities";
       f_timeframe := "Next 5 days";
       f_temperature := lowestTemp |}.

(** *** [generateIrrigationAdvice] *)

(** [rainForecast.reduce((sum, item) => sum + (item.precipitation || 0), 0)]
    over [forecastData.slice(0, 16)] *)
Definition totalRain (forecastData : list Measurement) : num :=
  let rainForecast := firstn 16 forecastData in
  fold_left (fun sum item => sum + orElse (precipitation item) (ofZ 0))%js
            rainForecast (ofZ 0).

Definition generateIrrigationAdvice (currentWeather : Current num)
    (forecastData : list Measurement) : IrrigationAdvice num :=
  let currentTemp := c_temperature currentWeather in
  let currentHumidity := c_humidity currentWeather in
  let totalRain := totalRain forecastData in
  let significantRain := (totalRain >? ofZ 5)%js in
  let waterStress := (currentTemp >? ofZ 25)%js && (currentHumidity <? ofZ 50)%js in
  let highWaterStress := (currentTemp >? ofZ 30)%js && (currentHumidity <? ofZ 40)%js in
  let extremeWaterStress := (currentTemp >? ofZ 35)%js && (currentHumidity <? ofZ 35)%js in
  let conditions (level : string) (moisture : string) : Template num :=
    [Text level; Text " temperature ("; Num currentTemp; Degree; Text "C) with ";
     Text moisture; Text " humidity ("; Num currentHumidity; Text "%)"] in
  if significantRain then
    {| recommendation := Skip;
       i_message := "Skip irrigation - adequate rainfall expected";
       i_reason := [Fixed 1 totalRain; Text "mm rain forecast in next 48 hours"];
       nextCheck := "Check again after rainfall";
       waterAmount := "" |}
  else if extremeWaterStress then
    {| recommendation := Immediate;
       i_message := "Immediate irrigation required - extreme heat stress conditions";
       i_reason := conditions "Very high" "low";
       nextCheck := "Monitor every 6 hours";
       waterAmount := "Deep watering recommended - 25-30mm equivalent" |}
  else if highWaterStress then
    {| recommendation := Within24h;
       i_message := "Irrigation needed within 24 hours - high stress conditions";
       i_reason := conditions "High" "low";
       nextCheck := "Check again in 12 hours";
       waterAmount := "Regular watering - 15-20mm equivalent" |}
  else if waterStress then
    {| recommendation := Within48h;
       i_message := "Plan irrigation within 48 hours - moderate stress detected";
       i_reason := conditions "Moderate" "moderate";
       nextCheck := "Check again in 24 hours";
       waterAmount := "Light watering - 10-15mm equivalent" |}
  else
    {| recommendation := Monitor;
       i_message := "Continue monitoring - current conditions adequate";
       i_reason := [Text "Acceptable temperature ("; Num currentTemp; Degree;
                    Text "C) and humidity ("; Num currentHumidity; Text "%)"];
       nextCheck := "Check again in 24 hours";
       waterAmount := "" |}.

(** *** [analyzeSprayingConditions] *)

(** The predicate of [next24h.filter(item => ...)]. *)
Definition goodWindow (item : Measurement) : bool :=
  (windSpeed item <? ofZ 15)%js
  && (orElse (precipitation item) (ofZ 0) === ofZ 0)%js
  && (temperature item >? ofZ 10)%js && (temperature item <? ofZ 30)%js.

(** The predicate of [goodWindows.filter((_, index) => ...)]; [hours] is
    [new Date().getHours()]. *)
Definition morningIndex (hours : nat) (index : nat) : bool :=
  let hour := ((hours + index * 3) mod 24)%nat in
  (6 <=? hour)%nat && (hour <=? 10)%nat.

Definition earlyMorning : string :=
  "Early morning (6-10 AM) recommended for optimal results".

Definition whenConvenient : string :=
  "Current conditions suitable - spray when convenient".

(** [next24h.indexOf(goodWindows[0])] compares by identity: it is the place
    of the first member of [next24h] that passed the filter, read here with
    [findIndex]. *)
Definition analyzeSprayingConditions (hours : nat) (currentWeather : Current num)
    (forecastData : list Measurement) : SprayingWindow num :=
  let currentWind := c_windSpeed currentWeather in
  let currentTemp := c_temperature currentWeather in
  let next24h := firstn 8 forecastData in
  let goodWindows := filter goodWindow next24h in
  if (currentWind >? ofZ 20)%js then
    {| suitable := false;
       s_message := "Spraying not recommended - wind too strong";
       s_reason := [Text "Current wind speed: "; Num currentWind;
                    Text " km/h (safe limit: <15 km/h)"];
       bestTime := "";
       nextOpportunity :=
         match findIndex goodWindow next24h with
         | Some index => [Text "Next opportunity in "; Count (index * 3); Text " hours"]
         | None => [Text "Check forecast tomorrow"]
         end |}
  else if (currentTemp >? ofZ 30)%js then
    {| suitable := false;
       s_message := "Spraying not recommended - temperature too high";
       s_reason := [Text "Current temperature: "; Num currentTemp; Degree;
                    Text "C (avoid spraying above 30"; Degree; Text "C)"];
       bestTime := "";
       nextOpportunity := [Text "Wait for cooler conditions (early morning/evening)"] |}
  else if (0 <? List.length goodWindows)%nat then
    let morningWindows :=
      filter_indexed (fun _ index => morningIndex hours index) 0 goodWindows in
    {| suitable := true;
       s_message := "Good spraying conditions available";
       s_reason := [Text "Low wind ("; Num currentWind; Text " km/h), suitable temperature (";
                    Num currentTemp; Degree; Text "C)"];
       bestTime := if (0 <? List.length morningWindows)%nat then earlyMorning
                   else whenConvenient;
       nextOpportunity := [] |}
  else
    {| suitable := false;
       s_message := "Poor spraying conditions - wait for better weather";
       s_reason := [Text "High wind or rain forecast in next 24 hours"];
       bestTime := "";
       nextOpportunity := [Text "Check forecast again in 12 hours"] |}.

(** *** [assessHeatStress] *)

Definition assessHeatStress (currentWeather : Current num)
    (forecastData : list Measurement) : HeatStressAlert num :=
  let currentTemp := c_temperature currentWeather in
  let currentHumidity := c_humidity currentWeather in
  let heatIndex :=
    (currentTemp + (if (currentHumidity >? ofZ 40)%js
                    then (currentHumidity - ofZ 40) * ofQ 0.2 else ofZ 0))%js in
  let highTempPeriods :=
    List.length (filter (fun item => (temperature item >? ofZ 30)%js) forecastData) in
  let duration : Template num :=
    [Count (highTempPeriods * 3); Text " hours of elevated temperatures expected"] in
  if (currentTemp >? ofZ 40)%js
     || ((currentTemp >? ofZ 35)%js && (currentHumidity >? ofZ 70)%js) then
    {| h_risk := HeatExtreme;
       h_message := "Extreme heat stress - immediate action required";
       h_action := "Increase irrigation frequency, provide shade, harvest heat-sensitive crops immediately";
       h_duration := duration;
       h_temperature := currentTemp |}
  else if (currentTemp >? ofZ 35)%js
          || ((currentTemp >? ofZ 30)%js && (currentHumidity >? ofZ 80)%js) then
    {| h_risk := HeatHigh;
       h_message := "High heat stress - crops need protection";
       h_action := "Increase irrigation, apply mulch, avoid field work during peak heat";
       h_duration := duration;
       h_temperature := currentTemp |}
  else if (currentTemp >? ofZ 30)%js
          || ((currentTemp >? ofZ 25)%js && (currentHumidity >? ofZ 85)%js) then
    {| h_risk := HeatModerate;
       h_message := "Moderate heat stress - monitor crops closely";
       h_action := "Ensure adequate water supply, consider morning/evening irrigation";
       h_duration := duration;
       h_temperature := currentTemp |}
  else if (currentTemp >? ofZ 25)%js then
    {| h_risk := HeatLow;
       h_message := "Mild heat stress possible - maintain normal care";
       h_action := "Continue regular irrigation schedule, monitor plant health";
       h_duration := duration;
       h_temperature := currentTemp |}
  else
    {| h_risk := HeatNone;
       h_message := "No heat stress detected";
       h_action := "Normal growing conditions - continue standard practices";
       h_duration := duration;
       h_temperature := currentTemp |}.

(** *** [generateOverallAdvice] *)

Definition urgentLine : AdviceLine :=
  {| emoji := WarningSign; text := "Urgent action required - check all alerts immediately" |}.
Definition highLine : AdviceLine :=
  {| emoji := HighVoltage; text := "High priority - address within 24 hours" |}.
Definition mediumLine : AdviceLine :=
  {| emoji := Clipboard; text := "Medium priority - plan accordingly" |}.
Definition sprayingLine : AdviceLine :=
  {| emoji := CheckMark; text := "Good conditions for pesticide/herbicide application" |}.
Definition rainLine : AdviceLine :=
  {| emoji := Droplet; text := "Rain expected - save on irrigation costs" |}.
Definition optimalLine : AdviceLine :=
  {| emoji := Herb; text := "Optimal growing conditions - ideal for field work" |}.
Definition updatesLine : AdviceLine :=
  {| emoji := MobilePhone; text := "Check updates every 12-24 hours for changing conditions" |}.

(** [if (c) advice.push(line)] *)
Definition pushIf (c : bool) (line : AdviceLine) (advice : list AdviceLine) : list AdviceLine :=
  if c then advice ++ [line] else advice.

Definition generateOverallAdvice (frost : FrostAlert num) (irrigation : IrrigationAdvice num)
    (spraying : SprayingWindow num) (heatStress : HeatStressAlert num) : OverallAdvice :=
  let '(priority, advice) :=
    if FrostRisk_eqb (f_risk frost) FrostCritical
       || HeatRisk_eqb (h_risk heatStress) HeatExtreme
       || Recommendation_eqb (recommendation irrigation) Immediate
    then (Urgent, [urgentLine])
    else if FrostRisk_eqb (f_risk frost) FrostHigh
            || HeatRisk_eqb (h_risk heatStress) HeatHigh
            || Recommendation_eqb (recommendation irrigation) Within24h
    then (High, [highLine])
    else if FrostRisk_eqb (f_risk frost) FrostModerate
            || HeatRisk_eqb (h_risk heatStress) HeatModerate
            || Recommendation_eqb (recommendation irrigation) Within48h
    then (Medium, [mediumLine])
    else (Low, []) in
  let advice := pushIf (suitable spraying) sprayingLine advice in
  let advice := pushIf (Recommendation_eqb (recommendation irrigation) Skip) rainLine advice in
  let advice := pushIf (FrostRisk_eqb (f_risk frost) FrostNone
                        && HeatRisk_eqb (h_risk heatStress) HeatNone) optimalLine advice in
  let advice := advice ++ [updatesLine] in
  {| o_priority := priority; o_generalAdvice := advice |}.

(** *** [getCropAdvisory] *)

(** [currentWeather] and [hourlyForecast] are what [Promise.all] resolved
    to; [now] and [hours] are read from the clock. *)
Definition getCropAdvisory (now : string) (hours : nat)
    (currentWeather : WeatherResponse (CurrentWeather num))
    (hourlyForecast : WeatherResponse (WeatherForecast num))
  : WeatherResponse (CropAdvisory num) :=
  tryCatch now (
    if negb (success currentWeather) || negb (success hourlyForecast)
    then Thrown "Failed to fetch weather data for analysis"
    else
      currentData <- nonNull currentWeather ;;
      let current := cw_current currentData in
      forecastData <- nonNull hourlyForecast ;;
      let forecast := wf_forecast forecastData in
      let location := cw_location currentData in
      let frost := analyzeFrostRisk (c_temperature current) forecast in
      let irrigation := generateIrrigationAdvice current forecast in
      let spraying := analyzeSprayingConditions hours current forecast in
      let heatStress := assessHeatStress current forecast in
      let overall := generateOverallAdvice frost irrigation spraying heatStress in
      Normal {| a_location := {| name := name location; lat := lat location; lon := lon location |};
                a_frost := frost;
                a_irrigation := irrigation;
                a_spraying := spraying;
                a_heatStress := heatStress;
                a_generalAdvice := o_generalAdvice overall;
                a_priority := o_priority overall;
                a_lastUpdated := now |}).

(** *** [getFrostAlert] and [getIrrigationAdvice] *)

(** [try { return { success: true, data } } catch (error) { return { success: false, error: error.message } }] *)
Definition reply {T : Type} (body : completion T) : Reply T :=
  match body with
  | Normal value => {| r_success := true; r_data := Some value; r_error := None |}
  | Thrown message => {| r_success := false; r_data := None; r_error := Some message |}
  end.

(** [forecast] is awaited first, [current] next; [current] is read through
    [current.data?.current.temperature || 20]. *)
Definition getFrostAlert (forecast : WeatherResponse (WeatherForecast num))
    (current : WeatherResponse (CurrentWeather num)) : Reply (FrostAlert num) :=
  reply (
    if negb (success forecast) then Thrown "Weather data unavailable"
    else
      let currentTemp :=
        match data current with
        | Some currentData => orElse (c_temperature (cw_current currentData)) (ofZ 20)
        | None => ofZ 20
        end in
      forecastData <- nonNull forecast ;;
      Normal (analyzeFrostRisk currentTemp (wf_forecast forecastData))).

Definition getIrrigationAdvice (current : WeatherResponse (CurrentWeather num))
    (forecast : WeatherResponse (WeatherForecast num)) : Reply (IrrigationAdvice num) :=
  reply (
    if negb (success current) || negb (success forecast)
    then Thrown "Weather data unavailable"
    else
      currentData <- nonNull current ;;
      forecastData <- nonNull forecast ;;
      Normal (generateIrrigationAdvice (cw_current currentData) (wf_forecast forecastData))).
End AgriculturalService.

(* ================================================================== *)
(** ** [MarketService] *)
(* ================================================================== *)

(** [string.replace(regex, "")] with a character class: the characters the
    class matches are dropped. *)
Fixpoint String_filter (keep : ascii -> bool) (s : string) : string :=
  match s with
  | EmptyString => EmptyString
  | String c rest =>
      if keep c then String c (String_filter keep rest) else String_filter keep rest
  end.

(** [\d]: an ASCII digit. *)
Definition isDigit (c : ascii) : bool :=
  let n := N_of_ascii c in (48 <=? n)%N && (n <=? 57)%N.

Definition digitValue (c : ascii) : Z := Z.of_N (N_of_ascii c) - 48.

(** [[\d.]]: what [/[^\d.]/g] leaves in place. *)
Definition priceChar (c : ascii) : bool := isDigit c || Ascii.eqb c ".".

(** The longest run of digits a string starts with, and what follows it. *)
Fixpoint takeDigits (s : string) : list ascii * string :=
  match s with
  | EmptyString => ([], EmptyString)
  | String c rest =>
      if isDigit c then let '(digits, after) := takeDigits rest in (c :: digits, after)
      else ([], s)
  end.

(** The number a run of decimal digits writes. *)
Definition digitsValue (digits : list ascii) : Z :=
  fold_left (fun value c => 10 * value + digitValue c)%Z digits 0%Z.

(** The value of [integer.fraction]. *)
Definition decimalValue (integer fraction : list ascii) : Q :=
  Qmake (digitsValue (integer ++ fraction))
        (Z.to_pos (10 ^ Z.of_nat (List.length fraction))).

(** [parseFloat(s)] for a string [s] of digits and dots, which is what the
    price regex leaves: the longest prefix that is a decimal literal
    ([12], [12.], [12.5], [.5]) is read, what follows is ignored; [None] is
    NaN, returned when no prefix is a literal.  The value is the exact
    decimal; a double is the nearest one. *)
Definition parseFloatDecimal (s : string) : option Q :=
  let '(integer, after) := takeDigits s in
  match after with
  | String "." rest =>
      let '(fraction, _) := takeDigits rest in
      match integer, fraction with
      | [], [] => None
      | _, _ => Some (decimalValue integer fraction)
      end
  | _ =>
      match integer with
      | [] => None
      | _ => Some (decimalValue integer [])
      end
  end.

(** One [td] of [#DataListTicker] as the selectors read it: the trimmed
    texts of its four spans. *)
Record TickerCell : Type := {
  commodityText : string;
  varietyText : string;
  maxPriceText : string;
  minPriceText : string
}.

(** What [parseMarketPricesHTML] reads from the page: the date that
    [parseDate] returned for the date label, and the cells in document
    order. *)
Record TickerPage : Type := {
  pageDate : string;
  cells : list TickerCell
}.

Section MarketService.
Context {num : Type} `{JSNumber num}.

Record MarketPrice : Type := {
  commodity : string;
  variety : string;
  maxPrice : num;
  minPrice : num;
  mp_date : string
}.

Record MarketPricesResponse : Type := {
  m_success : bool;
  m_data : option (list MarketPrice);
  m_error : option string;
  lastUpdated : string;
  totalItems : nat
}.

(** [parsePrice]: nothing in its [try] block throws. *)
Definition parsePrice (priceText : string) : num :=
  let cleanPrice := String_filter priceChar priceText in
  match parseFloatDecimal cleanPrice with
  | Some price => ofQ price
  | None => ofZ 0
  end.

(** A string is truthy when it is not empty. *)
Definition truthy (s : string) : bool := negb (String.eqb s "").

(** The callback of [$("#DataListTicker td").each(...)]: one cell, and the
    prices pushed so far. *)
Definition tickerStep (date : string) (marketPrices : list MarketPrice) (cell : TickerCell)
  : list MarketPrice :=
  let commodity := commodityText cell in
  let variety := varietyText cell in
  let maxPrice := parsePrice (maxPriceText cell) in
  let minPrice := parsePrice (minPriceText cell) in
  if truthy commodity && truthy variety && (maxPrice >? ofZ 0)%js && (minPrice >? ofZ 0)%js
  then marketPrices ++ [{| commodity := commodity; variety := variety;
                           maxPrice := maxPrice; minPrice := minPrice;
                           mp_date := date |}]
  else marketPrices.

Definition parseMarketPricesHTML (page : TickerPage) : list MarketPrice :=
  fold_left (tickerStep (pageDate page)) (cells page) [].

(** [fetched] is what [axios.get] and the selectors gave: the page, or the
    error thrown on the way. *)
Definition getMarketPrices (now : string) (fetched : completion TickerPage)
  : MarketPricesResponse :=
  match fetched with
  | Normal page =>
      let marketPrices := parseMarketPricesHTML page in
      {| m_success := true; m_data := Some marketPrices; m_error := None;
         lastUpdated := now; totalItems := List.length marketPrices |}
  | Thrown message =>
      {| m_success := false; m_data := None; m_error := Some message;
         lastUpdated := now; totalItems := 0 |}
  end.

(** [collate] is [localeCompare] on commodity names, which depends on the
    locale of the host.  The sort is in place: the returned object is
    [result] with its [data] sorted. *)
Definition getFormattedMarketPrices (collate : string -> string -> comparison)
    (now : string) (fetched : completion TickerPage) : MarketPricesResponse :=
  let result := getMarketPrices now fetched in
  match m_success result, m_data result with
  | true, Some prices =>
      {| m_success := m_success result;
         m_data := Some (Array_sort (fun a b => collate (commodity a) (commodity b)) prices);
         m_error := m_error result;
         lastUpdated := lastUpdated result;
         totalItems := totalItems result |}
  | _, _ => result
  end.
End MarketService.

(* ================================================================== *)
(** ** Vocabulary of the properties *)
(* ================================================================== *)

(** The order of dates that [localeCompare] decides. *)
Definition date_lt (a b : string) : Prop := localeCompare a b = Lt.

Definition date_le (a b : string) : Prop := localeCompare a b <> Gt.

Section Vocabulary.
Context {num : Type} `{JSNumber num}.

Local Abbreviation Measurement := (Measurement num).
Local Abbreviation DailyMap := (DailyMap num).

(** The samples of one date, in the order they came. *)
Definition onDate (d : string) (item : Measurement) : bool := String.eqb (date item) d.

(** The distinct dates, each at the place of its first sample. *)
Definition addKey (keys : list string) (d : string) : list string :=
  if existsb (fun k => String.eqb k d) keys then keys else keys ++ [d].

Definition keysOf (samples : list Measurement) : list string :=
  fold_left addKey (map (@date num) samples) [].

(** What the map holds once the samples [seen] went through [forEach]. *)
Definition grouped (keys : list string) (seen : list Measurement) : DailyMap :=
  map (fun d => (d, filter (onDate d) seen)) keys.

(** Samples arrive in chronological order: the date never goes back. *)
Definition chronological (samples : list Measurement) : Prop :=
  Sorted (fun a b => date_le (date a) (date b)) samples.

(** The days of a result come in strictly ascending date order. *)
Definition ascending (days : list (DailyAggregate num)) : Prop :=
  StronglySorted (fun a b => date_lt (d_date a) (d_date b)) days.

(** The number of samples the map holds. *)
Definition groupSizes (dailyMap : DailyMap) : list nat :=
  map (fun entry => List.length (snd entry)) dailyMap.

(** The invariant of the loop: the keys are distinct and cover the dates
    seen so far. *)
Definition covers (keys : list string) (seen : list Measurement) : Prop :=
  NoDup keys /\ forall y, In y seen -> In (date y) keys.

(** The temperature summary of a non-empty group. *)
Definition summaryOf (x : Measurement) (rest : list Measurement) : TemperatureSummary num :=
  {| t_min := Math_min_of (temperature x) (map (@temperature num) rest);
     t_max := Math_max_of (temperature x) (map (@temperature num) rest);
     t_average := (sum (map (@temperature num) (x :: rest))
                   / ofNat (List.length (map (@temperature num) (x :: rest))))%js |}.

(** [days] is a grouping of [samples] by date: the map built by [forEach]
    has one entry per distinct date, each holding the samples of that date in
    the order they came; [days] are the aggregates of these entries, up to
    their order; the dates of the days are distinct and are the dates of the
    samples; and the sizes of the groups add up to the number of samples. *)
Definition groupingOf (withIcon : bool) (samples : list Measurement)
    (days : list (DailyAggregate num)) : Prop :=
  exists dailyMap perDay,
    groupByDate samples = Normal dailyMap
    /\ (forall d items, In (d, items) dailyMap -> items = filter (onDate d) samples)
    /\ mapM (aggregateGroup withIcon) dailyMap = Normal perDay
    /\ map (@d_date num) perDay = map fst dailyMap
    /\ Permutation days perDay
    /\ NoDup (map (@d_date num) days)
    /\ (forall d, In d (map (@d_date num) days) <-> In d (map (@date num) samples))
    /\ list_sum (groupSizes dailyMap) = List.length samples.

End Vocabulary.

(** The sum of the spec: the plain sum of a list of rationals. *)
Definition Qsum (xs : list Q) : Q := fold_right Qplus 0 xs.

(** The precipitation of the first 16 samples, added up. *)
Definition rain48h (forecastData : list (Measurement Q)) : Q :=
  Qsum (map (@precipitation Q) (firstn 16 forecastData)).

(** The growing degree days of the specification: [max(0, T - B)]. *)
Definition gdd (T B : Q) : Q := Qmax 0 (T - B).

(** The evapotranspiration of the specification, for a temperature [temp]
    and a temperature range [range]:
    [max(0, 0.0023 (T + 17.8) sqrt(|range|) (T + 273.16) / 273.16 * 2.45)]. *)
Definition evapotranspirationOf {num : Type} `{JSNumber num} `{JSMath num}
    (temp range : num) : num :=
  Math_max2 (ofZ 0)
    ((ofQ 0.0023 * (temp + ofQ 17.8) * Math_sqrt (Math_abs range)
      * (temp + ofQ 273.16) / ofQ 273.16) * ofQ 2.45)%js.

(** The rule of the specification: some good window among the next 8
    samples, at offset [k] among them, has its hour [(hours + 3 k) mod 24]
    in [6, 10]. *)
Definition morningByOffset {num : Type} `{JSNumber num} (hours : nat)
    (forecastData : list (Measurement num)) : bool :=
  let next24h := firstn 8 forecastData in
  existsb (fun '(offset, item) => goodWindow item && morningIndex hours offset)
          (combine (seq 0 (List.length next24h)) next24h).

(** A reply is whole: a success with its data and no error, or a failure
    with its error and no data. *)
Definition wholeResponse {T : Type} (r : WeatherResponse T) : Prop :=
  (success r = true /\ data r <> None /\ error r = None)
  \/ (success r = false /\ data r = None /\ error r <> None).

Definition wholeReply {T : Type} (r : Reply T) : Prop :=
  (r_success r = true /\ r_data r <> None /\ r_error r = None)
  \/ (r_success r = false /\ r_data r = None /\ r_error r <> None).

Definition unavailable {T : Type} : Reply T :=
  {| r_success := false; r_data := None; r_error := Some "Weather data unavailable" |}.

(** What the specification asks of a summary. *)
Definition withinBounds (summary : TemperatureSummary Q) : Prop :=
  t_min summary <= t_average summary /\ t_average summary <= t_max summary.

(** The heat-stress tiers, from the mildest to the most severe. *)
Definition heatRank (risk : HeatRisk) : nat :=
  match risk with
  | HeatNone => 0
  | HeatLow => 1
  | HeatModerate => 2
  | HeatHigh => 3
  | HeatExtreme => 4
  end.

(** The cells that the callback of [parseMarketPricesHTML] keeps, and the
    price it pushes for one. *)
Definition validCell {num : Type} `{JSNumber num} (cell : TickerCell) : bool :=
  truthy (commodityText cell) && truthy (varietyText cell)
  && (parsePrice (maxPriceText cell) >? ofZ 0)%js
  && (parsePrice (minPriceText cell) >? ofZ 0)%js.

Definition priceOf {num : Type} `{JSNumber num} (date : string) (cell : TickerCell)
  : @MarketPrice num :=
  {| commodity := commodityText cell; variety := varietyText cell;
     maxPrice := parsePrice (maxPriceText cell);
     minPrice := parsePrice (minPriceText cell);
     mp_date := date |}.

(** The prices of one commodity, in the order of the list. *)
Definition ofCommodity {num : Type} (name : string) (prices : list (@MarketPrice num))
  : list (@MarketPrice num) :=
  filter (fun price => String.eqb (commodity price) name) prices.

(** The digits of a text, in order. *)
Definition digitsOf (text : string) : list ascii :=
  list_ascii_of_string (String_filter isDigit text).

(** The mean of a list of rationals. *)
Definition Qmean (xs : list Q) : Q := Qsum xs / inject_Z (Z.of_nat (List.length xs)).

(** A day of the forecast as the historical aggregator writes it: the same
    but for the icon, which it leaves out. *)
Definition withoutIcon {num : Type} (day : DailyAggregate num) : DailyAggregate num :=
  {| d_date := d_date day;
     d_temperature := d_temperature day;
     d_humidity := d_humidity day;
     d_pressure := d_pressure day;
     d_windSpeed := d_windSpeed day;
     d_precipitation := d_precipitation day;
     d_weather := {| d_main := d_main (d_weather day);
                     d_description := d_description (d_weather day);
                     d_icon := None |} |}.

(** How pressing an irrigation recommendation is: "skip" and "monitor" ask
    for no water, then "within_48h", "within_24h", "immediate". *)
Definition urgency (r : Recommendation) : nat :=
  match r with
  | Skip | Monitor => 0
  | Within48h => 1
  | Within24h => 2
  | Immediate => 3
  end.

(** The frost tiers, from "none" (0) to "critical" (4). *)
Definition frostRank (risk : FrostRisk) : nat :=
  match risk with
  | FrostNone => 0
  | FrostLow => 1
  | FrostModerate => 2
  | FrostHigh => 3
  | FrostCritical => 4
  end.

(** [colder a b]: sample [b] is at least as cold as sample [a]. *)
Definition colder (a b : Measurement Q) : Prop := temperature b <= temperature a.

(** The double 1: mantissa [2^52], exponent [-52]. *)
Definition SF64one : spec_float := S754_finite false 4503599627370496 (-52).

(** The number a finite double stands for; NaN and the infinities stand
    for none. *)
Definition float_value (x : float) : option Q :=
  match Prim2SF x with
  | S754_zero _ => Some 0
  | S754_finite s m e =>
      Some ((if s then - inject_Z (Zpos m) else inject_Z (Zpos m)) * Qpower 2 e)
  | _ => None
  end.

(** The precipitation of the first 16 samples of a forecast in doubles,
    added up without rounding. *)
Definition exactRain48h (forecastData : list (Measurement float)) : Q :=
  Qsum (map (fun item => match float_value (precipitation item) with
                         | Some rain => rain
                         | None => 0
                         end)
            (firstn 16 forecastData)).

(* ================================================================== *)
(** ** Sample data for the closed instances *)
(* ================================================================== *)


Definition clearSky : Weather :=
  {| main := "Clear"; description := "clear sky"; icon := "01d" |}.

Definition sampleAt {num : Type} `{JSNumber num} (day time : string) (temp : Q) : Measurement num :=
  {| date := day; datetime := day ++ "T" ++ time;
     temperature := ofQ temp; humidity := ofZ 60; pressure := ofZ 1012;
     windSpeed := ofZ 3; precipitation := ofZ 0; weather := clearSky |}.

Definition farm {num : Type} `{JSNumber num} : Location num :=
  {| name := "Farm"; lat := ofQ 28.6; lon := ofQ 77.2 |}.

Definition threeSamples : list (Measurement Q) :=
  [sampleAt "2024-05-01" "21:00:00.000Z" 18;
   sampleAt "2024-05-02" "00:00:00.000Z" 16;
   sampleAt "2024-05-02" "03:00:00.000Z" 15].

Definition hourlyOk : WeatherResponse (WeatherForecast Q) :=
  ok "2024-05-01T20:00:00.000Z"
     {| wf_location := farm; wf_forecast := threeSamples;
        wf_timestamp := "2024-05-01T20:00:00.000Z" |}.

Definition historicalOk : WeatherResponse (HistoricalWeather Q) :=
  ok "2024-05-03T00:00:00.000Z"
     {| hw_location := farm; hw_data := threeSamples;
        hw_period := {| p_start := "2024-05-01"; p_end := "2024-05-02" |};
        hw_timestamp := "2024-05-03T00:00:00.000Z" |}.

Definition hotDry : Current Q :=
  {| c_temperature := 38; c_feelsLike := 40; c_humidity := 20; c_pressure := 1008;
     c_windSpeed := 5; c_windDirection := 180; c_visibility := 10; c_uvIndex := 0;
     c_weather := clearSky |}.

Definition rainyDay : list (Measurement Q) :=
  map (fun item : Measurement Q =>
         {| date := date item; datetime := datetime item; temperature := temperature item;
            humidity := humidity item; pressure := pressure item; windSpeed := windSpeed item;
            precipitation := 3; weather := weather item |})
      threeSamples.

(** Any function serves as [Math.sqrt] where the square root is not read. *)
Definition noSqrt : JSMath Q := {| Math_sqrt := fun x => x |}.

Definition dayWithMin (day : string) (lowest : Q) : DailyAggregate Q :=
  {| d_date := day;
     d_temperature := {| t_min := lowest; t_max := lowest + 9; t_average := lowest + 4 |};
     d_humidity := 60; d_pressure := 1012; d_windSpeed := 3; d_precipitation := 0;
     d_weather := {| d_main := "Clear"; d_description := "clear sky"; d_icon := Some "01d" |} |}.

Definition coldWeek : DailyForecast Q :=
  {| df_location := farm;
     df_forecast := [dayWithMin "2024-11-01" 1; dayWithMin "2024-11-02" 5;
                     dayWithMin "2024-11-03" 6; dayWithMin "2024-11-04" (-3)];
     df_timestamp := "2024-10-31T20:00:00.000Z" |}.

Definition hotDryNow : CurrentWeather Q :=
  {| cw_location := farm; cw_country := "IN"; cw_current := hotDry;
     cw_timestamp := "2024-10-31T20:00:00.000Z" |}.

(** The classified alerts with the given levels, for the closed instances. *)
Definition alertsAt {num : Type} `{JSNumber num} (frost : FrostRisk) (heat : HeatRisk)
    (irrigation : Recommendation)
  : FrostAlert num * IrrigationAdvice num * SprayingWindow num * HeatStressAlert num :=
  ({| f_risk := frost; f_message := ""; f_action := ""; f_timeframe := "";
      f_temperature := Attained (ofZ 8) |},
   {| recommendation := irrigation; i_message := ""; i_reason := []; nextCheck := "";
      waterAmount := "" |},
   {| suitable := false; s_message := ""; bestTime := ""; nextOpportunity := [];
      s_reason := [] |},
   {| h_risk := heat; h_message := ""; h_action := ""; h_duration := [];
      h_temperature := ofZ 20 |}).

Definition overallAt {num : Type} `{JSNumber num} (frost : FrostRisk) (heat : HeatRisk)
    (irrigation : Recommendation) : OverallAdvice :=
  let '(f, i, s, h) := alertsAt (num := num) frost heat irrigation in
  generateOverallAdvice f i s h.

Definition currentFailed : WeatherResponse (CurrentWeather Q) :=
  failed "2024-05-01T20:00:00.000Z" "Request failed with status code 429".

(** Three samples of one day, each at 0.1 degrees, in IEEE doubles. *)
Definition tenths : list (Measurement float) :=
  [sampleAt "2024-01-15" "00:00:00.000Z" 0.1;
   sampleAt "2024-01-15" "03:00:00.000Z" 0.1;
   sampleAt "2024-01-15" "06:00:00.000Z" 0.1].

Definition tenthsResponse : WeatherResponse (WeatherForecast float) :=
  ok "2024-01-14T23:00:00.000Z"
     {| wf_location := farm; wf_forecast := tenths;
        wf_timestamp := "2024-01-14T23:00:00.000Z" |}.

Definition mildNow : CurrentWeather float :=
  {| cw_location := farm; cw_country := "IN";
     cw_current := {| c_temperature := ofZ 20; c_feelsLike := ofZ 20; c_humidity := ofZ 55;
                      c_pressure := ofZ 1012; c_windSpeed := ofZ 4; c_windDirection := ofZ 90;
                      c_visibility := ofZ 10; c_uvIndex := ofZ 0; c_weather := clearSky |};
     cw_timestamp := "2024-05-01T19:00:00.000Z" |}.

(** A forecast fetched at 19:00 UTC: the first day has the 21:00 sample only. *)
Definition lateEvening : WeatherResponse (WeatherForecast float) :=
  ok "2024-05-01T19:00:00.000Z"
     {| wf_location := farm;
        wf_forecast := [sampleAt "2024-05-01" "21:00:00.000Z" 15;
                        sampleAt "2024-05-02" "00:00:00.000Z" 13;
                        sampleAt "2024-05-02" "03:00:00.000Z" 12];
        wf_timestamp := "2024-05-01T19:00:00.000Z" |}.

Definition calmNow : Current Q :=
  {| c_temperature := 22; c_feelsLike := 22; c_humidity := 55; c_pressure := 1012;
     c_windSpeed := 6; c_windDirection := 90; c_visibility := 10; c_uvIndex := 0;
     c_weather := clearSky |}.

(** At 09:00: rain in the first 3-hour sample, a good window in the second. *)
Definition showerThenDry : list (Measurement Q) :=
  [{| date := "2024-05-01"; datetime := "2024-05-01T09:00:00.000Z";
      temperature := 21; humidity := 80; pressure := 1010; windSpeed := 6;
      precipitation := 2; weather := clearSky |};
   {| date := "2024-05-01"; datetime := "2024-05-01T12:00:00.000Z";
      temperature := 23; humidity := 60; pressure := 1011; windSpeed := 5;
      precipitation := 0; weather := clearSky |}].

(** 38 degrees at 75 % humidity, on either arithmetic. *)
Definition humidHeat {num : Type} `{JSNumber num} : Current num :=
  {| c_temperature := ofZ 38; c_feelsLike := ofZ 45; c_humidity := ofZ 75;
     c_pressure := ofZ 1006; c_windSpeed := ofZ 4; c_windDirection := ofZ 200;
     c_visibility := ofZ 8; c_uvIndex := ofZ 0; c_weather := clearSky |}.

(** Five samples of one day, told apart by their condition. *)
Definition fiveOfADay {num : Type} `{JSNumber num} : list (Measurement num) :=
  map (fun '(time, label, temp) =>
         {| date := "2024-07-10"; datetime := "2024-07-10T" ++ time;
            temperature := ofZ temp; humidity := ofZ 50; pressure := ofZ 1010;
            windSpeed := ofZ 4; precipitation := ofZ 0;
            weather := {| main := label; description := label; icon := "03d" |} |})
      [("00:00:00.000Z", "Clear", 19%Z); ("03:00:00.000Z", "Clouds", 18%Z);
       ("06:00:00.000Z", "Rain", 20%Z); ("09:00:00.000Z", "Drizzle", 24%Z);
       ("12:00:00.000Z", "Mist", 27%Z)].

(** 33 degrees at 60 % humidity, and a hotter and more humid hour. *)
Definition warmNow : Current Q :=
  {| c_temperature := 33; c_feelsLike := 35; c_humidity := 60; c_pressure := 1009;
     c_windSpeed := 7; c_windDirection := 120; c_visibility := 9; c_uvIndex := 0;
     c_weather := clearSky |}.

Definition sultryNow : Current Q :=
  {| c_temperature := 36; c_feelsLike := 44; c_humidity := 72; c_pressure := 1007;
     c_windSpeed := 7; c_windDirection := 120; c_visibility := 9; c_uvIndex := 0;
     c_weather := clearSky |}.

(** A gale now; the third 3-hour sample is the first good window. *)
Definition galeNow : Current Q :=
  {| c_temperature := 19; c_feelsLike := 17; c_humidity := 65; c_pressure := 1002;
     c_windSpeed := 32; c_windDirection := 270; c_visibility := 10; c_uvIndex := 0;
     c_weather := clearSky |}.

Definition calmingDown : list (Measurement Q) :=
  map (fun '(time, wind, rain) =>
         {| date := "2024-05-01"; datetime := "2024-05-01T" ++ time;
            temperature := 18; humidity := 65; pressure := 1004;
            windSpeed := inject_Z wind; precipitation := inject_Z rain;
            weather := clearSky |})
      [("12:00:00.000Z", 28%Z, 0%Z); ("15:00:00.000Z", 12%Z, 1%Z);
       ("18:00:00.000Z", 9%Z, 0%Z); ("21:00:00.000Z", 8%Z, 0%Z)].

Definition currentOk : WeatherResponse (CurrentWeather Q) :=
  ok "2024-05-01T20:00:00.000Z" hotDryNow.

(** A mild, calm spring evening. *)
Definition mildEvening : WeatherResponse (CurrentWeather Q) :=
  ok "2024-05-01T20:00:00.000Z"
     {| cw_location := farm; cw_country := "IN"; cw_current := calmNow;
        cw_timestamp := "2024-05-01T20:00:00.000Z" |}.

(** A ticker page: two good cells, one without a variety, one without a
    maximum price. *)
Definition tickerPage : TickerPage :=
  {| pageDate := "2024-05-01";
     cells := [ {| commodityText := "Wheat"; varietyText := "Lokwan";
                   maxPriceText := "2,450"; minPriceText := "2,300" |};
                {| commodityText := "Onion"; varietyText := "";
                   maxPriceText := "1800"; minPriceText := "1500" |};
                {| commodityText := "Apple"; varietyText := "Kinnaur";
                   maxPriceText := "9000.50"; minPriceText := "7000" |};
                {| commodityText := "Apple"; varietyText := "Delicious";
                   maxPriceText := "NR"; minPriceText := "6000" |};
                {| commodityText := "Apple"; varietyText := "American";
                   maxPriceText := "8000"; minPriceText := "6500" |} ] |}.

(** A cold night: the samples of [threeSamples], 15 degrees colder. *)
Definition coldNight : list (Measurement Q) :=
  [sampleAt "2024-05-01" "21:00:00.000Z" 3;
   sampleAt "2024-05-02" "00:00:00.000Z" 1;
   sampleAt "2024-05-02" "03:00:00.000Z" 0].

(** Five days of history with their average temperatures. *)
Definition dayWithAverage (day : string) (average : Q) : DailyAggregate Q :=
  {| d_date := day;
     d_temperature := {| t_min := average - 5; t_max := average + 5; t_average := average |};
     d_humidity := 60; d_pressure := 1012; d_windSpeed := 3; d_precipitation := 0;
     d_weather := {| d_main := "Clear"; d_description := "clear sky"; d_icon := None |} |}.

Definition springWeek : HistoricalDailyWeather Q :=
  {| hd_location := farm;
     hd_data := [dayWithAverage "2024-05-01" 8; dayWithAverage "2024-05-02" 12;
                 dayWithAverage "2024-05-03" 15; dayWithAverage "2024-05-04" 9];
     hd_period := {| p_start := "2024-05-01"; p_end := "2024-05-04" |};
     hd_timestamp := "2024-05-05T00:00:00.000Z" |}.

(** A heat wave, on any numbers: 38 degrees, 20% humidity. *)
Definition heatWave {num : Type} `{JSNumber num} : Current num :=
  {| c_temperature := ofZ 38; c_feelsLike := ofZ 40; c_humidity := ofZ 20;
     c_pressure := ofZ 1008; c_windSpeed := ofZ 5; c_windDirection := ofZ 180;
     c_visibility := ofZ 10; c_uvIndex := ofZ 0; c_weather := clearSky |}.

Definition rainAt {num : Type} `{JSNumber num} (time : string) (rain : Q) : Measurement num :=
  {| date := "2024-05-02"; datetime := "2024-05-02T" ++ time;
     temperature := ofZ 22; humidity := ofZ 60; pressure := ofZ 1012;
     windSpeed := ofZ 3; precipitation := ofQ rain; weather := clearSky |}.

(** 5 mm, then 2^-60 mm: both are doubles, their sum is not. *)
Definition barelyAbove5 {num : Type} `{JSNumber num} : list (Measurement num) :=
  [rainAt "00:00:00.000Z" 5; rainAt "03:00:00.000Z" (1 # 1152921504606846976)].

(** 0.2 mm, 4.4 mm and 0.4 mm: 5 mm in all. *)
Definition fiveInAll {num : Type} `{JSNumber num} : list (Measurement num) :=
  [rainAt "00:00:00.000Z" 0.2; rainAt "03:00:00.000Z" 4.4; rainAt "06:00:00.000Z" 0.4].

(* ================================================================== *)
(** * Properties *)
(* ================================================================== *)

(** ** Daily aggregation is a grouping *)

Section Grouping.

Context {num : Type} `{JSNumber num}.

Local Abbreviation Measurement := (Measurement num).
Local Abbreviation DailyMap := (DailyMap num).

Lemma existsb_key_In (d : string) (keys : list string) :
  existsb (fun k => String.eqb k d) keys = true <-> In d keys.
Proof.
  rewrite existsb_exists. split.
  - intros [k [Hin Hk]]. apply String.eqb_eq in Hk. now subst.
  - intros Hin. exists d. split; [assumption | apply String.eqb_refl].
Qed.

Lemma existsb_key_notIn (d : string) (keys : list string) :
  existsb (fun k => String.eqb k d) keys = false <-> ~ In d keys.
Proof.
  rewrite <- existsb_key_In. destruct (existsb _ keys); split; congruence.
Qed.

Lemma Map_has_grouped (keys : list string) (seen : list Measurement) (d : string) :
  Map_has (grouped keys seen) d = existsb (fun k => String.eqb k d) keys.
Proof.
  unfold Map_has, grouped. induction keys as [|k keys IH]; simpl; [reflexivity|].
  now rewrite IH.
Qed.

Lemma Map_set_fresh (m : DailyMap) (d : string) (v : list Measurement) :
  ~ In d (map fst m) -> Map_set m d v = m ++ [(d, v)].
Proof.
  induction m as [|[k w] m IH]; simpl; intros Hfresh; [reflexivity|].
  destruct (String.eqb_spec k d) as [-> | _].
  - exfalso. apply Hfresh. now left.
  - rewrite IH; [reflexivity|]. intros Hin. apply Hfresh. now right.
Qed.

Lemma Map_get_push_last (m : DailyMap) (d : string) (v : list Measurement) (x : Measurement) :
  ~ In d (map fst m) ->
  Map_get_push (m ++ [(d, v)]) d x = Normal (m ++ [(d, v ++ [x])]).
Proof.
  induction m as [|[k w] m IH]; simpl; intros Hfresh.
  - now rewrite String.eqb_refl.
  - destruct (String.eqb_spec k d) as [-> | _].
    + exfalso. apply Hfresh. now left.
    + rewrite IH; [reflexivity|]. intros Hin. apply Hfresh. now right.
Qed.

Lemma filter_onDate_snoc (d : string) (seen : list Measurement) (x : Measurement) :
  filter (onDate d) (seen ++ [x])
  = filter (onDate d) seen ++ (if String.eqb (date x) d then [x] else []).
Proof.
  rewrite filter_app. simpl. unfold onDate at 2. now destruct (String.eqb (date x) d).
Qed.

Lemma grouped_snoc_other (keys : list string) (seen : list Measurement) (x : Measurement) :
  ~ In (date x) keys -> grouped keys (seen ++ [x]) = grouped keys seen.
Proof.
  unfold grouped. intros Hfresh. apply map_ext_in. intros k Hk.
  rewrite filter_onDate_snoc.
  destruct (String.eqb_spec (date x) k) as [E|_].
  - exfalso. apply Hfresh. now rewrite E.
  - now rewrite app_nil_r.
Qed.

Lemma Map_get_push_grouped (keys : list string) (seen : list Measurement) (x : Measurement) :
  NoDup keys -> In (date x) keys ->
  Map_get_push (grouped keys seen) (date x) x = Normal (grouped keys (seen ++ [x])).
Proof.
  induction keys as [|k keys IH]; simpl; intros Hnd Hin; [contradiction|].
  inversion Hnd as [|? ? Hk Hnd']; subst.
  rewrite filter_onDate_snoc.
  destruct (String.eqb_spec k (date x)) as [E|Hne].
  - subst k. rewrite String.eqb_refl. fold (grouped keys seen).
    fold (grouped keys (seen ++ [x])). now rewrite grouped_snoc_other.
  - destruct Hin as [E|Hin]; [congruence|].
    fold (grouped keys seen). rewrite (IH Hnd' Hin). simpl.
    destruct (String.eqb_spec (date x) k) as [E|_]; [congruence|].
    now rewrite app_nil_r.
Qed.

Lemma filter_onDate_unseen (keys : list string) (seen : list Measurement) (d : string) :
  covers keys seen -> ~ In d keys -> filter (onDate d) seen = [].
Proof.
  intros [_ Hcov] Hfresh. induction seen as [|y seen IH]; simpl; [reflexivity|].
  unfold onDate at 1. destruct (String.eqb_spec (date y) d) as [E|_].
  - exfalso. apply Hfresh. rewrite <- E. apply Hcov. now left.
  - apply IH. intros z Hz. apply Hcov. now right.
Qed.

Lemma covers_step (keys : list string) (seen : list Measurement) (x : Measurement) :
  covers keys seen -> covers (addKey keys (date x)) (seen ++ [x]).
Proof.
  intros [Hnd Hcov]. unfold addKey.
  destruct (existsb _ keys) eqn:E.
  - apply existsb_key_In in E. split; [assumption|].
    intros y Hy. apply in_app_or in Hy. destruct Hy as [Hy|[<-|[]]]; auto.
  - apply existsb_key_notIn in E. split.
    + apply NoDup_app; [assumption | repeat constructor; simpl; tauto |].
      intros k Hk [<-|[]]. contradiction.
    + intros y Hy. apply in_or_app. apply in_app_or in Hy.
      destruct Hy as [Hy|[<-|[]]]; [left; auto | right; now left].
Qed.

Lemma groupStep_grouped (keys : list string) (seen : list Measurement) (x : Measurement) :
  covers keys seen ->
  groupStep (grouped keys seen) x = Normal (grouped (addKey keys (date x)) (seen ++ [x])).
Proof.
  intros Hcov. unfold groupStep, addKey. rewrite Map_has_grouped.
  destruct (existsb _ keys) eqn:E; simpl.
  - apply existsb_key_In in E. apply Map_get_push_grouped; [apply Hcov | assumption].
  - apply existsb_key_notIn in E.
    assert (Hfst : map fst (grouped keys seen) = keys).
    { unfold grouped. rewrite map_map. simpl. apply map_id. }
    rewrite Map_set_fresh by now rewrite Hfst.
    rewrite Map_get_push_last by now rewrite Hfst.
    unfold grouped at 2. rewrite map_app. simpl.
    fold (grouped keys (seen ++ [x])). rewrite grouped_snoc_other by assumption.
    rewrite filter_onDate_snoc, String.eqb_refl.
    now rewrite (filter_onDate_unseen _ Hcov E).
Qed.

Lemma foldM_groupStep (samples seen : list Measurement) (keys : list string) :
  covers keys seen ->
  foldM groupStep samples (grouped keys seen)
  = Normal (grouped (fold_left addKey (map (@date num) samples) keys) (seen ++ samples)).
Proof.
  revert seen keys. induction samples as [|x samples IH]; simpl; intros seen keys Hcov.
  - now rewrite app_nil_r.
  - rewrite (groupStep_grouped x Hcov). simpl.
    rewrite (IH _ _ (covers_step x Hcov)). now rewrite <- app_assoc.
Qed.

(** [forEach] never throws, and leaves one entry per distinct date, at the
    place of the date's first sample, holding the samples of that date. *)
Lemma groupByDate_grouped (samples : list Measurement) :
  groupByDate samples = Normal (grouped (keysOf samples) samples).
Proof.
  unfold groupByDate, keysOf.
  change (@nil (string * list Measurement)) with (grouped (num := num) [] []).
  rewrite foldM_groupStep; [reflexivity|].
  split; [constructor | intros y []].
Qed.

End Grouping.

(** *** The order of dates *)

Lemma date_lt_trans (a b c : string) : date_lt a b -> date_lt b c -> date_lt a c.
Proof.
  unfold date_lt, localeCompare. intros Hab Hbc.
  exact (StrictOrder_Transitive (R := String_as_OT.lt) a b c Hab Hbc).
Qed.

Lemma date_lt_irrefl (a : string) : ~ date_lt a a.
Proof.
  unfold date_lt, localeCompare.
  exact (StrictOrder_Irreflexive (R := String_as_OT.lt) a).
Qed.

Lemma date_le_cases (a b : string) : date_le a b <-> date_lt a b \/ a = b.
Proof.
  unfold date_le, date_lt, localeCompare.
  destruct (String_as_OT.compare_spec a b) as [E|L|G]; split; intros Hx;
    try (now left); try (now right); try congruence.
  destruct Hx as [Hx|Hx]; [discriminate|].
  subst. exfalso. exact (StrictOrder_Irreflexive (R := String_as_OT.lt) b G).
Qed.

Lemma date_le_refl (a : string) : date_le a a.
Proof. apply date_le_cases. now right. Qed.

Lemma date_le_trans (a b c : string) : date_le a b -> date_le b c -> date_le a c.
Proof.
  rewrite !date_le_cases. intros [Hab | ->] [Hbc | ->]; auto.
  left. eapply date_lt_trans; eassumption.
Qed.

Lemma date_gt_lt (a b : string) : localeCompare a b = Gt -> date_lt b a.
Proof.
  unfold date_lt, localeCompare.
  destruct (String_as_OT.compare_spec a b) as [E|L|G]; intros Hx; try discriminate.
  exact G.
Qed.

(** *** [Array_sort] on a key of dates *)

Section SortByDate.

Variables (A : Type) (key : A -> string).

Let cmp (a b : A) : comparison := localeCompare (key a) (key b).
Let le (a b : A) : Prop := date_le (key a) (key b).
Let lt (a b : A) : Prop := date_lt (key a) (key b).

Lemma sort_insert_Permutation (x : A) (l : list A) :
  Permutation (sort_insert cmp x l) (x :: l).
Proof.
  induction l as [|y l IH]; simpl; [reflexivity|].
  destruct (cmp x y); try reflexivity.
  rewrite IH. apply perm_swap.
Qed.

Lemma Array_sort_Permutation (l : list A) : Permutation (Array_sort cmp l) l.
Proof.
  unfold Array_sort. induction l as [|x l IH]; simpl; [reflexivity|].
  rewrite sort_insert_Permutation. now constructor.
Qed.

Lemma sort_insert_HdRel (a x : A) (l : list A) :
  le a x -> HdRel le a l -> HdRel le a (sort_insert cmp x l).
Proof.
  intros Hax Hal. destruct l as [|y l]; simpl; [now constructor|].
  inversion Hal; subst. destruct (cmp x y); now constructor.
Qed.

Lemma sort_insert_Sorted (x : A) (l : list A) :
  Sorted le l -> Sorted le (sort_insert cmp x l).
Proof.
  induction l as [|y l IH]; simpl; intros Hs; [repeat constructor|].
  inversion Hs as [|? ? Hl Hy]; subst.
  destruct (cmp x y) eqn:E; unfold cmp in E.
  - constructor; [assumption|]. constructor. unfold le, date_le. congruence.
  - constructor; [assumption|]. constructor. unfold le, date_le. congruence.
  - constructor; [now apply IH|]. apply sort_insert_HdRel; [|assumption].
    unfold le. apply date_le_cases. left. now apply date_gt_lt.
Qed.

Lemma Array_sort_Sorted (l : list A) : Sorted le (Array_sort cmp l).
Proof.
  unfold Array_sort. induction l as [|x l IH]; simpl; [constructor|].
  now apply sort_insert_Sorted.
Qed.

Lemma Sorted_le_NoDup_lt (l : list A) :
  Sorted le l -> NoDup (map key l) -> StronglySorted lt l.
Proof.
  intros Hs Hnd. apply Sorted_StronglySorted in Hs.
  2:{ intros a b c. unfold le. apply date_le_trans. }
  induction Hs as [|a l Hl IH Ha]; [constructor|].
  simpl in Hnd. inversion Hnd as [|? ? Hnotin Hnd']; subst.
  constructor; [now apply IH|].
  rewrite Forall_forall in *. intros b Hb.
  specialize (Ha b Hb). unfold le in Ha. apply date_le_cases in Ha.
  destruct Ha as [Ha|Ha]; [exact Ha|].
  exfalso. apply Hnotin. rewrite Ha. now apply in_map.
Qed.

Lemma StronglySorted_map_key (l : list A) :
  StronglySorted date_lt (map key l) -> StronglySorted lt l.
Proof.
  induction l as [|a l IH]; simpl; intros Hs; [constructor|].
  inversion Hs as [|? ? Hl Ha]; subst. constructor; [now apply IH|].
  rewrite Forall_forall in *. intros b Hb. apply Ha. now apply in_map.
Qed.

End SortByDate.

(** *** The keys of the map *)

Section Keys.

Context {num : Type} `{JSNumber num}.

Lemma addKey_fold_In (ds keys : list string) (d : string) :
  In d (fold_left addKey ds keys) <-> In d keys \/ In d ds.
Proof.
  revert keys. induction ds as [|e ds IH]; simpl; intros keys; [tauto|].
  rewrite IH. unfold addKey. destruct (existsb _ keys) eqn:E.
  - apply existsb_key_In in E. split; [tauto|]. intros [Hk|[<-|Hd]]; auto.
  - rewrite in_app_iff. simpl. tauto.
Qed.

Lemma addKey_fold_NoDup (ds keys : list string) :
  NoDup keys -> NoDup (fold_left addKey ds keys).
Proof.
  revert keys. induction ds as [|e ds IH]; simpl; intros keys Hnd; [assumption|].
  apply IH. unfold addKey. destruct (existsb _ keys) eqn:E; [assumption|].
  apply existsb_key_notIn in E.
  apply NoDup_app; [assumption | repeat constructor; simpl; tauto |].
  intros k Hk [<-|[]]. contradiction.
Qed.

Lemma keysOf_In (samples : list (Measurement num)) (d : string) :
  In d (keysOf samples) <-> In d (map (@date num) samples).
Proof. unfold keysOf. rewrite addKey_fold_In. simpl. tauto. Qed.

Lemma keysOf_NoDup (samples : list (Measurement num)) : NoDup (keysOf samples).
Proof. apply addKey_fold_NoDup. constructor. Qed.

Lemma StronglySorted_snoc (keys : list string) (d : string) :
  StronglySorted date_lt keys -> Forall (fun k => date_lt k d) keys ->
  StronglySorted date_lt (keys ++ [d]).
Proof.
  induction keys as [|k keys IH]; simpl; intros Hs Hall.
  - repeat constructor.
  - inversion Hs as [|? ? Hs' Hk]; subst. inversion Hall as [|? ? Hkd Hall']; subst.
    constructor; [now apply IH|].
    apply Forall_app. split; [assumption | now repeat constructor].
Qed.

Lemma addKey_fold_sorted (ds keys : list string) :
  StronglySorted date_le ds ->
  StronglySorted date_lt keys ->
  (forall k d, In k keys -> In d ds -> date_le k d) ->
  StronglySorted date_lt (fold_left addKey ds keys).
Proof.
  revert keys. induction ds as [|e ds IH]; simpl; intros keys Hds Hkeys Hbound; [assumption|].
  inversion Hds as [|? ? Hds' He]; subst. rewrite Forall_forall in He.
  apply IH; [assumption | |]; unfold addKey; destruct (existsb _ keys) eqn:E.
  - assumption.
  - apply existsb_key_notIn in E. apply StronglySorted_snoc; [assumption|].
    rewrite Forall_forall. intros k Hk.
    assert (Hle : date_le k e) by (apply Hbound; [assumption | now left]).
    apply date_le_cases in Hle. destruct Hle as [Hlt | ->]; [assumption | contradiction].
  - intros k d Hk Hd. apply Hbound; [assumption | now right].
  - intros k d Hk Hd. apply in_app_or in Hk. destruct Hk as [Hk|[<-|[]]].
    + apply Hbound; [assumption | now right].
    + now apply He.
Qed.

Lemma keysOf_sorted (samples : list (Measurement num)) :
  chronological samples -> StronglySorted date_lt (keysOf samples).
Proof.
  intros Hc. unfold keysOf. apply addKey_fold_sorted.
  - apply Sorted_StronglySorted in Hc.
    2:{ intros a b c. apply date_le_trans. }
    induction Hc as [|a l Hl IH Ha]; simpl; constructor; [assumption|].
    rewrite Forall_forall in *. intros d Hd. apply in_map_iff in Hd.
    destruct Hd as [b [<- Hb]]. now apply Ha.
  - constructor.
  - intros k d [].
Qed.

(** Every sample is in exactly one group. *)
Lemma groupSizes_nil (keys : list string) :
  list_sum (groupSizes (grouped keys (@nil (Measurement num)))) = 0%nat.
Proof.
  unfold groupSizes, grouped. rewrite map_map. simpl.
  induction keys as [|k keys IHk]; simpl; [reflexivity | exact IHk].
Qed.

Lemma groupSizes_cons (keys : list string) (x : Measurement num)
    (samples : list (Measurement num)) :
  NoDup keys -> In (date x) keys ->
  list_sum (groupSizes (grouped keys (x :: samples)))
  = S (list_sum (groupSizes (grouped keys samples))).
Proof.
  unfold groupSizes, grouped. rewrite !map_map. simpl.
  induction keys as [|k keys IHk]; simpl; intros Hnd Hx; [contradiction|].
  inversion Hnd as [|? ? Hk Hnd']; subst. unfold onDate at 1.
  destruct (String.eqb_spec (date x) k) as [E|Hne]; simpl.
  - f_equal. f_equal. apply f_equal. apply map_ext_in. intros k' Hk'.
    unfold onDate at 1. destruct (String.eqb_spec (date x) k') as [E'|_]; [|reflexivity].
    exfalso. apply Hk. now rewrite <- E, E'.
  - destruct Hx as [Hx|Hx]; [congruence|]. rewrite (IHk Hnd' Hx). lia.
Qed.

Lemma groupSizes_total (keys : list string) (samples : list (Measurement num)) :
  NoDup keys -> (forall y, In y samples -> In (date y) keys) ->
  list_sum (groupSizes (grouped keys samples)) = List.length samples.
Proof.
  intros Hnd. induction samples as [|x samples IH]; intros Hcov.
  - apply groupSizes_nil.
  - rewrite groupSizes_cons; [|assumption | apply Hcov; now left].
    simpl. f_equal. apply IH. intros y Hy. apply Hcov. now right.
Qed.

End Keys.

(** *** One aggregate per group *)

Section Aggregates.

Context {num : Type} `{JSNumber num}.

Local Abbreviation Measurement := (Measurement num).
Local Abbreviation DailyAggregate := (DailyAggregate num).

Lemma aggregateGroup_cons (withIcon : bool) (d : string) (x : Measurement)
    (rest : list Measurement) :
  exists day, aggregateGroup withIcon (d, x :: rest) = Normal day
              /\ d_date day = d
              /\ d_temperature day = summaryOf x rest.
Proof.
  unfold aggregateGroup.
  destruct (nth_error (x :: rest) (List.length (x :: rest) / 2)) as [middle|] eqn:E.
  - simpl map. eexists. split; [reflexivity|]. split; reflexivity.
  - exfalso. apply nth_error_None in E.
    assert (List.length (x :: rest) / 2 < List.length (x :: rest))%nat.
    { apply Nat.div_lt; simpl; lia. }
    lia.
Qed.

Lemma aggregateGroup_nonempty (withIcon : bool) (d : string) (items : list Measurement) :
  items <> [] ->
  exists day, aggregateGroup withIcon (d, items) = Normal day /\ d_date day = d.
Proof.
  destruct items as [|x rest]; [congruence|]. intros _.
  destruct (aggregateGroup_cons withIcon d x rest) as [day [E [Hd _]]]. eauto.
Qed.

Lemma mapM_aggregateGroup (withIcon : bool) (dailyMap : DailyMap num) :
  Forall (fun entry => snd entry <> []) dailyMap ->
  exists days, mapM (aggregateGroup withIcon) dailyMap = Normal days
               /\ map (@d_date num) days = map fst dailyMap.
Proof.
  induction 1 as [|[d items] m Hne Hm [days [E Hdates]]]; cbn [mapM].
  - exists []. split; reflexivity.
  - simpl in Hne. destruct (aggregateGroup_nonempty withIcon d Hne) as [day [Eday Hd]].
    rewrite Eday, E. cbn [bind].
    exists (day :: days). split; [reflexivity|]. simpl. now rewrite Hd, Hdates.
Qed.

Lemma grouped_nonempty (samples : list Measurement) :
  Forall (fun entry => snd entry <> []) (grouped (keysOf samples) samples).
Proof.
  rewrite Forall_forall. intros [d items] Hin.
  unfold grouped in Hin. apply in_map_iff in Hin.
  destruct Hin as [k [Ek Hk]]. inversion Ek; subst. simpl.
  apply keysOf_In in Hk. apply in_map_iff in Hk. destruct Hk as [y [Hy Hin]].
  intros Hnil.
  assert (Hf : In y (filter (onDate d) samples)).
  { apply filter_In. split; [assumption|]. unfold onDate. now apply String.eqb_eq. }
  rewrite Hnil in Hf. contradiction.
Qed.

Lemma grouped_keys (keys : list string) (samples : list Measurement) :
  map fst (grouped keys samples) = keys.
Proof. unfold grouped. rewrite map_map. simpl. apply map_id. Qed.

Lemma aggregate_grouped (withIcon : bool) (samples : list Measurement) :
  exists perDay,
    mapM (aggregateGroup withIcon) (grouped (keysOf samples) samples) = Normal perDay
    /\ map (@d_date num) perDay = keysOf samples.
Proof.
  destruct (mapM_aggregateGroup withIcon (grouped_nonempty samples)) as [perDay [E Hdates]].
  exists perDay. split; [exact E|]. now rewrite Hdates, grouped_keys.
Qed.

Lemma groupingOf_Permutation (withIcon : bool) (samples : list Measurement)
    (days perDay : list DailyAggregate) :
  mapM (aggregateGroup withIcon) (grouped (keysOf samples) samples) = Normal perDay ->
  map (@d_date num) perDay = keysOf samples ->
  Permutation days perDay ->
  groupingOf withIcon samples days.
Proof.
  intros Em Hdates Hp. exists (grouped (keysOf samples) samples), perDay.
  assert (Hpd : Permutation (map (@d_date num) days) (keysOf samples)).
  { rewrite <- Hdates. now apply Permutation_map. }
  split; [apply groupByDate_grouped|]. split; [|split; [exact Em|]].
  { intros d items Hin. unfold grouped in Hin. apply in_map_iff in Hin.
    destruct Hin as [k [E _]]. now inversion E. }
  rewrite grouped_keys. split; [exact Hdates|]. split; [exact Hp|]. split; [|split].
  - apply (Permutation_NoDup (Permutation_sym Hpd)). apply keysOf_NoDup.
  - intros d. rewrite <- keysOf_In. split; apply Permutation_in; [|symmetry]; assumption.
  - apply groupSizes_total; [apply keysOf_NoDup|].
    intros y Hy. apply keysOf_In. now apply in_map.
Qed.

Lemma forecast_grouping (now : string) (hourlyResponse : WeatherResponse (WeatherForecast num))
    (hourlyData : WeatherForecast num) :
  success hourlyResponse = true -> data hourlyResponse = Some hourlyData ->
  exists days,
    getDailyForecast now hourlyResponse
    = ok now {| df_location := wf_location hourlyData;
                df_forecast := days;
                df_timestamp := now |}
    /\ mapM (aggregateGroup true)
            (grouped (keysOf (wf_forecast hourlyData)) (wf_forecast hourlyData))
       = Normal days
    /\ map (@d_date num) days = keysOf (wf_forecast hourlyData).
Proof.
  intros Hs Hd. unfold getDailyForecast, requireData. rewrite Hs, Hd. simpl.
  rewrite groupByDate_grouped. simpl.
  destruct (aggregate_grouped true (wf_forecast hourlyData)) as [days [E Hdates]].
  rewrite E. simpl. exists days. repeat split; assumption.
Qed.

Lemma historical_grouping (now : string)
    (historicalResponse : WeatherResponse (HistoricalWeather num))
    (historicalData : HistoricalWeather num) :
  success historicalResponse = true -> data historicalResponse = Some historicalData ->
  exists days,
    getHistoricalDailyWeather now historicalResponse
    = ok now {| hd_location := hw_location historicalData;
                hd_data := Array_sort (fun a b => localeCompare (d_date a) (d_date b)) days;
                hd_period := hw_period historicalData;
                hd_timestamp := now |}
    /\ mapM (aggregateGroup false)
            (grouped (keysOf (hw_data historicalData)) (hw_data historicalData))
       = Normal days
    /\ map (@d_date num) days = keysOf (hw_data historicalData).
Proof.
  intros Hs Hd. unfold getHistoricalDailyWeather, requireData. rewrite Hs, Hd. simpl.
  rewrite groupByDate_grouped. simpl.
  destruct (aggregate_grouped false (hw_data historicalData)) as [days [E Hdates]].
  rewrite E. simpl. exists days. repeat split; assumption.
Qed.

End Aggregates.

(** C1. Daily aggregation, in [getDailyForecast] and in
    [getHistoricalDailyWeather] alike, succeeds on every sequence of samples
    and returns one aggregate per distinct date of the input: the dates of the
    aggregates are distinct, they are exactly the dates of the samples, and the
    sizes of the groups the aggregates are computed from add up to the number
    of samples.  An empty input gives a successful reply with no aggregate.
    When the samples are in chronological order the aggregates are in
    ascending date order (the historical variant sorts, so there the order
    holds for every input). *)
Theorem daily_aggregation_is_a_grouping {num : Type} `{JSNumber num} (now : string)
    (hourlyResponse : WeatherResponse (WeatherForecast num)) (hourlyData : WeatherForecast num)
    (historicalResponse : WeatherResponse (HistoricalWeather num))
    (historicalData : HistoricalWeather num) :
  success hourlyResponse = true -> data hourlyResponse = Some hourlyData ->
  success historicalResponse = true -> data historicalResponse = Some historicalData ->
  (exists days,
      getDailyForecast now hourlyResponse
      = ok now {| df_location := wf_location hourlyData;
                  df_forecast := days;
                  df_timestamp := now |}
      /\ groupingOf true (wf_forecast hourlyData) days
      /\ (wf_forecast hourlyData = [] -> days = [])
      /\ (chronological (wf_forecast hourlyData) -> ascending days))
  /\
  (exists days,
      getHistoricalDailyWeather now historicalResponse
      = ok now {| hd_location := hw_location historicalData;
                  hd_data := days;
                  hd_period := hw_period historicalData;
                  hd_timestamp := now |}
      /\ groupingOf false (hw_data historicalData) days
      /\ (hw_data historicalData = [] -> days = [])
      /\ ascending days).
Proof.
  intros Hs Hd Hs' Hd'. split.
  - destruct (forecast_grouping now hourlyResponse Hs Hd) as [days [E [Em Hdates]]].
    exists days. split; [exact E|]. split; [|split].
    + exact (groupingOf_Permutation _ _ Em Hdates (Permutation_refl days)).
    + intros Hnil. rewrite Hnil in Hdates. now apply map_eq_nil in Hdates.
    + intros Hc. apply StronglySorted_map_key. rewrite Hdates. now apply keysOf_sorted.
  - destruct (historical_grouping now historicalResponse Hs' Hd') as [days [E [Em Hdates]]].
    set (cmp := fun a b : DailyAggregate num => localeCompare (d_date a) (d_date b)) in *.
    assert (Hp : Permutation (Array_sort cmp days) days)
      by apply (Array_sort_Permutation (@d_date num)).
    exists (Array_sort cmp days). split; [exact E|]. split; [|split].
    + exact (groupingOf_Permutation _ _ Em Hdates Hp).
    + intros Hnil. rewrite Hnil in Hdates. apply map_eq_nil in Hdates. now subst.
    + apply Sorted_le_NoDup_lt; [apply Array_sort_Sorted|].
      apply (Permutation_NoDup (l := map (@d_date num) days)).
      * apply Permutation_map. now symmetry.
      * rewrite Hdates. apply keysOf_NoDup.
Qed.

Lemma daily_aggregation_is_a_grouping_witness :
  (exists days,
      getDailyForecast "2024-05-01T20:00:01.000Z" hourlyOk
      = ok "2024-05-01T20:00:01.000Z"
           {| df_location := farm; df_forecast := days;
              df_timestamp := "2024-05-01T20:00:01.000Z" |}
      /\ groupingOf true threeSamples days
      /\ (threeSamples = [] -> days = [])
      /\ (chronological threeSamples -> ascending days))
  /\
  (exists days,
      getHistoricalDailyWeather "2024-05-01T20:00:01.000Z" historicalOk
      = ok "2024-05-01T20:00:01.000Z"
           {| hd_location := farm; hd_data := days;
              hd_period := {| p_start := "2024-05-01"; p_end := "2024-05-02" |};
              hd_timestamp := "2024-05-01T20:00:01.000Z" |}
      /\ groupingOf false threeSamples days
      /\ (threeSamples = [] -> days = [])
      /\ ascending days).
Proof.
  apply (daily_aggregation_is_a_grouping (num := Q) "2024-05-01T20:00:01.000Z"
           hourlyOk (hourlyData := {| wf_location := farm; wf_forecast := threeSamples;
                                      wf_timestamp := "2024-05-01T20:00:00.000Z" |})
           historicalOk
           (historicalData := {| hw_location := farm; hw_data := threeSamples;
                                 hw_period := {| p_start := "2024-05-01"; p_end := "2024-05-02" |};
                                 hw_timestamp := "2024-05-03T00:00:00.000Z" |}));
    reflexivity.
Defined.

(** ** Exact arithmetic: the comparisons of the [Q] instance *)

Lemma Q_ltb_lt (a b : Q) : Q_ltb a b = true <-> a < b.
Proof.
  unfold Q_ltb. rewrite negb_true_iff. split.
  - intros E. apply Qnot_le_lt. intros Hle. apply Qle_bool_iff in Hle. congruence.
  - intros Hlt. destruct (Qle_bool b a) eqn:E; [|reflexivity].
    apply Qle_bool_iff in E. exfalso. exact (Qlt_not_le _ _ Hlt E).
Qed.

Lemma Q_ltb_ge (a b : Q) : Q_ltb a b = false <-> b <= a.
Proof.
  unfold Q_ltb. rewrite negb_false_iff. apply Qle_bool_iff.
Qed.

Lemma Q_leb_gt (a b : Q) : Qle_bool a b = false <-> b < a.
Proof.
  rewrite <- Q_ltb_lt. unfold Q_ltb. now rewrite negb_true_iff.
Qed.

(** Reads every comparison met in the goal as a proposition on [Q]. *)
Ltac q_compare :=
  repeat match goal with
         | H : Q_ltb _ _ = true |- _ => apply Q_ltb_lt in H
         | H : Q_ltb _ _ = false |- _ => apply Q_ltb_ge in H
         | H : Qle_bool _ _ = true |- _ => apply Qle_bool_iff in H
         | H : Qle_bool _ _ = false |- _ => apply Q_leb_gt in H
         | H : Qeq_bool _ _ = true |- _ => apply Qeq_bool_iff in H
         | H : Qeq_bool _ _ = false |- _ => apply Qeq_bool_neq in H
         end.

Lemma Q_orElse_eq (x d : Q) : d == 0 -> orElse x d == x.
Proof.
  intros Hd. change (orElse x d) with (if Qeq_bool x 0 then d else x).
  destruct (Qeq_bool x 0) eqn:E; [|reflexivity].
  apply Qeq_bool_iff in E. rewrite E, Hd. reflexivity.
Qed.

Lemma fold_left_Qsum {A : Type} (f g : A -> Q) (xs : list A) (acc : Q) :
  (forall x, f x == g x) ->
  fold_left (fun sum x => sum + f x) xs acc == acc + Qsum (map g xs).
Proof.
  intros Hfg. revert acc. induction xs as [|x xs IH]; simpl; intros acc.
  - ring.
  - rewrite IH, Hfg. ring.
Qed.

(** ** Irrigation: rain first, then the water-stress tiers *)

Lemma totalRain_rain48h (forecastData : list (Measurement Q)) :
  totalRain forecastData == rain48h forecastData.
Proof.
  unfold totalRain, rain48h.
  rewrite (fold_left_Qsum (fun item => orElse (precipitation item) (ofZ 0))
                          (@precipitation Q)).
  - change (ofZ 0) with 0. ring.
  - intros item. now apply Q_orElse_eq.
Qed.

(** The cascade of [generateIrrigationAdvice], on any numbers (IEEE doubles
    included): the comparisons are the program's own. *)
Lemma irrigation_cascade {num : Type} `{JSNumber num} (currentWeather : Current num)
    (forecastData : list (Measurement num)) :
  recommendation (generateIrrigationAdvice currentWeather forecastData)
  = if (totalRain forecastData >? ofZ 5)%js then Skip
    else if (c_temperature currentWeather >? ofZ 35)%js
            && (c_humidity currentWeather <? ofZ 35)%js then Immediate
    else if (c_temperature currentWeather >? ofZ 30)%js
            && (c_humidity currentWeather <? ofZ 40)%js then Within24h
    else if (c_temperature currentWeather >? ofZ 25)%js
            && (c_humidity currentWeather <? ofZ 50)%js then Within48h
    else Monitor.
Proof.
  unfold generateIrrigationAdvice.
  destruct (totalRain forecastData >? ofZ 5)%js; [reflexivity|].
  destruct ((c_temperature currentWeather >? ofZ 35)%js
            && (c_humidity currentWeather <? ofZ 35)%js); [reflexivity|].
  destruct ((c_temperature currentWeather >? ofZ 30)%js
            && (c_humidity currentWeather <? ofZ 40)%js); [reflexivity|].
  destruct ((c_temperature currentWeather >? ofZ 25)%js
            && (c_humidity currentWeather <? ofZ 50)%js); reflexivity.
Qed.

Lemma Q_stress_tier (temp humidity : Q) (t h : Z) :
  ((temp >? ofZ t)%js && (humidity <? ofZ h)%js = true)
  <-> (inject_Z t < temp /\ humidity < inject_Z h).
Proof.
  rewrite andb_true_iff. change (ofZ t) with (inject_Z t). change (ofZ h) with (inject_Z h).
  simpl. now rewrite !Q_ltb_lt.
Qed.

(** In double precision a total that exceeds 5 by less than the rounding
    is not above 5 to the program, and a total of exactly 5 can be.  The
    doubles 5 and 2^-60 add up to more than 5, the program's sum is 5 and the
    answer in a heat wave is "immediate", not "skip"; 0.2, 4.4 and 0.4 add
    up to 5, the program's sum is 5.000000000000001 and the answer is
    "skip". *)
Lemma rain_total_is_rounded_in_doubles :
  5 < exactRain48h barelyAbove5
  /\ recommendation (generateIrrigationAdvice (num := float) heatWave barelyAbove5)
     = Immediate
  /\ recommendation (generateIrrigationAdvice (num := Q) heatWave barelyAbove5) = Skip
  /\ rain48h fiveInAll == 5
  /\ recommendation (generateIrrigationAdvice (num := float) heatWave fiveInAll) = Skip
  /\ recommendation (generateIrrigationAdvice (num := Q) heatWave fiveInAll) = Immediate.
Proof.
  split; [vm_compute; reflexivity|].
  split; [vm_compute; reflexivity|].
  split; [vm_compute; reflexivity|].
  split; [vm_compute; reflexivity|].
  split; vm_compute; reflexivity.
Qed.

(** C2 (amended). On the program's numbers, IEEE doubles included,
    [generateIrrigationAdvice] answers "skip" whenever the running sum of the
    precipitation of the first 16 forecast samples, added from 0 in the order
    of the forecast with the program's own addition (a precipitation that is
    0 or NaN counting as 0), compares above 5, whatever the temperature and
    the humidity; otherwise it answers with the first tier that matches, in
    this order: "immediate" when temp > 35 and humidity < 35, "within_24h"
    when temp > 30 and humidity < 40, "within_48h" when temp > 25 and
    humidity < 50, and "monitor" when none does.  In exact arithmetic the
    running sum is the sum, and the comparisons are those of the
    rationals. *)
Theorem irrigation_rain_then_stress_tiers {num : Type} `{JSNumber num}
    (currentWeather : Current num) (forecastData : list (Measurement num)) :
  let temp := c_temperature currentWeather in
  let humidity := c_humidity currentWeather in
  let rain :=
    fold_left (fun sum item => sum + orElse (precipitation item) (ofZ 0))%js
              (firstn 16 forecastData) (ofZ 0) in
  let answer := recommendation (generateIrrigationAdvice currentWeather forecastData) in
  ((rain >? ofZ 5)%js = true -> answer = Skip)
  /\ ((rain >? ofZ 5)%js = false ->
      ((temp >? ofZ 35)%js && (humidity <? ofZ 35)%js = true -> answer = Immediate)
      /\ ((temp >? ofZ 35)%js && (humidity <? ofZ 35)%js = false ->
          ((temp >? ofZ 30)%js && (humidity <? ofZ 40)%js = true -> answer = Within24h)
          /\ ((temp >? ofZ 30)%js && (humidity <? ofZ 40)%js = false ->
              ((temp >? ofZ 25)%js && (humidity <? ofZ 50)%js = true
               -> answer = Within48h)
              /\ ((temp >? ofZ 25)%js && (humidity <? ofZ 50)%js = false
                  -> answer = Monitor))))
  /\ (forall (exactWeather : Current Q) (exactData : list (Measurement Q)),
        let temp := c_temperature exactWeather in
        let humidity := c_humidity exactWeather in
        let rain := rain48h exactData in
        let answer := recommendation (generateIrrigationAdvice exactWeather exactData) in
        (5 < rain -> answer = Skip)
        /\ (rain <= 5 ->
            (35 < temp /\ humidity < 35 -> answer = Immediate)
            /\ (~ (35 < temp /\ humidity < 35) ->
                (30 < temp /\ humidity < 40 -> answer = Within24h)
                /\ (~ (30 < temp /\ humidity < 40) ->
                    (25 < temp /\ humidity < 50 -> answer = Within48h)
                    /\ (~ (25 < temp /\ humidity < 50) -> answer = Monitor))))).
Proof.
  intros temp humidity rain answer. split; [|split].
  - subst answer. rewrite irrigation_cascade. unfold totalRain. fold rain.
    now intros ->.
  - subst answer. rewrite irrigation_cascade. unfold totalRain. fold rain temp humidity.
    intros ->.
    destruct ((temp >? ofZ 35)%js && (humidity <? ofZ 35)%js).
    { split; [reflexivity | discriminate]. }
    split; [discriminate|]. intros _.
    destruct ((temp >? ofZ 30)%js && (humidity <? ofZ 40)%js).
    { split; [reflexivity | discriminate]. }
    split; [discriminate|]. intros _.
    destruct ((temp >? ofZ 25)%js && (humidity <? ofZ 50)%js).
    { split; [reflexivity | discriminate]. }
    split; [discriminate | reflexivity].
  - clear. intros exactWeather exactData temp humidity rain answer.
    subst answer. rewrite irrigation_cascade. fold temp humidity.
    assert (Hrain : (totalRain exactData >? ofZ 5)%js = true <-> 5 < rain).
    { change (Q_ltb 5 (totalRain exactData) = true <-> 5 < rain).
      rewrite Q_ltb_lt, totalRain_rain48h. reflexivity. }
    pose proof (Q_stress_tier temp humidity 35 35) as H35.
    pose proof (Q_stress_tier temp humidity 30 40) as H30.
    pose proof (Q_stress_tier temp humidity 25 50) as H25.
    change (inject_Z 35) with 35 in H35.
    change (inject_Z 30) with 30 in H30. change (inject_Z 40) with 40 in H30.
    change (inject_Z 25) with 25 in H25. change (inject_Z 50) with 50 in H25.
    destruct (totalRain exactData >? ofZ 5)%js.
    + split; [reflexivity|]. intros Hle. exfalso.
      apply (Qlt_not_le 5 rain); [now apply Hrain | assumption].
    + split; [intros Hlt; apply Hrain in Hlt; discriminate|]. intros _.
      destruct ((temp >? ofZ 35)%js && (humidity <? ofZ 35)%js).
      { split; [reflexivity|]. intros Hn. exfalso. apply Hn. now apply H35. }
      split; [intros Hy; apply H35 in Hy; discriminate|]. intros _.
      destruct ((temp >? ofZ 30)%js && (humidity <? ofZ 40)%js).
      { split; [reflexivity|]. intros Hn. exfalso. apply Hn. now apply H30. }
      split; [intros Hy; apply H30 in Hy; discriminate|]. intros _.
      destruct ((temp >? ofZ 25)%js && (humidity <? ofZ 50)%js).
      { split; [reflexivity|]. intros Hn. exfalso. apply Hn. now apply H25. }
      split; [intros Hy; apply H25 in Hy; discriminate | reflexivity].
Qed.

Lemma irrigation_rain_then_stress_tiers_witness :
  recommendation (generateIrrigationAdvice (num := float) heatWave fiveInAll) = Skip
  /\ recommendation (generateIrrigationAdvice hotDry rainyDay) = Skip.
Proof.
  split.
  - apply (proj1 (irrigation_rain_then_stress_tiers (num := float) heatWave fiveInAll)).
    vm_compute. reflexivity.
  - apply (proj1 (proj2 (proj2 (irrigation_rain_then_stress_tiers hotDry rainyDay))
                    hotDry rainyDay)).
    vm_compute. reflexivity.
Defined.

(** ** [Math.min] and [Math.max] in exact arithmetic *)

Lemma Q_min_step (lowest x : Q) :
  min_step lowest x = (if Q_ltb x lowest then x else lowest).
Proof. reflexivity. Qed.

Lemma Q_max_step (highest x : Q) :
  max_step highest x = (if Q_ltb highest x then x else highest).
Proof. reflexivity. Qed.

Lemma Q_Math_min_of_spec (rest : list Q) (x : Q) :
  In (Math_min_of x rest) (x :: rest)
  /\ forall t, In t (x :: rest) -> Math_min_of x rest <= t.
Proof.
  unfold Math_min_of. revert x. induction rest as [|y rest IH]; intros x.
  - simpl. split; [now left|]. intros t [<-|[]]. apply Qle_refl.
  - cbn [fold_left]. destruct (IH (min_step x y)) as [Hin Hle]. rewrite Q_min_step in *.
    destruct (Q_ltb y x) eqn:E; q_compare.
    + split.
      * destruct Hin as [Hin|Hin]; [right; left; exact Hin | right; right; exact Hin].
      * intros t [<-|[<-|Ht]].
        -- apply Qle_trans with y; [apply Hle; now left | now apply Qlt_le_weak].
        -- apply Hle. now left.
        -- apply Hle. now right.
    + split.
      * destruct Hin as [Hin|Hin]; [left; exact Hin | right; right; exact Hin].
      * intros t [<-|[<-|Ht]].
        -- apply Hle. now left.
        -- apply Qle_trans with x; [apply Hle; now left | assumption].
        -- apply Hle. now right.
Qed.

Lemma Q_Math_max_of_spec (rest : list Q) (x : Q) :
  In (Math_max_of x rest) (x :: rest)
  /\ forall t, In t (x :: rest) -> t <= Math_max_of x rest.
Proof.
  unfold Math_max_of. revert x. induction rest as [|y rest IH]; intros x.
  - simpl. split; [now left|]. intros t [<-|[]]. apply Qle_refl.
  - cbn [fold_left]. destruct (IH (max_step x y)) as [Hin Hle]. rewrite Q_max_step in *.
    destruct (Q_ltb x y) eqn:E; q_compare.
    + split.
      * destruct Hin as [Hin|Hin]; [right; left; exact Hin | right; right; exact Hin].
      * intros t [<-|[<-|Ht]].
        -- apply Qle_trans with y; [now apply Qlt_le_weak | apply Hle; now left].
        -- apply Hle. now left.
        -- apply Hle. now right.
    + split.
      * destruct Hin as [Hin|Hin]; [left; exact Hin | right; right; exact Hin].
      * intros t [<-|[<-|Ht]].
        -- apply Hle. now left.
        -- apply Qle_trans with x; [assumption | apply Hle; now left].
        -- apply Hle. now right.
Qed.

(** ** Frost *)

(** The cascade of [analyzeFrostRisk] on any numbers, and the temperature it
    reports. *)
Lemma frost_cascade {num : Type} `{JSNumber num} (currentTemp : num)
    (forecastData : list (Measurement num)) :
  let lowestTemp := Math_min (map (@temperature num) (firstn 8 forecastData)) in
  f_temperature (analyzeFrostRisk currentTemp forecastData) = lowestTemp
  /\ f_risk (analyzeFrostRisk currentTemp forecastData)
     = if extremum_le lowestTemp (ofZ (-2)) then FrostCritical
       else if extremum_le lowestTemp (ofZ 0) then FrostHigh
       else if extremum_le lowestTemp (ofZ 2) then FrostModerate
       else if extremum_le lowestTemp (ofZ 5) then FrostLow
       else FrostNone.
Proof.
  intros lowestTemp. unfold analyzeFrostRisk. fold lowestTemp.
  destruct (extremum_le lowestTemp (ofZ (-2))); [split; reflexivity|].
  destruct (extremum_le lowestTemp (ofZ 0)); [split; reflexivity|].
  destruct (extremum_le lowestTemp (ofZ 2)); [split; reflexivity|].
  destruct (extremum_le lowestTemp (ofZ 5)); split; reflexivity.
Qed.




(** ** Agricultural insights: frost risk and growing degree days *)

Lemma Forall2_Qeq_In (xs ys : list Q) (x : Q) :
  Forall2 Qeq xs ys -> In x xs -> exists y, In y ys /\ x == y.
Proof.
  induction 1 as [|a b xs ys Hab Hrest IH]; simpl; [contradiction|].
  intros [<-|Hin].
  - exists b. split; [now left | assumption].
  - destruct (IH Hin) as [y [Hy E]]. exists y. split; [now right | assumption].
Qed.

(** C7. [insights.frostRisk] is true exactly when one of the first 3 daily
    aggregates has a minimum temperature below 2; minimums 3, 4, 6 give false
    and minimums 1, 5, 6 give true. *)
Theorem frostRisk_iff_min_below_2 (sqrt : JSMath Q) (current : CurrentWeather Q)
    (forecast : DailyForecast Q) :
  let next3 := firstn 3 (df_forecast forecast) in
  let minimums := map (fun day => t_min (d_temperature day)) next3 in
  let risk := frostRisk (calculateAgriculturalInsights current forecast) in
  (risk = true <-> exists day, In day next3 /\ t_min (d_temperature day) < 2)
  /\ (Forall2 Qeq minimums [3; 4; 6] -> risk = false)
  /\ (Forall2 Qeq minimums [1; 5; 6] -> risk = true).
Proof.
  intros next3 minimums risk.
  assert (Hrisk : risk = true <-> exists day, In day next3 /\ t_min (d_temperature day) < 2).
  { subst risk. unfold calculateAgriculturalInsights. cbn [frostRisk].
    fold next3. rewrite existsb_exists. split; intros [day [Hin Hlt]]; exists day; split;
      try assumption; change (ofZ 2) with 2 in *; simpl nlt in *; now apply Q_ltb_lt. }
  split; [exact Hrisk|]. split; intros Hmins.
  - destruct risk eqn:E; [|reflexivity]. exfalso.
    destruct (proj1 Hrisk eq_refl) as [day [Hin Hlt]].
    assert (Hm : In (t_min (d_temperature day)) minimums).
    { unfold minimums. now apply (in_map (fun day => t_min (d_temperature day))). }
    destruct (Forall2_Qeq_In _ Hmins Hm) as [m' [Hm' E']].
    rewrite E' in Hlt. simpl in Hm'.
    repeat destruct Hm' as [<-|Hm']; try contradiction; discriminate Hlt.
  - apply Hrisk. unfold minimums in Hmins.
    destruct next3 as [|day rest]; simpl in Hmins; inversion Hmins; subst.
    exists day. split; [now left|].
    match goal with H : t_min _ == 1 |- _ => rewrite H end. reflexivity.
Qed.

Lemma frostRisk_iff_min_below_2_witness :
  frostRisk (@calculateAgriculturalInsights Q _ noSqrt hotDryNow coldWeek) = true.
Proof.
  apply (proj2 (proj2 (frostRisk_iff_min_below_2 noSqrt hotDryNow coldWeek))).
  repeat constructor.
Defined.

Lemma Q_Math_max2_Qmax (a b : Q) : Math_max2 a b == Qmax a b.
Proof.
  unfold Math_max2, Math_max_of. cbn [fold_left]. rewrite Q_max_step.
  destruct (Q_ltb a b) eqn:E; q_compare; symmetry.
  - apply Q.max_r. now apply Qlt_le_weak.
  - now apply Q.max_l.
Qed.


Lemma gdd_zero (T B : Q) : T <= B -> gdd T B == 0.
Proof. intros Hle. unfold gdd. apply Q.max_l. lra. Qed.



(** ** Overall priority and the general advice *)

Lemma In_pushIf (c : bool) (line x : AdviceLine) (advice : list AdviceLine) :
  In x (pushIf c line advice) <-> In x advice \/ (c = true /\ x = line).
Proof.
  unfold pushIf. destruct c.
  - rewrite in_app_iff. simpl. intuition congruence.
  - intuition congruence.
Qed.

Lemma FrostRisk_eqb_eq (a b : FrostRisk) : FrostRisk_eqb a b = true <-> a = b.
Proof. destruct a, b; simpl; split; intros E; try reflexivity; discriminate E. Qed.

Lemma HeatRisk_eqb_eq (a b : HeatRisk) : HeatRisk_eqb a b = true <-> a = b.
Proof. destruct a, b; simpl; split; intros E; try reflexivity; discriminate E. Qed.

Lemma Recommendation_eqb_eq (a b : Recommendation) : Recommendation_eqb a b = true <-> a = b.
Proof. destruct a, b; simpl; split; intros E; try reflexivity; discriminate E. Qed.

(** C8. [generateOverallAdvice] gives priority "urgent" iff frost is critical
    or heat stress extreme or irrigation immediate; else "high" iff frost is
    high or heat stress high or irrigation within 24h; else "medium" iff frost
    is moderate or heat stress moderate or irrigation within 48h; else "low".
    The general advice holds the optimal-conditions line exactly when frost
    risk and heat-stress risk are both "none", whatever the priority: each of
    the four priorities occurs with the line and without it. *)
Theorem overall_priority_and_optimal_line {num : Type} `{JSNumber num}
    (frost : FrostAlert num) (irrigation : IrrigationAdvice num)
    (spraying : SprayingWindow num) (heatStress : HeatStressAlert num) :
  let overall := generateOverallAdvice frost irrigation spraying heatStress in
  let urgent := f_risk frost = FrostCritical \/ h_risk heatStress = HeatExtreme
                \/ recommendation irrigation = Immediate in
  let high := f_risk frost = FrostHigh \/ h_risk heatStress = HeatHigh
              \/ recommendation irrigation = Within24h in
  let medium := f_risk frost = FrostModerate \/ h_risk heatStress = HeatModerate
                \/ recommendation irrigation = Within48h in
  (o_priority overall = Urgent <-> urgent)
  /\ (o_priority overall = High <-> ~ urgent /\ high)
  /\ (o_priority overall = Medium <-> ~ urgent /\ ~ high /\ medium)
  /\ (o_priority overall = Low <-> ~ urgent /\ ~ high /\ ~ medium)
  /\ (In optimalLine (o_generalAdvice overall)
      <-> f_risk frost = FrostNone /\ h_risk heatStress = HeatNone)
  /\ (forall (p : Priority) (present : bool),
        exists f h i,
          o_priority (overallAt (num := num) f h i) = p
          /\ (In optimalLine (o_generalAdvice (overallAt (num := num) f h i))
              <-> present = true)).
Proof.
  intros overall urgent high medium.
  assert (Eu : FrostRisk_eqb (f_risk frost) FrostCritical
               || HeatRisk_eqb (h_risk heatStress) HeatExtreme
               || Recommendation_eqb (recommendation irrigation) Immediate = true <-> urgent).
  { unfold urgent.
    rewrite !orb_true_iff, FrostRisk_eqb_eq, HeatRisk_eqb_eq, Recommendation_eqb_eq. tauto. }
  assert (Eh : FrostRisk_eqb (f_risk frost) FrostHigh
               || HeatRisk_eqb (h_risk heatStress) HeatHigh
               || Recommendation_eqb (recommendation irrigation) Within24h = true <-> high).
  { unfold high.
    rewrite !orb_true_iff, FrostRisk_eqb_eq, HeatRisk_eqb_eq, Recommendation_eqb_eq. tauto. }
  assert (Em : FrostRisk_eqb (f_risk frost) FrostModerate
               || HeatRisk_eqb (h_risk heatStress) HeatModerate
               || Recommendation_eqb (recommendation irrigation) Within48h = true <-> medium).
  { unfold medium.
    rewrite !orb_true_iff, FrostRisk_eqb_eq, HeatRisk_eqb_eq, Recommendation_eqb_eq. tauto. }
  assert (Eo : FrostRisk_eqb (f_risk frost) FrostNone
               && HeatRisk_eqb (h_risk heatStress) HeatNone = true
               <-> f_risk frost = FrostNone /\ h_risk heatStress = HeatNone).
  { now rewrite andb_true_iff, FrostRisk_eqb_eq, HeatRisk_eqb_eq. }
  clearbody urgent high medium.
  rewrite <- Eu, <- Eh, <- Em, <- Eo. clear Eu Eh Em Eo.
  subst overall. unfold generateOverallAdvice.
  split; [|split; [|split; [|split; [|split]]]].
  1-4: destruct (FrostRisk_eqb (f_risk frost) FrostCritical
                 || HeatRisk_eqb (h_risk heatStress) HeatExtreme
                 || Recommendation_eqb (recommendation irrigation) Immediate);
       destruct (FrostRisk_eqb (f_risk frost) FrostHigh
                 || HeatRisk_eqb (h_risk heatStress) HeatHigh
                 || Recommendation_eqb (recommendation irrigation) Within24h);
       destruct (FrostRisk_eqb (f_risk frost) FrostModerate
                 || HeatRisk_eqb (h_risk heatStress) HeatModerate
                 || Recommendation_eqb (recommendation irrigation) Within48h);
       cbn [o_priority]; intuition congruence.
  - set (start := if FrostRisk_eqb (f_risk frost) FrostCritical
                     || HeatRisk_eqb (h_risk heatStress) HeatExtreme
                     || Recommendation_eqb (recommendation irrigation) Immediate
                  then (Urgent, [urgentLine]) else _).
    assert (Hstart : ~ In optimalLine (snd start)).
    { subst start.
      repeat match goal with |- context [if ?c then _ else _] => destruct c end;
        simpl; intros Hin; repeat destruct Hin as [Hin|Hin]; try discriminate Hin;
        try contradiction. }
    destruct start as [priority advice]. cbn [o_generalAdvice]. simpl in Hstart.
    rewrite in_app_iff, !In_pushIf. simpl.
    split.
    + intros [[[[Hin|[_ E]]|[_ E]]|[E _]]|[E|[]]];
        try contradiction; try discriminate E; exact E.
    + intros E. left. right. split; [exact E | reflexivity].
  - intros p present.
    destruct p, present;
      [ exists FrostNone, HeatNone, Monitor | exists FrostLow, HeatNone, Monitor
      | exists FrostNone, HeatNone, Within48h | exists FrostModerate, HeatNone, Monitor
      | exists FrostNone, HeatNone, Within24h | exists FrostHigh, HeatNone, Monitor
      | exists FrostNone, HeatNone, Immediate | exists FrostCritical, HeatNone, Monitor ];
      (split; [reflexivity|]); cbn;
      (split; [intros Hin; repeat destruct Hin as [Hin|Hin];
               try discriminate Hin; try contradiction; reflexivity
              | intros E; try discriminate E; tauto]).
Qed.

(** ** Failure envelopes of the entry points *)

Lemma tryCatch_whole {T : Type} (now : string) (body : completion T) :
  wholeResponse (tryCatch now body).
Proof.
  destruct body; simpl; [left | right]; repeat split; discriminate.
Qed.

Lemma reply_whole {T : Type} (body : completion T) : wholeReply (reply body).
Proof.
  destruct body; simpl; [left | right]; repeat split; discriminate.
Qed.

(** The frost alert succeeds although the fetch of the current weather
    failed: the claim that it fails whenever either fetch fails does not
    hold. *)
Lemma frost_alert_survives_current_failure :
  success currentFailed = false
  /\ r_success (getFrostAlert hourlyOk currentFailed) = true.
Proof. split; reflexivity. Qed.

(** C3 (amended). [getCropAdvisory], [getIrrigationAdvice] and
    [getAgriculturalWeather] return a failure as soon as one of the datasets
    they fetch is unsuccessful: [{success: false, error, timestamp}] for the
    first and the last, [{success: false, error}] (no timestamp) for the
    single-alert entry points.  [getFrostAlert] fails whenever the forecast
    fetch is unsuccessful; when the forecast is there it succeeds whatever the
    current-weather fetch returned, reading the current temperature with a
    default.  Every reply of the four entry points is whole, never partial;
    each is a value, so nothing is thrown to the caller. *)
Theorem advisory_replies_whole_or_failed {num : Type} `{JSNumber num} (sqrt : JSMath num)
    (now : string) (hours : nat)
    (current : WeatherResponse (CurrentWeather num))
    (forecast : WeatherResponse (WeatherForecast num))
    (dailyForecast : WeatherResponse (DailyForecast num)) :
  (success current = false \/ success forecast = false ->
   getCropAdvisory now hours current forecast
   = failed now "Failed to fetch weather data for analysis")
  /\ (success current = false \/ success forecast = false ->
      getIrrigationAdvice current forecast = unavailable)
  /\ (success current = false \/ success forecast = false \/ success dailyForecast = false ->
      getAgriculturalWeather now current forecast dailyForecast
      = failed now "Failed to fetch complete weather data")
  /\ (success forecast = false -> getFrostAlert forecast current = unavailable)
  /\ (success forecast = true -> data forecast <> None ->
      r_success (getFrostAlert forecast current) = true)
  /\ wholeResponse (getCropAdvisory now hours current forecast)
  /\ wholeReply (getIrrigationAdvice current forecast)
  /\ wholeResponse (getAgriculturalWeather now current forecast dailyForecast)
  /\ wholeReply (getFrostAlert forecast current).
Proof.
  repeat split; try apply tryCatch_whole; try apply reply_whole.
  - intros [E|E]; unfold getCropAdvisory; rewrite E; simpl;
      [reflexivity | now rewrite orb_true_r].
  - intros [E|E]; unfold getIrrigationAdvice; rewrite E; simpl;
      [reflexivity | now rewrite orb_true_r].
  - intros [E|[E|E]]; unfold getAgriculturalWeather; rewrite E; simpl;
      [reflexivity | now rewrite orb_true_r | now rewrite orb_true_r].
  - intros E. unfold getFrostAlert. now rewrite E.
  - intros E Hd. unfold getFrostAlert, nonNull. rewrite E. simpl.
    destruct (data forecast); [reflexivity | congruence].
Qed.

Lemma advisory_replies_whole_or_failed_witness :
  getCropAdvisory "2024-05-01T20:00:01.000Z" 20 currentFailed hourlyOk
  = failed "2024-05-01T20:00:01.000Z" "Failed to fetch weather data for analysis".
Proof.
  apply (proj1 (advisory_replies_whole_or_failed noSqrt "2024-05-01T20:00:01.000Z" 20
                  currentFailed hourlyOk
                  (failed "2024-05-01T20:00:00.000Z" "Request failed with status code 429"))).
  left. reflexivity.
Defined.

(** ** The temperature summary of a day *)

Lemma Q_sum_Qsum (xs : list Q) : sum xs == Qsum xs.
Proof.
  unfold sum. transitivity (0 + Qsum (map (fun x => x) xs)).
  - exact (fold_left_Qsum (fun x => x) (fun x => x) xs 0 (fun x => Qeq_refl x)).
  - rewrite map_id. ring.
Qed.

Lemma Q_ofNat_S (n : nat) : ofNat (S n) == ofNat (num := Q) n + 1.
Proof.
  change (inject_Z (Z.of_nat (S n)) == inject_Z (Z.of_nat n) + inject_Z 1).
  rewrite Nat2Z.inj_succ, <- Z.add_1_r, inject_Z_plus. reflexivity.
Qed.

Lemma Q_ofNat_pos (n : nat) : 0 < ofNat (num := Q) (S n).
Proof.
  change (inject_Z 0 < inject_Z (Z.of_nat (S n))).
  rewrite <- Zlt_Qlt. lia.
Qed.

Lemma Qsum_lower (low : Q) (xs : list Q) :
  (forall t, In t xs -> low <= t) -> low * ofNat (List.length xs) <= Qsum xs.
Proof.
  induction xs as [|x xs IH]; intros Hlow.
  - cbn [List.length Qsum fold_right]. change (ofNat (num := Q) 0) with 0. lra.
  - cbn [List.length Qsum fold_right]. rewrite Q_ofNat_S.
    assert (low <= x) by (apply Hlow; now left).
    assert (low * ofNat (List.length xs) <= Qsum xs) by (apply IH; intros; apply Hlow; now right).
    unfold Qsum in *. lra.
Qed.

Lemma Qsum_upper (high : Q) (xs : list Q) :
  (forall t, In t xs -> t <= high) -> Qsum xs <= high * ofNat (List.length xs).
Proof.
  induction xs as [|x xs IH]; intros Hhigh.
  - cbn [List.length Qsum fold_right]. change (ofNat (num := Q) 0) with 0. lra.
  - cbn [List.length Qsum fold_right]. rewrite Q_ofNat_S.
    assert (x <= high) by (apply Hhigh; now left).
    assert (Qsum xs <= high * ofNat (List.length xs)) by (apply IH; intros; apply Hhigh; now right).
    unfold Qsum in *. lra.
Qed.

Lemma summaryOf_withinBounds (x : Measurement Q) (rest : list (Measurement Q)) :
  withinBounds (summaryOf x rest).
Proof.
  unfold withinBounds, summaryOf. cbn [t_min t_max t_average].
  set (temps := map (@temperature Q) (x :: rest)).
  destruct (Q_Math_min_of_spec (map (@temperature Q) rest) (temperature x)) as [_ Hlow].
  destruct (Q_Math_max_of_spec (map (@temperature Q) rest) (temperature x)) as [_ Hhigh].
  change (temperature x :: map (@temperature Q) rest) with temps in Hlow, Hhigh.
  assert (Hpos : 0 < ofNat (num := Q) (List.length temps)) by apply Q_ofNat_pos.
  change (sum temps / ofNat (List.length temps))%js
    with (sum temps / ofNat (List.length temps)).
  rewrite Q_sum_Qsum. split.
  - apply Qle_shift_div_l; [assumption | now apply Qsum_lower].
  - apply Qle_shift_div_r; [assumption | now apply Qsum_upper].
Qed.

Lemma summaryOf_single (x : Measurement Q) :
  t_min (summaryOf x []) == temperature x
  /\ t_max (summaryOf x []) == temperature x
  /\ t_average (summaryOf x []) == temperature x.
Proof.
  unfold summaryOf. cbn [t_min t_max t_average map Math_min_of Math_max_of fold_left].
  split; [reflexivity|]. split; [reflexivity|].
  change (sum [temperature x] / ofNat (List.length [temperature x]))%js
    with ((0 + temperature x) / 1).
  field.
Qed.

Lemma mapM_In {A B : Type} (f : A -> completion B) (xs : list A) (ys : list B) (y : B) :
  mapM f xs = Normal ys -> In y ys -> exists x, In x xs /\ f x = Normal y.
Proof.
  revert ys. induction xs as [|x xs IH]; simpl; intros ys E Hin.
  - inversion E; subst. contradiction.
  - destruct (f x) as [y0|] eqn:Ex; simpl in E; [|discriminate].
    destruct (mapM f xs) as [ys0|] eqn:Exs; simpl in E; [|discriminate].
    inversion E; subst. destruct Hin as [<-|Hin].
    + exists x. split; [now left | assumption].
    + destruct (IH ys0 eq_refl Hin) as [x' [Hx' Ex']]. exists x'. split; [now right | assumption].
Qed.

Lemma aggregated_withinBounds (withIcon : bool) (samples : list (Measurement Q))
    (dailyMap : DailyMap Q) (days : list (DailyAggregate Q)) :
  groupByDate samples = Normal dailyMap ->
  mapM (aggregateGroup withIcon) dailyMap = Normal days ->
  Forall (fun day => withinBounds (d_temperature day)) days.
Proof.
  intros Eg Em. rewrite Forall_forall. intros day Hin.
  destruct (@mapM_In _ _ _ _ _ _ Em Hin) as [[d items] [_ Eday]].
  destruct items as [|x rest].
  - unfold aggregateGroup in Eday. simpl in Eday. discriminate.
  - destruct (aggregateGroup_cons withIcon d x rest) as [day' [Eday' [_ Hsum]]].
    rewrite Eday in Eday'. inversion Eday'; subst. rewrite Hsum.
    apply summaryOf_withinBounds.
Qed.

(** *** The minimum is below the maximum, on any ordered numbers *)

Section MinBelowMax.
Context {num : Type} `{JSNumber num}.

Hypothesis nle_refl : forall a : num, isNaN a = false -> (a <=? a)%js = true.
Hypothesis nle_trans : forall a b c : num,
  (a <=? b)%js = true -> (b <=? c)%js = true -> (a <=? c)%js = true.
Hypothesis nlt_nle : forall a b : num, (a <? b)%js = true -> (a <=? b)%js = true.

Lemma Math_min_of_below (rest : list num) (x : num) :
  isNaN x = false -> Forall (fun t => isNaN t = false) rest ->
  isNaN (Math_min_of x rest) = false /\ (Math_min_of x rest <=? x)%js = true.
Proof.
  unfold Math_min_of. revert x. induction rest as [|y rest IH]; intros x Hx Hrest.
  - simpl. split; [assumption | now apply nle_refl].
  - inversion Hrest as [|? ? Hy Hrest']; subst. cbn [fold_left].
    assert (Estep : min_step x y = if (y <? x)%js then y else x)
      by (unfold min_step; now rewrite Hx, Hy).
    rewrite Estep. destruct (y <? x)%js eqn:E.
    + destruct (IH y Hy Hrest') as [Hn Hle]. split; [assumption|].
      apply nle_trans with y; [assumption | now apply nlt_nle].
    + now apply IH.
Qed.

Lemma Math_max_of_above (rest : list num) (x : num) :
  isNaN x = false -> Forall (fun t => isNaN t = false) rest ->
  isNaN (Math_max_of x rest) = false /\ (x <=? Math_max_of x rest)%js = true.
Proof.
  unfold Math_max_of. revert x. induction rest as [|y rest IH]; intros x Hx Hrest.
  - simpl. split; [assumption | now apply nle_refl].
  - inversion Hrest as [|? ? Hy Hrest']; subst. cbn [fold_left].
    assert (Estep : max_step x y = if (y >? x)%js then y else x)
      by (unfold max_step; now rewrite Hx, Hy).
    rewrite Estep. destruct (y >? x)%js eqn:E.
    + destruct (IH y Hy Hrest') as [Hn Hle]. split; [assumption|].
      apply nle_trans with y; [now apply nlt_nle | assumption].
    + now apply IH.
Qed.

Lemma Math_min_of_le_max_of (rest : list num) (x : num) :
  isNaN x = false -> Forall (fun t => isNaN t = false) rest ->
  (Math_min_of x rest <=? Math_max_of x rest)%js = true.
Proof.
  intros Hx Hrest.
  edestruct Math_min_of_below as [_ Hlow]; [exact Hx | exact Hrest |].
  edestruct Math_max_of_above as [_ Hhigh]; [exact Hx | exact Hrest |].
  now apply nle_trans with x.
Qed.
End MinBelowMax.

(** *** The order of IEEE doubles *)

Lemma SFcompare_refl (a : spec_float) : a <> S754_nan -> SFcompare a a = Some Eq.
Proof.
  destruct a as [s|s| |s m e]; intros Hn; try congruence; simpl.
  - reflexivity.
  - now destruct s.
  - destruct s; rewrite Z.compare_refl, Pos.compare_cont_refl; reflexivity.
Qed.

Lemma SFleb_trans (a b c : spec_float) :
  SFleb a b = true -> SFleb b c = true -> SFleb a c = true.
Proof.
  unfold SFleb.
  destruct a as [sa|sa| |sa ma ea], b as [sb|sb| |sb mb eb], c as [sc|sc| |sc mc ec];
    simpl; try discriminate; try reflexivity;
    repeat match goal with s : bool |- _ => destruct s end;
    simpl; try discriminate; try reflexivity.
  all: destruct (Z.compare_spec ea eb), (Z.compare_spec eb ec), (Z.compare_spec ea ec);
    try discriminate; try reflexivity; try lia; subst;
    rewrite ?Pos.compare_cont_spec; simpl;
    destruct (Pos.compare_spec ma mb), (Pos.compare_spec mb mc), (Pos.compare_spec ma mc);
    simpl; try discriminate; try reflexivity; try lia.
Qed.

Lemma float_not_nan (a : float) : PrimFloat.is_nan a = false -> Prim2SF a <> S754_nan.
Proof.
  unfold PrimFloat.is_nan. rewrite negb_false_iff, FloatAxioms.eqb_spec.
  intros E Hn. rewrite Hn in E. discriminate E.
Qed.

Lemma float_leb_refl (a : float) : isNaN a = false -> (a <=? a)%js = true.
Proof.
  intros Hn. change (PrimFloat.leb a a = true). rewrite FloatAxioms.leb_spec. unfold SFleb.
  now rewrite (SFcompare_refl (float_not_nan a Hn)).
Qed.

Lemma float_leb_trans (a b c : float) :
  (a <=? b)%js = true -> (b <=? c)%js = true -> (a <=? c)%js = true.
Proof.
  change (PrimFloat.leb a b = true -> PrimFloat.leb b c = true -> PrimFloat.leb a c = true).
  rewrite !FloatAxioms.leb_spec. apply SFleb_trans.
Qed.

Lemma float_ltb_leb (a b : float) : (a <? b)%js = true -> (a <=? b)%js = true.
Proof.
  change (PrimFloat.ltb a b = true -> PrimFloat.leb a b = true).
  rewrite FloatAxioms.ltb_spec, FloatAxioms.leb_spec. unfold SFltb, SFleb.
  destruct (SFcompare (Prim2SF a) (Prim2SF b)) as [[| |]|]; congruence.
Qed.

(** *** Dividing a double by 1 *)

Lemma div_eucl_mul (a b : Z) : (0 < b)%Z -> Z.div_eucl (a * b) b = (a, 0%Z).
Proof.
  intros Hb. pose proof (Z.div_mul a b ltac:(lia)) as Hq.
  pose proof (Z.mod_mul a b ltac:(lia)) as Hr.
  unfold Z.div, Z.modulo in Hq, Hr.
  destruct (Z.div_eucl (a * b) b) as [q r]. now subst.
Qed.

(** Rounding a mantissa that is already canonical changes nothing. *)
Lemma round_exact (s : bool) (m : positive) (e : Z) :
  fexp prec emax (Z.pos (digits2_pos m) + e) = e -> (e <= emax - prec)%Z ->
  binary_round_aux prec emax s (Z.pos m) e loc_Exact = S754_finite s m e.
Proof.
  intros Hcanon Hmax. unfold binary_round_aux, shr_fexp. cbn [Zdigits2 shr_record_of_loc].
  rewrite Hcanon, Z.sub_diag.
  cbn [shr shr_m loc_of_shr_record round_nearest_even Zdigits2 shr_record_of_loc].
  rewrite Hcanon, Z.sub_diag. cbn [shr shr_m].
  apply Z.leb_le in Hmax. now rewrite Hmax.
Qed.

(** The IEEE division of a finite double by 1 is exact. *)
Lemma SFdiv_one (s : bool) (m : positive) (e : Z) :
  bounded prec emax m e = true ->
  SFdiv prec emax (S754_finite s m e) SF64one = S754_finite s m e.
Proof.
  unfold bounded, canonical_mantissa. rewrite andb_true_iff, Z.eqb_eq, Z.leb_le.
  intros [Hcanon Hmax].
  unfold SFdiv, SF64one, SFdiv_core_binary.
  change (Zdigits2 4503599627370496) with 53%Z.
  change (Zdigits2 (Z.pos m)) with (Z.pos (digits2_pos m)).
  set (d := Z.pos (digits2_pos m)) in *.
  assert (Hd : (0 < d)%Z) by (subst d; lia).
  set (e' := Z.min (fexp prec emax (d + e - (53 + -52))) (e - -52)).
  assert (Hcases : e' = e \/ (e' = (e - 1)%Z /\ d = 53%Z)).
  { subst e'. revert Hcanon. unfold fexp, emin, prec, emax. lia. }
  rewrite xorb_false_r. clearbody e'.
  destruct Hcases as [-> | [-> Hnormal]].
  - replace (e - -52 - e)%Z with 52%Z by lia.
    rewrite Z.shiftl_mul_pow2 by lia.
    change (2 ^ 52)%Z with 4503599627370496%Z.
    rewrite div_eucl_mul by lia.
    change (new_location 4503599627370496 0) with loc_Exact.
    now apply round_exact.
  - replace (e - -52 - (e - 1))%Z with 53%Z by lia.
    rewrite Z.shiftl_mul_pow2 by lia.
    replace (Z.pos m * 2 ^ 53)%Z with (Z.pos m~0 * 4503599627370496)%Z by lia.
    rewrite div_eucl_mul by lia.
    change (new_location 4503599627370496 0) with loc_Exact.
    unfold binary_round_aux, shr_fexp. cbn [Zdigits2 digits2_pos shr_record_of_loc].
    rewrite Pos2Z.inj_succ. fold d.
    replace (fexp prec emax (Z.succ d + (e - 1)) - (e - 1))%Z with 1%Z
      by (replace (Z.succ d + (e - 1))%Z with (d + e)%Z by lia; rewrite Hcanon; lia).
    cbn [shr iter_pos shr_1 orb shr_m loc_of_shr_record round_nearest_even Zdigits2
         shr_record_of_loc].
    replace (e - 1 + 1)%Z with e by lia. fold d.
    rewrite Hcanon, Z.sub_diag. cbn [shr shr_m].
    apply Z.leb_le in Hmax. now rewrite Hmax.
Qed.

(** [(0 + t) / 1 === t] for every double [t] that is a number: adding to 0
    and dividing by 1 round nothing ([-0] becomes [0], which [===] does not
    tell apart). *)
Lemma float_zero_plus_over_one (t : float) :
  PrimFloat.is_nan t = false ->
  PrimFloat.eqb (PrimFloat.div (PrimFloat.add PrimFloat.zero t) PrimFloat.one) t = true.
Proof.
  intros Hnan. pose proof (float_not_nan t Hnan) as Hn.
  rewrite FloatAxioms.eqb_spec, FloatAxioms.div_spec, FloatAxioms.add_spec.
  pose proof (FloatAxioms.Prim2SF_valid t) as Hvalid.
  change (Prim2SF PrimFloat.one) with SF64one.
  change (Prim2SF PrimFloat.zero) with (S754_zero false).
  destruct (Prim2SF t) as [s|s| |s m e].
  - now destruct s.
  - now destruct s.
  - congruence.
  - unfold SF64add. cbn [SFadd]. unfold SF64div. rewrite (SFdiv_one s m e Hvalid).
    unfold SFeqb. cbn [SFcompare].
    destruct s; rewrite Z.compare_refl, Pos.compare_cont_refl; reflexivity.
Qed.

(** In double precision the average of 0.1, 0.1 and 0.1 is
    0.10000000000000002, above the maximum 0.1: the daily forecast built
    from [tenths] has a day whose [average] exceeds its [max]. *)
Lemma average_above_max_in_doubles :
  match data (getDailyForecast "2024-01-14T23:00:01.000Z" tenthsResponse) with
  | Some daily =>
      existsb (fun day => (t_max (d_temperature day) <? t_average (d_temperature day))%js)
              (df_forecast daily)
  | None => false
  end = true.
Proof. vm_compute. reflexivity. Qed.

(** C10 (amended). In exact arithmetic every non-empty group of samples is
    aggregated into a day with [min <= average <= max], and a group of one
    sample into a day whose [min], [max] and [average] all equal the
    temperature of that sample; hence every day returned by
    [getDailyForecast] and by [getHistoricalDailyWeather] has
    [min <= average <= max].  In IEEE doubles a non-empty group of samples
    whose temperatures are numbers gives [min <= max], and a group of one
    sample gives [min] and [max] equal to its temperature and, when that
    temperature is a number, an [average] equal ([===]) to it too; with more
    samples the average is rounded and may leave the interval. *)
Theorem daily_temperature_bounds (withIcon : bool) (now day : string)
    (x : Measurement Q) (rest : list (Measurement Q))
    (hourlyResponse : WeatherResponse (WeatherForecast Q))
    (historicalResponse : WeatherResponse (HistoricalWeather Q))
    (y : Measurement float) (others : list (Measurement float)) :
  (exists aggregate,
      aggregateGroup withIcon (day, x :: rest) = Normal aggregate
      /\ t_min (d_temperature aggregate) <= t_average (d_temperature aggregate)
      /\ t_average (d_temperature aggregate) <= t_max (d_temperature aggregate)
      /\ (rest = [] ->
          t_min (d_temperature aggregate) == temperature x
          /\ t_max (d_temperature aggregate) == temperature x
          /\ t_average (d_temperature aggregate) == temperature x))
  /\ (forall daily, data (getDailyForecast now hourlyResponse) = Some daily ->
      Forall (fun aggregate => withinBounds (d_temperature aggregate)) (df_forecast daily))
  /\ (forall daily, data (getHistoricalDailyWeather now historicalResponse) = Some daily ->
      Forall (fun aggregate => withinBounds (d_temperature aggregate)) (hd_data daily))
  /\ (exists aggregate,
        aggregateGroup withIcon (day, y :: others) = Normal aggregate
        /\ (Forall (fun item => isNaN (temperature item) = false) (y :: others) ->
            (t_min (d_temperature aggregate) <=? t_max (d_temperature aggregate))%js = true)
        /\ (others = [] ->
            t_min (d_temperature aggregate) = temperature y
            /\ t_max (d_temperature aggregate) = temperature y
            /\ (isNaN (temperature y) = false ->
                (t_average (d_temperature aggregate) === temperature y)%js = true))).
Proof.
  split; [|split; [|split]].
  - destruct (aggregateGroup_cons withIcon day x rest) as [aggregate [E [_ Hsum]]].
    exists aggregate. split; [exact E|]. rewrite Hsum.
    destruct (summaryOf_withinBounds x rest) as [Hlow Hhigh].
    split; [exact Hlow|]. split; [exact Hhigh|].
    intros ->. apply summaryOf_single.
  - intros daily. unfold getDailyForecast.
    destruct (requireData hourlyResponse _) as [hourlyData|]; cbn [bind]; [|discriminate].
    destruct (groupByDate (wf_forecast hourlyData)) as [dailyMap|] eqn:Eg;
      cbn [bind]; [|discriminate].
    destruct (mapM (aggregateGroup true) dailyMap) as [days|] eqn:Em;
      cbn [bind tryCatch ok data]; [|discriminate].
    intros E. inversion E; subst. cbn [df_forecast].
    exact (aggregated_withinBounds _ _ Eg Em).
  - intros daily. unfold getHistoricalDailyWeather.
    destruct (requireData historicalResponse _) as [historicalData|]; cbn [bind]; [|discriminate].
    destruct (groupByDate (hw_data historicalData)) as [dailyMap|] eqn:Eg;
      cbn [bind]; [|discriminate].
    destruct (mapM (aggregateGroup false) dailyMap) as [days|] eqn:Em;
      cbn [bind tryCatch ok data]; [|discriminate].
    intros E. inversion E; subst. cbn [hd_data].
    apply (Permutation_Forall
             (Permutation_sym (Array_sort_Permutation (@d_date Q) days))).
    exact (aggregated_withinBounds _ _ Eg Em).
  - destruct (aggregateGroup_cons withIcon day y others) as [aggregate [E [_ Hsum]]].
    exists aggregate. split; [exact E|]. rewrite Hsum. unfold summaryOf. cbn [t_min t_max].
    split.
    + intros Hnum. inversion Hnum as [|? ? Hy Hothers]; subst.
      apply (Math_min_of_le_max_of float_leb_refl float_leb_trans float_ltb_leb).
      * exact Hy.
      * rewrite Forall_forall in *. intros t Ht. apply in_map_iff in Ht.
        destruct Ht as [item [<- Hitem]]. now apply Hothers.
    + intros ->. split; [reflexivity|]. split; [reflexivity|].
      intros Hy. exact (float_zero_plus_over_one (temperature y) Hy).
Qed.

(** ** Evapotranspiration *)

(** The program computes that formula on [day0Range]. *)
Lemma evapotranspiration_on_day0Range {num : Type} `{JSNumber num} `{JSMath num}
    (current : CurrentWeather num) (forecast : DailyForecast num) :
  evapotranspiration (calculateAgriculturalInsights current forecast)
  = evapotranspirationOf (c_temperature (cw_current current))
                         (day0Range (df_forecast forecast)).
Proof. reflexivity. Qed.

(** [day0Range] in exact arithmetic: 10 without a first day, and 10 as well
    when the first day has equal [max] and [min]; the difference otherwise. *)
Lemma day0Range_exact (days : list (DailyAggregate Q)) :
  day0Range days
  = match days with
    | [] => 10
    | day0 :: _ =>
        if Qeq_bool (t_max (d_temperature day0) - t_min (d_temperature day0)) 0 then 10
        else t_max (d_temperature day0) - t_min (d_temperature day0)
    end.
Proof. destruct days; reflexivity. Qed.

(** C4 (the code departs from the claim). The first day of [lateEvening] is
    there, with [max = min = 15]: its range is 0 and the formula of the claim
    gives 0; the program takes the fallback range 10 and returns about 0.72. *)
Theorem evapotranspiration_falls_back_on_zero_range :
  exists daily day0 rest,
    data (getDailyForecast "2024-05-01T19:00:01.000Z" lateEvening) = Some daily
    /\ df_forecast daily = day0 :: rest
    /\ (t_max (d_temperature day0) - t_min (d_temperature day0))%js = ofZ 0
    /\ evapotranspirationOf (ofZ 20)
         (t_max (d_temperature day0) - t_min (d_temperature day0))%js = ofZ 0
    /\ evapotranspiration (calculateAgriculturalInsights mildNow daily)
       = evapotranspirationOf (ofZ 20) (ofZ 10)
    /\ (ofQ 0.72 <? evapotranspiration (calculateAgriculturalInsights mildNow daily))%js = true.
Proof.
  do 3 eexists. split; [vm_compute; reflexivity|].
  split; [reflexivity|]. repeat split; vm_compute; reflexivity.
Qed.

(** ** Spraying: the best-time hint *)

Lemma filter_indexed_nonempty {A : Type} (p : nat -> bool) (xs : list A) (start : nat) :
  (0 <? List.length (filter_indexed (fun _ index => p index) start xs))%nat = true
  <-> exists rank, (rank < List.length xs)%nat /\ p (start + rank)%nat = true.
Proof.
  revert start. induction xs as [|x xs IH]; intros start; cbn [filter_indexed List.length].
  - split; [discriminate | intros [rank [Hlt _]]; lia].
  - destruct (p start) eqn:E.
    + split; [intros _ | reflexivity].
      exists 0%nat. split; [lia | now rewrite Nat.add_0_r].
    + rewrite IH. split; intros [rank [Hlt Hp]].
      * exists (S rank). split; [lia | now rewrite Nat.add_succ_r].
      * destruct rank as [|rank]; [rewrite Nat.add_0_r in Hp; congruence|].
        exists rank. split; [lia | now rewrite Nat.add_succ_r in Hp].
Qed.

(** What the program does: when conditions are suitable the hint is
    "early morning" iff some good window, at rank [k] among the good windows
    (not among the next 8 samples), has [(hours + 3 k) mod 24] in [6, 10]. *)
Lemma spraying_hint_by_rank {num : Type} `{JSNumber num} (hours : nat)
    (currentWeather : Current num) (forecastData : list (Measurement num)) :
  let window := analyzeSprayingConditions hours currentWeather forecastData in
  let goodWindows := filter goodWindow (firstn 8 forecastData) in
  suitable window = true ->
  (bestTime window = earlyMorning
   <-> exists rank, (rank < List.length goodWindows)%nat /\ morningIndex hours rank = true).
Proof.
  intros window goodWindows. subst window. unfold analyzeSprayingConditions.
  fold goodWindows.
  destruct (c_windSpeed currentWeather >? ofZ 20)%js; [discriminate|].
  destruct (c_temperature currentWeather >? ofZ 30)%js; [discriminate|].
  destruct (0 <? List.length goodWindows)%nat; [|discriminate].
  intros _. cbn [bestTime].
  rewrite <- (filter_indexed_nonempty (morningIndex hours) goodWindows 0).
  destruct (0 <? List.length (filter_indexed _ 0 goodWindows))%nat;
    split; intros E; try reflexivity; discriminate E.
Qed.

(** C5 (the code departs from the claim). At 09:00 with [showerThenDry] the
    conditions are suitable and the only good window is the sample at offset
    1, whose hour is 12: by the claim there is no early-morning hint.  The
    program counts that window as index 0 of the good windows, finds hour 9
    and gives the early-morning hint.  At 03:00 it is the other way round:
    the window is at hour 6 by the claim, at hour 3 for the program, which
    gives no early-morning hint. *)
Theorem spraying_hint_counts_good_windows_only :
  suitable (analyzeSprayingConditions 9 calmNow showerThenDry) = true
  /\ map goodWindow (firstn 8 showerThenDry) = [false; true]
  /\ morningByOffset 9 showerThenDry = false
  /\ bestTime (analyzeSprayingConditions 9 calmNow showerThenDry) = earlyMorning
  /\ suitable (analyzeSprayingConditions 3 calmNow showerThenDry) = true
  /\ morningByOffset 3 showerThenDry = true
  /\ bestTime (analyzeSprayingConditions 3 calmNow showerThenDry) = whenConvenient.
Proof. repeat split; vm_compute; reflexivity. Qed.

(** ** Worked examples of the specification *)

(** 38 degrees at 75 % humidity: heat stress is extreme, and irrigation falls
    through every stress tier to "monitor"; in exact arithmetic and in
    doubles. *)
Example humid_heat_is_extreme_and_monitored :
  h_risk (assessHeatStress (num := Q) humidHeat []) = HeatExtreme
  /\ recommendation (generateIrrigationAdvice (num := Q) humidHeat []) = Monitor
  /\ h_risk (assessHeatStress (num := float) humidHeat []) = HeatExtreme
  /\ recommendation (generateIrrigationAdvice (num := float) humidHeat []) = Monitor.
Proof. repeat split; vm_compute; reflexivity. Qed.

(** The condition of a day of five samples is that of the third sample. *)
Example condition_of_five_is_the_third :
  exists aggregate,
    aggregateGroup (num := float) true ("2024-07-10", fiveOfADay) = Normal aggregate
    /\ d_main (d_weather aggregate) = "Rain"
    /\ t_min (d_temperature aggregate) = ofZ 18
    /\ t_max (d_temperature aggregate) = ofZ 27.
Proof. eexists. split; [vm_compute; reflexivity|]. repeat split. Qed.

(** An empty group cannot be aggregated: the read of [items[0].weather]
    throws; [forEach] never leaves such a group in the map. *)
Example empty_group_throws :
  aggregateGroup (num := Q) true ("2024-07-10", []) = Thrown TypeError.
Proof. reflexivity. Qed.

(** Without a forecast [Math.min()] is [Infinity] and the frost tier is
    "none". *)
Example frost_without_forecast :
  f_temperature (analyzeFrostRisk (num := Q) 4 []) = PlusInfinity
  /\ f_risk (analyzeFrostRisk (num := Q) 4 []) = FrostNone.
Proof. split; reflexivity. Qed.

(* ================================================================== *)
(** * Further properties of the code *)
(* ================================================================== *)

(** ** Heat stress *)

(** The cascade of [assessHeatStress], in exact arithmetic: from which tier
    on each condition holds. *)
Lemma heat_rank_thresholds (currentWeather : Current Q) (forecastData : list (Measurement Q)) :
  let temp := c_temperature currentWeather in
  let humidity := c_humidity currentWeather in
  let rank := heatRank (h_risk (assessHeatStress currentWeather forecastData)) in
  ((4 <= rank)%nat <-> 40 < temp \/ (35 < temp /\ 70 < humidity))
  /\ ((3 <= rank)%nat <-> 35 < temp \/ (30 < temp /\ 80 < humidity))
  /\ ((2 <= rank)%nat <-> 30 < temp \/ (25 < temp /\ 85 < humidity))
  /\ ((1 <= rank)%nat <-> 25 < temp).
Proof.
  intros temp humidity rank. subst rank. unfold assessHeatStress. fold temp humidity.
  assert (C1 : (temp >? ofZ 40)%js || ((temp >? ofZ 35)%js && (humidity >? ofZ 70)%js) = true
               <-> 40 < temp \/ (35 < temp /\ 70 < humidity))
    by (rewrite orb_true_iff, andb_true_iff; simpl nlt; now rewrite !Q_ltb_lt).
  assert (C2 : (temp >? ofZ 35)%js || ((temp >? ofZ 30)%js && (humidity >? ofZ 80)%js) = true
               <-> 35 < temp \/ (30 < temp /\ 80 < humidity))
    by (rewrite orb_true_iff, andb_true_iff; simpl nlt; now rewrite !Q_ltb_lt).
  assert (C3 : (temp >? ofZ 30)%js || ((temp >? ofZ 25)%js && (humidity >? ofZ 85)%js) = true
               <-> 30 < temp \/ (25 < temp /\ 85 < humidity))
    by (rewrite orb_true_iff, andb_true_iff; simpl nlt; now rewrite !Q_ltb_lt).
  assert (C4 : (temp >? ofZ 25)%js = true <-> 25 < temp)
    by (simpl nlt; now rewrite Q_ltb_lt).
  destruct ((temp >? ofZ 40)%js || ((temp >? ofZ 35)%js && (humidity >? ofZ 70)%js));
    [|destruct ((temp >? ofZ 35)%js || ((temp >? ofZ 30)%js && (humidity >? ofZ 80)%js));
      [|destruct ((temp >? ofZ 30)%js || ((temp >? ofZ 25)%js && (humidity >? ofZ 85)%js));
        [|destruct (temp >? ofZ 25)%js]]];
    cbn [h_risk heatRank];
    repeat match goal with
           | H : true = true <-> _ |- _ => apply proj1 in H; specialize (H eq_refl)
           | H : false = true <-> ?P |- _ =>
               assert (~ P) by (intros Hp; apply H in Hp; discriminate); clear H
           end;
    repeat split; intros; try lia; try lra; try (exfalso; lra).
Qed.

(** X1. The tier of [assessHeatStress] as regions of the plane of
    temperature and humidity: extreme iff temp > 40, or temp > 35 with
    humidity > 70; high iff 35 < temp <= 40 with humidity <= 70, or
    30 < temp <= 35 with humidity > 80; moderate iff 30 < temp <= 35 with
    humidity <= 80, or 25 < temp <= 30 with humidity > 85; low iff
    25 < temp <= 30 with humidity <= 85; none iff temp <= 25, whatever the
    humidity.  The alert reports the current temperature. *)
Theorem heat_stress_regions (currentWeather : Current Q) (forecastData : list (Measurement Q)) :
  let temp := c_temperature currentWeather in
  let humidity := c_humidity currentWeather in
  let alert := assessHeatStress currentWeather forecastData in
  (h_risk alert = HeatExtreme <-> 40 < temp \/ (35 < temp /\ 70 < humidity))
  /\ (h_risk alert = HeatHigh
      <-> (35 < temp /\ temp <= 40 /\ humidity <= 70)
          \/ (30 < temp /\ temp <= 35 /\ 80 < humidity))
  /\ (h_risk alert = HeatModerate
      <-> (30 < temp /\ temp <= 35 /\ humidity <= 80)
          \/ (25 < temp /\ temp <= 30 /\ 85 < humidity))
  /\ (h_risk alert = HeatLow <-> 25 < temp /\ temp <= 30 /\ humidity <= 85)
  /\ (h_risk alert = HeatNone <-> temp <= 25)
  /\ h_temperature alert = temp.
Proof.
  intros temp humidity alert.
  destruct (heat_rank_thresholds currentWeather forecastData) as [A4 [A3 [A2 A1]]].
  fold temp humidity alert in A4, A3, A2, A1.
  assert (Htemp : h_temperature alert = temp).
  { subst alert. unfold assessHeatStress.
    repeat match goal with |- context [if ?c then _ else _] => destruct c end; reflexivity. }
  destruct (h_risk alert); cbn [heatRank] in *;
    repeat split; intros; try discriminate; try reflexivity; try exact Htemp;
    try (exfalso;
         first [ assert (40 < temp \/ (35 < temp /\ 70 < humidity)) by (apply A4; lia)
               | assert (~ (40 < temp \/ (35 < temp /\ 70 < humidity))) by (rewrite <- A4; lia) ];
         first [ assert (35 < temp \/ (30 < temp /\ 80 < humidity)) by (apply A3; lia)
               | assert (~ (35 < temp \/ (30 < temp /\ 80 < humidity))) by (rewrite <- A3; lia) ];
         first [ assert (30 < temp \/ (25 < temp /\ 85 < humidity)) by (apply A2; lia)
               | assert (~ (30 < temp \/ (25 < temp /\ 85 < humidity))) by (rewrite <- A2; lia) ];
         first [ assert (25 < temp) by (apply A1; lia)
               | assert (~ 25 < temp) by (rewrite <- A1; lia) ];
         lra);
    first [ assert (40 < temp \/ (35 < temp /\ 70 < humidity)) by (apply A4; lia)
          | assert (~ (40 < temp \/ (35 < temp /\ 70 < humidity))) by (rewrite <- A4; lia) ];
    first [ assert (35 < temp \/ (30 < temp /\ 80 < humidity)) by (apply A3; lia)
          | assert (~ (35 < temp \/ (30 < temp /\ 80 < humidity))) by (rewrite <- A3; lia) ];
    first [ assert (30 < temp \/ (25 < temp /\ 85 < humidity)) by (apply A2; lia)
          | assert (~ (30 < temp \/ (25 < temp /\ 85 < humidity))) by (rewrite <- A2; lia) ];
    first [ assert (25 < temp) by (apply A1; lia)
          | assert (~ 25 < temp) by (rewrite <- A1; lia) ];
    lra.
Qed.

(** X2. Heat stress is monotone: a temperature at least as high together
    with a humidity at least as high never gives a milder tier, whatever the
    two forecasts are. *)
Theorem heat_stress_monotone (cooler warmer : Current Q)
    (forecastData forecastData' : list (Measurement Q)) :
  c_temperature cooler <= c_temperature warmer ->
  c_humidity cooler <= c_humidity warmer ->
  (heatRank (h_risk (assessHeatStress cooler forecastData))
   <= heatRank (h_risk (assessHeatStress warmer forecastData')))%nat.
Proof.
  intros Ht Hh.
  destruct (heat_rank_thresholds cooler forecastData) as [A4 [A3 [A2 A1]]].
  destruct (heat_rank_thresholds warmer forecastData') as [B4 [B3 [B2 B1]]].
  cbv zeta in *.
  destruct (h_risk (assessHeatStress cooler forecastData)); cbn [heatRank] in *.
  - lia.
  - apply B1. assert (25 < c_temperature cooler) by (apply A1; lia). lra.
  - apply B2.
    assert (30 < c_temperature cooler
            \/ (25 < c_temperature cooler /\ 85 < c_humidity cooler)) by (apply A2; lia).
    lra.
  - apply B3.
    assert (35 < c_temperature cooler
            \/ (30 < c_temperature cooler /\ 80 < c_humidity cooler)) by (apply A3; lia).
    lra.
  - apply B4.
    assert (40 < c_temperature cooler
            \/ (35 < c_temperature cooler /\ 70 < c_humidity cooler)) by (apply A4; lia).
    lra.
Qed.

Lemma heat_stress_monotone_witness :
  (heatRank (h_risk (assessHeatStress warmNow threeSamples))
   <= heatRank (h_risk (assessHeatStress sultryNow [])))%nat.
Proof.
  apply (heat_stress_monotone warmNow sultryNow threeSamples []);
    vm_compute; discriminate.
Defined.

(** ** Spraying *)




Lemma findIndex_Some {A : Type} (p : A -> bool) (xs : list A) (index : nat) :
  findIndex p xs = Some index ->
  exists x, nth_error xs index = Some x /\ p x = true
            /\ forall earlier y, (earlier < index)%nat ->
                 nth_error xs earlier = Some y -> p y = false.
Proof.
  revert index. induction xs as [|x xs IH]; simpl; intros index E; [discriminate|].
  destruct (p x) eqn:Ep.
  - inversion E; subst. exists x. split; [reflexivity|]. split; [assumption|]. intros; lia.
  - destruct (findIndex p xs) as [k|] eqn:Ek; simpl in E; [|discriminate].
    inversion E; subst. destruct (IH k eq_refl) as [y [Hy [Hp Hbefore]]].
    exists y. split; [exact Hy|]. split; [exact Hp|].
    intros earlier z Hlt Hz. destruct earlier as [|earlier]; simpl in Hz.
    + inversion Hz; subst. exact Ep.
    + apply (Hbefore earlier z); [lia | exact Hz].
Qed.

Lemma findIndex_None {A : Type} (p : A -> bool) (xs : list A) :
  findIndex p xs = None -> forall x, In x xs -> p x = false.
Proof.
  induction xs as [|x xs IH]; simpl; intros E y Hy; [contradiction|].
  destruct (p x) eqn:Ep; [discriminate|].
  destruct (findIndex p xs) eqn:Ek; simpl in E; [discriminate|].
  destruct Hy as [<-|Hy]; [exact Ep | now apply IH].
Qed.

Lemma nth_error_firstn_Some {A : Type} (n index : nat) (xs : list A) (x : A) :
  nth_error (firstn n xs) index = Some x -> (index < n)%nat /\ nth_error xs index = Some x.
Proof.
  revert index xs. induction n as [|n IH]; intros index xs E.
  - simpl in E. destruct index; discriminate.
  - destruct xs as [|y xs]; [destruct index; discriminate|].
    destruct index as [|index]; simpl in E.
    + split; [lia | exact E].
    + destruct (IH index xs E) as [Hlt Hn]. split; [lia | exact Hn].
Qed.

Lemma nth_error_firstn_within {A : Type} (n index : nat) (xs : list A) :
  (index < n)%nat -> nth_error (firstn n xs) index = nth_error xs index.
Proof.
  revert index xs. induction n as [|n IH]; intros index xs Hlt; [lia|].
  destruct xs as [|y xs]; [reflexivity|].
  destruct index as [|index]; [reflexivity|]. simpl. apply IH. lia.
Qed.

(** X4. When the current wind is above 20, [analyzeSprayingConditions]
    announces the next opportunity in [3 * index] hours, where [index] (below
    8) is the place in the forecast of the first good window: that sample is
    a good window and no earlier one is.  It answers "Check forecast tomorrow"
    when none of the first 8 samples is a good window.  This holds on any
    numbers, doubles included. *)
Theorem spraying_next_opportunity_is_first_good_window {num : Type} `{JSNumber num}
    (hours : nat) (currentWeather : Current num) (forecastData : list (Measurement num)) :
  (c_windSpeed currentWeather >? ofZ 20)%js = true ->
  let window := analyzeSprayingConditions hours currentWeather forecastData in
  (exists index item,
      nextOpportunity window
      = [Text "Next opportunity in "; Count (index * 3); Text " hours"]
      /\ (index < 8)%nat
      /\ nth_error forecastData index = Some item
      /\ goodWindow item = true
      /\ forall earlier sample, (earlier < index)%nat ->
           nth_error forecastData earlier = Some sample -> goodWindow sample = false)
  \/ (nextOpportunity window = [Text "Check forecast tomorrow"]
      /\ forall item, In item (firstn 8 forecastData) -> goodWindow item = false).
Proof.
  intros Hwind window. subst window. unfold analyzeSprayingConditions. rewrite Hwind.
  cbn [nextOpportunity].
  destruct (findIndex goodWindow (firstn 8 forecastData)) as [index|] eqn:E.
  - left. destruct (findIndex_Some _ _ E) as [item [Hnth [Hgood Hbefore]]].
    destruct (nth_error_firstn_Some _ _ _ Hnth) as [Hlt Hnth'].
    exists index, item. repeat split; try assumption.
    intros earlier sample Hearlier Hsample. apply (Hbefore earlier sample Hearlier).
    rewrite nth_error_firstn_within by lia. exact Hsample.
  - right. split; [reflexivity|]. now apply findIndex_None.
Qed.

Lemma spraying_next_opportunity_is_first_good_window_witness :
  let window := analyzeSprayingConditions 12 galeNow calmingDown in
  (exists index item,
      nextOpportunity window
      = [Text "Next opportunity in "; Count (index * 3); Text " hours"]
      /\ (index < 8)%nat
      /\ nth_error calmingDown index = Some item
      /\ goodWindow item = true
      /\ forall earlier sample, (earlier < index)%nat ->
           nth_error calmingDown earlier = Some sample -> goodWindow sample = false)
  \/ (nextOpportunity window = [Text "Check forecast tomorrow"]
      /\ forall item, In item (firstn 8 calmingDown) -> goodWindow item = false).
Proof.
  apply (spraying_next_opportunity_is_first_good_window 12 galeNow calmingDown).
  reflexivity.
Defined.

(** ** What the classifiers read *)

(** X5. What each classifier reads of the forecast, on any numbers.  The
    frost alert depends on the first 8 samples only, and not on the current
    temperature it is passed; the spraying window on the first 8 samples; the
    irrigation advice on the first 16.  The heat-stress alert reads the whole
    forecast, not a window: its duration is 3 hours for every sample above
    30 degrees, wherever it stands; the forecast enters in no other way, so
    two forecasts with as many samples above 30 give the same alert, and the
    tier and the temperature of the alert depend on no sample. *)
Theorem classifiers_read_their_window_only {num : Type} `{JSNumber num} (hours : nat)
    (currentWeather : Current num) (currentTemp currentTemp' : num)
    (forecastData forecastData' : list (Measurement num)) :
  (firstn 8 forecastData = firstn 8 forecastData' ->
   analyzeFrostRisk currentTemp forecastData = analyzeFrostRisk currentTemp' forecastData'
   /\ analyzeSprayingConditions hours currentWeather forecastData
      = analyzeSprayingConditions hours currentWeather forecastData')
  /\ (firstn 16 forecastData = firstn 16 forecastData' ->
      generateIrrigationAdvice currentWeather forecastData
      = generateIrrigationAdvice currentWeather forecastData')
  /\ h_risk (assessHeatStress currentWeather forecastData)
     = h_risk (assessHeatStress currentWeather forecastData')
  /\ h_temperature (assessHeatStress currentWeather forecastData)
     = h_temperature (assessHeatStress currentWeather forecastData')
  /\ h_duration (assessHeatStress currentWeather forecastData)
     = [Count (List.length (filter (fun item => (temperature item >? ofZ 30)%js)
                                   forecastData) * 3);
        Text " hours of elevated temperatures expected"]
  /\ (List.length (filter (fun item => (temperature item >? ofZ 30)%js) forecastData)
      = List.length (filter (fun item => (temperature item >? ofZ 30)%js) forecastData') ->
      assessHeatStress currentWeather forecastData
      = assessHeatStress currentWeather forecastData').
Proof.
  split; [|split; [|split; [|split; [|split]]]].
  - intros E. split.
    + unfold analyzeFrostRisk. now rewrite E.
    + unfold analyzeSprayingConditions. now rewrite E.
  - intros E. unfold generateIrrigationAdvice, totalRain. now rewrite E.
  - unfold assessHeatStress.
    repeat match goal with |- context [if ?c then _ else _] => destruct c end; reflexivity.
  - unfold assessHeatStress.
    repeat match goal with |- context [if ?c then _ else _] => destruct c end; reflexivity.
  - unfold assessHeatStress.
    repeat match goal with |- context [if ?c then _ else _] => destruct c end; reflexivity.
  - intros E. unfold assessHeatStress. now rewrite E.
Qed.

Lemma classifiers_read_their_window_only_witness :
  analyzeFrostRisk 3 (threeSamples ++ calmingDown ++ showerThenDry)
  = analyzeFrostRisk 30 (threeSamples ++ calmingDown ++ showerThenDry ++ rainyDay).
Proof.
  apply (proj1 (classifiers_read_their_window_only 9 hotDry 3 30
                  (threeSamples ++ calmingDown ++ showerThenDry)
                  (threeSamples ++ calmingDown ++ showerThenDry ++ rainyDay))).
  reflexivity.
Defined.

(** X6. The single-alert entry points agree with the full advisory: when
    [getCropAdvisory] succeeds on a pair of responses, [getFrostAlert] and
    [getIrrigationAdvice] succeed on the same pair and return the advisory's
    frost alert and irrigation advice. *)
Theorem single_alerts_agree_with_advisory {num : Type} `{JSNumber num} (now : string)
    (hours : nat) (current : WeatherResponse (CurrentWeather num))
    (forecast : WeatherResponse (WeatherForecast num)) (advisory : CropAdvisory num) :
  data (getCropAdvisory now hours current forecast) = Some advisory ->
  getFrostAlert forecast current
  = {| r_success := true; r_data := Some (a_frost advisory); r_error := None |}
  /\ getIrrigationAdvice current forecast
     = {| r_success := true; r_data := Some (a_irrigation advisory); r_error := None |}.
Proof.
  unfold getCropAdvisory, getFrostAlert, getIrrigationAdvice, nonNull.
  destruct (success current); [|discriminate].
  destruct (success forecast); [|discriminate].
  destruct (data current) as [currentData|]; [|discriminate].
  destruct (data forecast) as [forecastData|]; [|discriminate].
  cbn. intros E. inversion E; subst. cbn [a_frost a_irrigation]. split; reflexivity.
Qed.

Lemma single_alerts_agree_with_advisory_witness :
  exists advisory,
    getFrostAlert hourlyOk currentOk
    = {| r_success := true; r_data := Some (a_frost advisory); r_error := None |}
    /\ getIrrigationAdvice currentOk hourlyOk
       = {| r_success := true; r_data := Some (a_irrigation advisory); r_error := None |}.
Proof.
  destruct (data (getCropAdvisory "2024-05-01T20:00:01.000Z" 20 currentOk hourlyOk))
    as [advisory|] eqn:E; [|discriminate E].
  exists advisory.
  exact (single_alerts_agree_with_advisory "2024-05-01T20:00:01.000Z" 20
           currentOk hourlyOk E).
Defined.

(** ** The advisory as a whole *)

(** The two steps of [generateOverallAdvice], on any alerts. *)
Lemma overall_advice_shape {num : Type} (frost : FrostAlert num)
    (irrigation : IrrigationAdvice num) (spraying : SprayingWindow num)
    (heatStress : HeatStressAlert num) :
  let overall := generateOverallAdvice frost irrigation spraying heatStress in
  o_priority overall
  = (if FrostRisk_eqb (f_risk frost) FrostCritical
        || HeatRisk_eqb (h_risk heatStress) HeatExtreme
        || Recommendation_eqb (recommendation irrigation) Immediate then Urgent
     else if FrostRisk_eqb (f_risk frost) FrostHigh
             || HeatRisk_eqb (h_risk heatStress) HeatHigh
             || Recommendation_eqb (recommendation irrigation) Within24h then High
     else if FrostRisk_eqb (f_risk frost) FrostModerate
             || HeatRisk_eqb (h_risk heatStress) HeatModerate
             || Recommendation_eqb (recommendation irrigation) Within48h then Medium
     else Low)
  /\ (In optimalLine (o_generalAdvice overall)
      -> f_risk frost = FrostNone /\ h_risk heatStress = HeatNone).
Proof.
  intros overall. subst overall. unfold generateOverallAdvice.
  set (start := if FrostRisk_eqb (f_risk frost) FrostCritical
                   || HeatRisk_eqb (h_risk heatStress) HeatExtreme
                   || Recommendation_eqb (recommendation irrigation) Immediate
                then (Urgent, [urgentLine]) else _).
  assert (Hstart : ~ In optimalLine (snd start)
                   /\ fst start
                      = (if FrostRisk_eqb (f_risk frost) FrostCritical
                            || HeatRisk_eqb (h_risk heatStress) HeatExtreme
                            || Recommendation_eqb (recommendation irrigation) Immediate
                         then Urgent
                         else if FrostRisk_eqb (f_risk frost) FrostHigh
                                 || HeatRisk_eqb (h_risk heatStress) HeatHigh
                                 || Recommendation_eqb (recommendation irrigation) Within24h
                         then High
                         else if FrostRisk_eqb (f_risk frost) FrostModerate
                                 || HeatRisk_eqb (h_risk heatStress) HeatModerate
                                 || Recommendation_eqb (recommendation irrigation) Within48h
                         then Medium else Low)).
  { subst start.
    repeat match goal with |- context [if ?c then _ else _] => destruct c end;
      (split; [|reflexivity]);
      simpl; intros Hin; repeat destruct Hin as [Hin|Hin]; try discriminate Hin;
      try contradiction. }
  destruct start as [priority advice]. cbn [o_priority o_generalAdvice]. simpl in Hstart.
  destruct Hstart as [Hnot Hfst]. split; [exact Hfst|].
  rewrite in_app_iff, !In_pushIf. simpl.
  intros [[[[Hin|[_ E]]|[_ E]]|[E _]]|[E|[]]];
    try contradiction; try discriminate E.
  apply andb_true_iff in E. now rewrite FrostRisk_eqb_eq, HeatRisk_eqb_eq in E.
Qed.

(** What each answer of [generateIrrigationAdvice] says of the current
    weather, in exact arithmetic. *)
Lemma Q_irrigation_answer (currentWeather : Current Q) (forecastData : list (Measurement Q)) :
  let temp := c_temperature currentWeather in
  let humidity := c_humidity currentWeather in
  match recommendation (generateIrrigationAdvice currentWeather forecastData) with
  | Immediate => 35 < temp /\ humidity < 35
  | Within24h => 30 < temp /\ humidity < 40
  | Within48h => 25 < temp /\ humidity < 50
  | Monitor => ~ (25 < temp /\ humidity < 50)
  | Skip => True
  end.
Proof.
  intros temp humidity. rewrite irrigation_cascade. fold temp humidity.
  pose proof (Q_stress_tier temp humidity 35 35) as H35.
  pose proof (Q_stress_tier temp humidity 30 40) as H30.
  pose proof (Q_stress_tier temp humidity 25 50) as H25.
  change (inject_Z 35) with 35 in H35.
  change (inject_Z 30) with 30 in H30. change (inject_Z 40) with 40 in H30.
  change (inject_Z 25) with 25 in H25. change (inject_Z 50) with 50 in H25.
  destruct (totalRain forecastData >? ofZ 5)%js; [exact I|].
  destruct ((temp >? ofZ 35)%js && (humidity <? ofZ 35)%js); [now apply H35|].
  destruct ((temp >? ofZ 30)%js && (humidity <? ofZ 40)%js); [now apply H30|].
  destruct ((temp >? ofZ 25)%js && (humidity <? ofZ 50)%js); [now apply H25|].
  intros Hn. apply H25 in Hn. discriminate.
Qed.

(** X7. In an advisory that [getCropAdvisory] computes from weather data
    (exact arithmetic), the alerts cohere: irrigation "immediate" comes with
    heat stress high or extreme, "within_24h" with at least moderate,
    "within_48h" with at least low; and the optimal-conditions line comes
    only with priority "low" and with irrigation "skip" or "monitor". *)
Theorem advisory_alerts_cohere (now : string) (hours : nat)
    (current : WeatherResponse (CurrentWeather Q))
    (forecast : WeatherResponse (WeatherForecast Q)) (advisory : CropAdvisory Q) :
  data (getCropAdvisory now hours current forecast) = Some advisory ->
  let irrigation := recommendation (a_irrigation advisory) in
  let heat := heatRank (h_risk (a_heatStress advisory)) in
  (irrigation = Immediate -> (3 <= heat)%nat)
  /\ (irrigation = Within24h -> (2 <= heat)%nat)
  /\ (irrigation = Within48h -> (1 <= heat)%nat)
  /\ (In optimalLine (a_generalAdvice advisory) ->
      a_priority advisory = Low /\ (irrigation = Skip \/ irrigation = Monitor)).
Proof.
  unfold getCropAdvisory, nonNull.
  destruct (success current); [|discriminate].
  destruct (success forecast); [|discriminate].
  destruct (data current) as [currentData|]; [|discriminate].
  destruct (data forecast) as [forecastData|]; [|discriminate].
  cbn [negb orb bind tryCatch ok data]. intros E. inversion E; subst. clear E.
  cbn [a_irrigation a_heatStress a_generalAdvice a_priority].
  set (currentWeather := cw_current currentData).
  set (samples := wf_forecast forecastData).
  set (irrigation := recommendation (generateIrrigationAdvice currentWeather samples)).
  set (heat := heatRank (h_risk (assessHeatStress currentWeather samples))).
  pose proof (Q_irrigation_answer currentWeather samples) as Hirr. cbv zeta in Hirr.
  fold irrigation in Hirr.
  destruct (heat_rank_thresholds currentWeather samples) as [_ [A3 [A2 A1]]].
  fold heat in A3, A2, A1.
  destruct (overall_advice_shape
              (analyzeFrostRisk (c_temperature currentWeather) samples)
              (generateIrrigationAdvice currentWeather samples)
              (analyzeSprayingConditions hours currentWeather samples)
              (assessHeatStress currentWeather samples)) as [Hpriority Hoptimal].
  split; [|split; [|split]].
  - intros E. rewrite E in Hirr. apply A3. lra.
  - intros E. rewrite E in Hirr. apply A2. lra.
  - intros E. rewrite E in Hirr. apply A1. lra.
  - intros Hin. destruct (Hoptimal Hin) as [Hfrost Hheat].
    assert (Hcool : ~ 25 < c_temperature currentWeather).
    { rewrite <- A1. unfold heat. rewrite Hheat. simpl. lia. }
    assert (Hcalm : irrigation = Skip \/ irrigation = Monitor).
    { destruct irrigation; try (exfalso; lra); [now left | now right]. }
    split; [|exact Hcalm].
    rewrite Hpriority, Hfrost, Hheat. fold irrigation.
    destruct Hcalm as [-> | ->]; reflexivity.
Qed.

Lemma advisory_alerts_cohere_witness :
  exists advisory,
    data (getCropAdvisory "2024-05-01T20:00:01.000Z" 20 mildEvening hourlyOk) = Some advisory
    /\ In optimalLine (a_generalAdvice advisory)
    /\ a_priority advisory = Low.
Proof.
  destruct (data (getCropAdvisory "2024-05-01T20:00:01.000Z" 20 mildEvening hourlyOk))
    as [advisory|] eqn:E; [|discriminate E].
  exists advisory. split; [reflexivity|].
  assert (Hin : In optimalLine (a_generalAdvice advisory)).
  { vm_compute in E. inversion E; subst. cbn. auto 10. }
  split; [exact Hin|].
  exact (proj1 (proj2 (proj2 (proj2
           (advisory_alerts_cohere "2024-05-01T20:00:01.000Z" 20 mildEvening hourlyOk E)))
           Hin)).
Defined.

(* ================================================================== *)
(** ** Market prices *)

(** *** Reading a price *)

Lemma String_filter_app (keep : ascii -> bool) (a b : string) :
  String_filter keep (String.append a b)
  = String.append (String_filter keep a) (String_filter keep b).
Proof.
  induction a as [|c a IH]; simpl; [reflexivity|].
  destruct (keep c); simpl; now rewrite IH.
Qed.

Lemma takeDigits_digits (s : string) : Forall (fun c => isDigit c = true) (fst (takeDigits s)).
Proof.
  induction s as [|c s IH]; simpl; [constructor|].
  destruct (isDigit c) eqn:E; [|constructor].
  destruct (takeDigits s) as [digits after]. simpl in *. now constructor.
Qed.

Lemma takeDigits_no_digit (s : string) :
  String_filter isDigit s = EmptyString -> takeDigits s = ([], s).
Proof.
  destruct s as [|c s]; simpl; [reflexivity|].
  destruct (isDigit c); [discriminate|reflexivity].
Qed.

Lemma takeDigits_all_digits (s : string) :
  String_filter isDigit s = s ->
  takeDigits s = (list_ascii_of_string s, EmptyString).
Proof.
  induction s as [|c s IH]; simpl; [reflexivity|].
  destruct (isDigit c) eqn:E.
  - intros Es. injection Es as Es. now rewrite (IH Es).
  - intros Es. exfalso.
    assert (Hlen : forall t, (String.length (String_filter isDigit t) <= String.length t)%nat).
    { induction t as [|d t IHt]; simpl; [lia|]. destruct (isDigit d); simpl; lia. }
    specialize (Hlen s). rewrite Es in Hlen. simpl in Hlen. lia.
Qed.

Lemma isDigit_value (c : ascii) : isDigit c = true -> (0 <= digitValue c <= 9)%Z.
Proof.
  unfold isDigit, digitValue. rewrite andb_true_iff, !N.leb_le. lia.
Qed.

Lemma digitsValue_bounds (digits : list ascii) (start : Z) :
  Forall (fun c => isDigit c = true) digits ->
  (0 <= start ->
   start * 10 ^ Z.of_nat (List.length digits)
   <= fold_left (fun value c => 10 * value + digitValue c) digits start
   < (start + 1) * 10 ^ Z.of_nat (List.length digits))%Z.
Proof.
  intros Hd. revert start. induction Hd as [|c digits Hc Hd IH]; intros start Hs.
  - simpl. lia.
  - cbn [fold_left List.length]. rewrite Nat2Z.inj_succ, Z.pow_succ_r by lia.
    apply isDigit_value in Hc.
    specialize (IH (10 * start + digitValue c)%Z ltac:(lia)).
    assert (0 < 10 ^ Z.of_nat (List.length digits))%Z by (apply Z.pow_pos_nonneg; lia).
    nia.
Qed.

Lemma decimalValue_bounds (integer fraction : list ascii) :
  Forall (fun c => isDigit c = true) integer ->
  Forall (fun c => isDigit c = true) fraction ->
  inject_Z (digitsValue integer) <= decimalValue integer fraction
  /\ decimalValue integer fraction < inject_Z (digitsValue integer + 1).
Proof.
  intros Hi Hf. unfold decimalValue, digitsValue. rewrite fold_left_app.
  pose proof (@digitsValue_bounds _ 0%Z Hi ltac:(lia)) as [Hlow _].
  set (whole := fold_left (fun value c => (10 * value + digitValue c)%Z) integer 0%Z) in *.
  assert (Hwhole : (0 <= whole)%Z) by lia.
  pose proof (@digitsValue_bounds _ whole Hf Hwhole) as Hb.
  assert (Hpos : (0 < 10 ^ Z.of_nat (List.length fraction))%Z)
    by (apply Z.pow_pos_nonneg; lia).
  unfold Qle, Qlt. cbn [Qnum Qden inject_Z]. rewrite Z2Pos.id by exact Hpos. lia.
Qed.

Lemma parseFloatDecimal_bounds (s : string) (price : Q) :
  parseFloatDecimal s = Some price ->
  inject_Z (digitsValue (fst (takeDigits s))) <= price
  /\ price < inject_Z (digitsValue (fst (takeDigits s)) + 1).
Proof.
  unfold parseFloatDecimal.
  pose proof (takeDigits_digits s) as Hi.
  destruct (takeDigits s) as [integer after]. cbn [fst] in *.
  assert (Hplain : forall fraction, Forall (fun c => isDigit c = true) fraction ->
            Some (decimalValue integer fraction) = Some price ->
            inject_Z (digitsValue integer) <= price
            /\ price < inject_Z (digitsValue integer + 1)).
  { intros fraction Hf E. injection E as <-. now apply decimalValue_bounds. }
  destruct after as [|c rest].
  - destruct integer; [discriminate|]. apply Hplain. constructor.
  - destruct (Ascii.eqb c ".") eqn:Edot.
    + apply Ascii.eqb_eq in Edot. subst c.
      pose proof (takeDigits_digits rest) as Hf.
      destruct (takeDigits rest) as [fraction after]. cbn [fst] in Hf.
      destruct integer, fraction; try discriminate; now apply Hplain.
    + assert (E : forall T (yes no : T),
                match c with
                | "."%char => yes
                | _ => no
                end = no).
      { intros T yes no. apply Ascii.eqb_neq in Edot.
        destruct c as [[] [] [] [] [] [] [] []]; try reflexivity.
        now exfalso. }
      rewrite E. destruct integer; [discriminate|]. apply Hplain. constructor.
Qed.

(** X8. [parsePrice] reads only the digits and dots of a text: a character
    that is neither (a thousands separator, a sign, a letter, a blank) can be
    removed anywhere without changing the price, and a text without a digit
    gives 0. *)
Theorem parse_price_reads_digits_and_dots {num : Type} `{JSNumber num} :
  (forall (before after : string) (c : ascii),
      priceChar c = false ->
      parsePrice (String.append before (String c after))
      = parsePrice (String.append before after))
  /\ (forall text : string,
         String_filter isDigit text = EmptyString -> parsePrice text = ofZ 0).
Proof.
  split.
  - intros before after c Hc. unfold parsePrice.
    rewrite !String_filter_app. simpl. now rewrite Hc.
  - intros text Hnone. unfold parsePrice.
    set (clean := String_filter priceChar text).
    assert (Hclean : String_filter isDigit clean = EmptyString).
    { subst clean. revert Hnone. induction text as [|c text IH]; simpl; [reflexivity|].
      unfold priceChar at 1. destruct (isDigit c) eqn:E; [discriminate|].
      simpl. destruct (Ascii.eqb c "."); simpl; [rewrite E|]; exact IH. }
    unfold parseFloatDecimal. rewrite (takeDigits_no_digit _ Hclean).
    destruct clean as [|c rest]; [reflexivity|].
    simpl in Hclean. destruct (isDigit c) eqn:E; [discriminate|].
    rewrite (takeDigits_no_digit _ Hclean).
    destruct c as [[] [] [] [] [] [] [] []]; reflexivity.
Qed.

(** X9. In exact arithmetic [parsePrice] is never negative; a text without
    a dot is read as the whole number its digits write, whatever stands
    between them; and a text whose first digit-or-dot is a dot with no
    digit before it (as in "Rs. 120") is read as a fraction below 1. *)
Theorem parse_price_value (text : string) :
  0 <= parsePrice (num := Q) text
  /\ (String_filter (Ascii.eqb ".") text = EmptyString -> digitsOf text <> [] ->
      parsePrice (num := Q) text == inject_Z (digitsValue (digitsOf text)))
  /\ (forall rest, String_filter priceChar text = String "." rest ->
      parsePrice (num := Q) text < 1).
Proof.
  unfold parsePrice. cbn [ofQ Q_JSNumber]. split; [|split].
  - destruct (parseFloatDecimal (String_filter priceChar text)) as [price|] eqn:E.
    + apply parseFloatDecimal_bounds in E. destruct E as [Hlow _].
      pose proof (takeDigits_digits (String_filter priceChar text)) as Hd.
      pose proof (@digitsValue_bounds _ 0%Z Hd ltac:(lia)) as [Hz _].
      fold (digitsValue (fst (takeDigits (String_filter priceChar text)))) in Hz.
      apply Qle_trans with (2 := Hlow). unfold Qle. simpl. lia.
    + unfold ofZ. simpl. apply Qle_refl.
  - intros Hnodot Hdigits.
    assert (Hsame : String_filter priceChar text = String_filter isDigit text).
    { revert Hnodot. clear Hdigits.
      induction text as [|c text IH]; cbn [String_filter]; [reflexivity|].
      unfold priceChar at 1. rewrite (Ascii.eqb_sym c ".").
      destruct (Ascii.eqb "." c); [discriminate|]. rewrite orb_false_r.
      intros Hn. destruct (isDigit c); now rewrite (IH Hn). }
    assert (Hfix : String_filter isDigit (String_filter isDigit text)
                   = String_filter isDigit text).
    { clear. induction text as [|c text IH]; simpl; [reflexivity|].
      destruct (isDigit c) eqn:E; simpl; [rewrite E; now f_equal|exact IH]. }
    rewrite Hsame. unfold parseFloatDecimal. rewrite (takeDigits_all_digits Hfix).
    fold (digitsOf text). destruct (digitsOf text) as [|d ds]; [congruence|].
    unfold decimalValue. rewrite app_nil_r. simpl List.length.
    unfold Qeq. simpl. lia.
  - intros rest Hdot. rewrite Hdot.
    destruct (parseFloatDecimal (String "." rest)) as [price|] eqn:E.
    + apply parseFloatDecimal_bounds in E. destruct E as [_ Hup]. exact Hup.
    + reflexivity.
Qed.

(** *** The ticker *)

Lemma ticker_fold {num : Type} `{JSNumber num} (date : string) (cells : list TickerCell)
    (pushed : list (@MarketPrice num)) :
  fold_left (tickerStep date) cells pushed
  = pushed ++ map (priceOf date) (filter validCell cells).
Proof.
  revert pushed. induction cells as [|cell cells IH]; intros pushed; cbn [fold_left filter].
  - simpl. now rewrite app_nil_r.
  - rewrite IH. unfold tickerStep, validCell.
    destruct (truthy (commodityText cell) && truthy (varietyText cell)
              && (parsePrice (maxPriceText cell) >? ofZ 0)%js
              && (parsePrice (minPriceText cell) >? ofZ 0)%js).
    + rewrite <- app_assoc. reflexivity.
    + reflexivity.
Qed.

(** X10. [parseMarketPricesHTML] returns, in document order, one price per
    cell that has a commodity, a variety and two prices above 0, and nothing
    for the other cells: every price it returns has non-empty names, both
    prices above 0 and the date of the page; there are at most as many prices
    as cells; and the prices of two runs of cells are the prices of the first
    followed by those of the second. *)
Theorem ticker_keeps_the_complete_cells {num : Type} `{JSNumber num} (page : TickerPage) :
  let prices := parseMarketPricesHTML page in
  prices = map (priceOf (pageDate page)) (filter validCell (cells page))
  /\ Forall (fun price =>
               commodity price <> "" /\ variety price <> ""
               /\ (maxPrice price >? ofZ 0)%js = true
               /\ (minPrice price >? ofZ 0)%js = true
               /\ mp_date price = pageDate page) prices
  /\ (List.length prices <= List.length (cells page))%nat
  /\ (forall first second,
         cells page = first ++ second ->
         prices = parseMarketPricesHTML {| pageDate := pageDate page; cells := first |}
                  ++ parseMarketPricesHTML {| pageDate := pageDate page; cells := second |}).
Proof.
  intros prices.
  assert (E : forall tds date,
             parseMarketPricesHTML {| pageDate := date; cells := tds |}
             = map (priceOf date) (filter validCell tds)).
  { intros tds date. unfold parseMarketPricesHTML. cbn [pageDate cells].
    now rewrite ticker_fold. }
  assert (Eprices : prices = map (priceOf (pageDate page)) (filter validCell (cells page))).
  { subst prices. destruct page as [date tds]. apply E. }
  split; [exact Eprices|]. split; [|split].
  - rewrite Eprices, Forall_forall. intros price Hin.
    apply in_map_iff in Hin. destruct Hin as [cell [<- Hcell]].
    apply filter_In in Hcell. destruct Hcell as [_ Hvalid].
    unfold validCell in Hvalid. rewrite !andb_true_iff in Hvalid.
    destruct Hvalid as [[[Hc Hv] Hmax] Hmin]. cbn [priceOf commodity variety maxPrice minPrice mp_date].
    unfold truthy in Hc, Hv. rewrite negb_true_iff in Hc, Hv.
    apply String.eqb_neq in Hc, Hv. repeat split; assumption.
  - rewrite Eprices, length_map. apply filter_length_le.
  - intros first second Hcells. rewrite Eprices, Hcells, !E.
    now rewrite filter_app, map_app.
Qed.

(** *** The reply *)

Section Collation.

Context {num : Type} `{JSNumber num}.
Variable collate : string -> string -> comparison.

Let byCommodity (a b : @MarketPrice num) : comparison := collate (commodity a) (commodity b).

Lemma sort_by_commodity_Permutation (prices : list (@MarketPrice num)) :
  Permutation (Array_sort byCommodity prices) prices.
Proof.
  unfold Array_sort. induction prices as [|x l IH]; simpl; [reflexivity|].
  transitivity (x :: fold_right (sort_insert byCommodity) [] l); [|now constructor].
  generalize (fold_right (sort_insert byCommodity) [] l). clear IH.
  intros sorted. induction sorted as [|y sorted IH]; simpl; [reflexivity|].
  destruct (byCommodity x y); try reflexivity.
  rewrite IH. apply perm_swap.
Qed.

Hypothesis collate_consistent : forall a b, collate a b = Gt -> collate b a <> Gt.

Lemma sort_by_commodity_Sorted (prices : list (@MarketPrice num)) :
  Sorted (fun a b => collate (commodity a) (commodity b) <> Gt) (Array_sort byCommodity prices).
Proof.
  unfold Array_sort. induction prices as [|x l IH]; simpl; [constructor|].
  revert IH. generalize (fold_right (sort_insert byCommodity) [] l). clear l.
  intros sorted. induction sorted as [|y sorted IH]; simpl; intros Hs.
  - repeat constructor.
  - inversion Hs as [|? ? Hsorted Hy]; subst.
    destruct (byCommodity x y) eqn:E; unfold byCommodity in E.
    + constructor; [assumption|]. constructor. congruence.
    + constructor; [assumption|]. constructor. congruence.
    + constructor; [now apply IH|].
      destruct sorted as [|z sorted]; simpl.
      * constructor. now apply collate_consistent.
      * inversion Hy; subst.
        destruct (byCommodity x z); constructor;
          solve [assumption | now apply collate_consistent].
Qed.

Lemma sort_by_commodity_stable (name : string) (prices : list (@MarketPrice num)) :
  ofCommodity name (Array_sort byCommodity prices) = ofCommodity name prices.
Proof.
  unfold Array_sort, ofCommodity.
  induction prices as [|x l IH]; simpl; [reflexivity|].
  rewrite <- IH. generalize (fold_right (sort_insert byCommodity) [] l). clear IH l.
  intros sorted. induction sorted as [|y sorted IH]; simpl; [reflexivity|].
  destruct (byCommodity x y) eqn:E; simpl; try reflexivity.
  rewrite IH. unfold byCommodity in E.
  destruct (String.eqb (commodity x) name) eqn:Ex; [|reflexivity].
  destruct (String.eqb (commodity y) name) eqn:Ey; [|reflexivity].
  apply String.eqb_eq in Ex, Ey. rewrite Ex, Ey in E.
  exfalso. exact (collate_consistent E E).
Qed.

End Collation.

(** X11. Whatever the collation, a reply of [getMarketPrices] or of
    [getFormattedMarketPrices] is whole: after a fetch it is a success whose
    [totalItems] counts its data, after an error it is a failure with the
    error's message, no data and [totalItems] 0.  Formatting changes nothing
    but the order of the data: the same prices, each as many times. *)
Theorem market_reply_counts_its_data {num : Type} `{JSNumber num}
    (collate : string -> string -> comparison) (now : string)
    (fetched : completion TickerPage) :
  let plain := getMarketPrices now fetched in
  let formatted := getFormattedMarketPrices collate now fetched in
  match fetched with
  | Normal page =>
      exists sorted,
        plain = {| m_success := true; m_data := Some (parseMarketPricesHTML page);
                   m_error := None; lastUpdated := now;
                   totalItems := List.length (parseMarketPricesHTML page) |}
        /\ formatted = {| m_success := true; m_data := Some sorted;
                          m_error := None; lastUpdated := now;
                          totalItems := List.length sorted |}
        /\ Permutation sorted (parseMarketPricesHTML page)
  | Thrown message =>
      plain = {| m_success := false; m_data := None; m_error := Some message;
                 lastUpdated := now; totalItems := 0 |}
      /\ formatted = plain
  end.
Proof.
  intros plain formatted. subst plain formatted.
  destruct fetched as [page|message]; [|split; reflexivity].
  unfold getFormattedMarketPrices, getMarketPrices.
  cbn [m_success m_data m_error lastUpdated totalItems].
  eexists. split; [reflexivity|].
  pose proof (sort_by_commodity_Permutation collate (parseMarketPricesHTML page)) as Hp.
  split; [|exact Hp].
  f_equal. symmetry. now apply Permutation_length.
Qed.

(** X12. When the collation never puts two names each after the other,
    [getFormattedMarketPrices] returns the prices in ascending order of
    commodity, and the sort is stable: the prices of one commodity keep the
    order they have on the page. *)
Theorem formatted_prices_sorted_and_stable {num : Type} `{JSNumber num}
    (collate : string -> string -> comparison) (now : string) (page : TickerPage) :
  (forall a b, collate a b = Gt -> collate b a <> Gt) ->
  exists sorted,
    m_data (getFormattedMarketPrices collate now (Normal page)) = Some sorted
    /\ Sorted (fun a b => collate (commodity a) (commodity b) <> Gt) sorted
    /\ forall name, ofCommodity name sorted = ofCommodity name (parseMarketPricesHTML page).
Proof.
  intros Hconsistent.
  unfold getFormattedMarketPrices, getMarketPrices.
  cbn [m_success m_data m_error lastUpdated totalItems].
  eexists. split; [reflexivity|]. split.
  - now apply sort_by_commodity_Sorted.
  - intros name. now apply sort_by_commodity_stable.
Qed.

Lemma formatted_prices_sorted_and_stable_witness :
  (forall a b, localeCompare a b = Gt -> localeCompare b a <> Gt)
  /\ exists sorted,
       m_data (getFormattedMarketPrices (num := Q) localeCompare "2024-05-01T06:00:00.000Z"
                 (Normal tickerPage)) = Some sorted
       /\ map (@variety Q) sorted = ["Kinnaur"; "American"; "Lokwan"]
       /\ Sorted (fun a b => localeCompare (commodity a) (commodity b) <> Gt) sorted.
Proof.
  assert (Hconsistent : forall a b, localeCompare a b = Gt -> localeCompare b a <> Gt).
  { intros a b E. apply date_gt_lt in E. unfold date_lt in E. congruence. }
  split; [exact Hconsistent|].
  destruct (formatted_prices_sorted_and_stable (num := Q) localeCompare
              "2024-05-01T06:00:00.000Z" tickerPage Hconsistent)
    as [sorted [E [Hsorted _]]].
  exists sorted. split; [exact E|]. split; [|exact Hsorted].
  vm_compute in E. injection E as <-. reflexivity.
Defined.

(* ================================================================== *)
(** ** Agricultural insights *)

(** The flags of [calculateAgriculturalInsights] as regions of the plane of
    temperature and humidity, in exact arithmetic. *)
Lemma Q_insights_regions (sqrt : JSMath Q) (current : CurrentWeather Q)
    (forecast : DailyForecast Q) :
  let temp := c_temperature (cw_current current) in
  let humidity := c_humidity (cw_current current) in
  let insights := calculateAgriculturalInsights current forecast in
  (heatStress insights = true <-> 35 < temp \/ (30 < temp /\ 70 < humidity))
  /\ (irrigationRecommendation insights = "High need" <-> humidity < 40 /\ 25 < temp)
  /\ (irrigationRecommendation insights = "Moderate need"
      <-> ~ (humidity < 40 /\ 25 < temp) /\ humidity < 60 /\ 20 < temp)
  /\ (irrigationRecommendation insights = "Low need"
      <-> ~ (humidity < 60 /\ 20 < temp) /\ 80 < humidity)
  /\ (irrigationRecommendation insights = "Monitor"
      <-> ~ (humidity < 60 /\ 20 < temp) /\ humidity <= 80).
Proof.
  intros temp humidity insights. subst insights.
  unfold calculateAgriculturalInsights. cbn [heatStress irrigationRecommendation].
  fold temp humidity.
  change (ofZ 35) with 35. change (ofZ 30) with 30. change (ofZ 70) with 70.
  change (ofZ 40) with 40. change (ofZ 25) with 25. change (ofZ 60) with 60.
  change (ofZ 20) with 20. change (ofZ 80) with 80. simpl nlt.
  split.
  { rewrite orb_true_iff, andb_true_iff, !Q_ltb_lt. tauto. }
  destruct (Q_ltb humidity 40) eqn:E1; destruct (Q_ltb 25 temp) eqn:E2;
    destruct (Q_ltb humidity 60) eqn:E3; destruct (Q_ltb 20 temp) eqn:E4;
    destruct (Q_ltb 80 humidity) eqn:E5; q_compare; cbn [andb];
    repeat split; intros; try discriminate; try reflexivity; try lra;
    try (intros [? ?]; lra).
Qed.

(** X13. The insights of the weather service and the advisory of the
    agricultural service agree on the same current weather (exact
    arithmetic).  Heat: an advisory tier "high" or "extreme" sets
    [insights.heatStress], and [insights.heatStress] comes only with a tier
    "moderate" or above.  Irrigation: "immediate" and "within_24h" come only
    with "High need", "within_48h" only with "High need" or "Moderate need",
    and "High need" never with "monitor". *)
Theorem insights_agree_with_advisory (sqrt : JSMath Q) (current : CurrentWeather Q)
    (forecast : DailyForecast Q) (forecastData : list (Measurement Q)) :
  let insights := calculateAgriculturalInsights current forecast in
  let heat := heatRank (h_risk (assessHeatStress (cw_current current) forecastData)) in
  let irrigation :=
    recommendation (generateIrrigationAdvice (cw_current current) forecastData) in
  ((3 <= heat)%nat -> heatStress insights = true)
  /\ (heatStress insights = true -> (2 <= heat)%nat)
  /\ (irrigation = Immediate \/ irrigation = Within24h ->
      irrigationRecommendation insights = "High need")
  /\ (irrigation = Within48h ->
      irrigationRecommendation insights = "High need"
      \/ irrigationRecommendation insights = "Moderate need")
  /\ (irrigationRecommendation insights = "High need" -> irrigation <> Monitor).
Proof.
  intros insights heat irrigation.
  destruct (Q_insights_regions sqrt current forecast) as [Hheat [Hhigh [Hmoderate _]]].
  cbv zeta in Hheat, Hhigh, Hmoderate. fold insights in Hheat, Hhigh, Hmoderate.
  destruct (heat_rank_thresholds (cw_current current) forecastData) as [_ [A3 [A2 _]]].
  fold heat in A3, A2.
  pose proof (Q_irrigation_answer (cw_current current) forecastData) as Hirr.
  cbv zeta in Hirr. fold irrigation in Hirr.
  set (temp := c_temperature (cw_current current)) in *.
  set (humidity := c_humidity (cw_current current)) in *.
  split; [|split; [|split; [|split]]].
  - intros Hrank. apply Hheat. apply A3 in Hrank. lra.
  - intros Hflag. apply A2. apply Hheat in Hflag. lra.
  - intros [E | E]; rewrite E in Hirr; apply Hhigh; lra.
  - intros E. rewrite E in Hirr.
    destruct (Qlt_le_dec humidity 40) as [Hdry | Hdamp].
    + left. apply Hhigh. lra.
    + right. apply Hmoderate. lra.
  - intros Hneed E. rewrite E in Hirr. apply Hhigh in Hneed. apply Hirr. lra.
Qed.

(** X14. [calculateAgriculturalInsights] reads the first 3 days of the daily
    forecast and nothing beyond (on any numbers): two forecasts with the same
    first 3 days give the same insights.  In exact arithmetic, whatever the
    square root returns, the evapotranspiration is never negative. *)
Theorem insights_read_three_days {num : Type} `{JSNumber num} (sqrt : JSMath num)
    (current : CurrentWeather num) (forecast forecast' : DailyForecast num) :
  (firstn 3 (df_forecast forecast) = firstn 3 (df_forecast forecast') ->
   calculateAgriculturalInsights current forecast
   = calculateAgriculturalInsights current forecast')
  /\ forall (sqrtQ : JSMath Q) (currentQ : CurrentWeather Q) (forecastQ : DailyForecast Q),
       0 <= evapotranspiration (calculateAgriculturalInsights currentQ forecastQ).
Proof.
  split.
  - intros Hsame. unfold calculateAgriculturalInsights.
    assert (Hday0 : day0Range (df_forecast forecast) = day0Range (df_forecast forecast')).
    { unfold day0Range.
      replace (nth_error (df_forecast forecast) 0)
        with (nth_error (firstn 3 (df_forecast forecast)) 0)
        by (now destruct (df_forecast forecast)).
      replace (nth_error (df_forecast forecast') 0)
        with (nth_error (firstn 3 (df_forecast forecast')) 0)
        by (now destruct (df_forecast forecast')).
      now rewrite Hsame. }
    assert (Hfirst : firstn 1 (df_forecast forecast) = firstn 1 (df_forecast forecast')).
    { replace (firstn 1 (df_forecast forecast))
        with (firstn 1 (firstn 3 (df_forecast forecast)))
        by (now destruct (df_forecast forecast)).
      replace (firstn 1 (df_forecast forecast'))
        with (firstn 1 (firstn 3 (df_forecast forecast')))
        by (now destruct (df_forecast forecast')).
      now rewrite Hsame. }
    now rewrite Hday0, Hfirst, Hsame.
  - intros sqrtQ currentQ forecastQ.
    unfold calculateAgriculturalInsights. cbn [evapotranspiration].
    rewrite Q_Math_max2_Qmax. change (ofZ 0) with 0. apply Q.le_max_l.
Qed.

(* ================================================================== *)
(** ** The aggregates of a day *)

Lemma Q_round_bounds (x : Q) : x - (1 # 2) < Q_round x /\ Q_round x <= x + (1 # 2).
Proof.
  unfold Q_round.
  pose proof (Qfloor_le (x + (1 # 2))) as Hlow.
  pose proof (Qlt_floor (x + (1 # 2))) as Hup.
  rewrite inject_Z_plus in Hup. change (inject_Z 1) with 1 in Hup.
  split; lra.
Qed.

Lemma Q_fold_mean {A : Type} (f : A -> Q) (items : list A) :
  fold_left (fun sum item => sum + f item) items 0 / inject_Z (Z.of_nat (List.length items))
  == Qmean (map f items).
Proof.
  unfold Qmean. rewrite length_map.
  assert (E : fold_left (fun sum item => sum + f item) items 0 == Qsum (map f items)).
  { transitivity (0 + Qsum (map f items)); [|ring].
    exact (fold_left_Qsum f f items 0 (fun x => Qeq_refl (f x))). }
  now rewrite E.
Qed.

(** X15. Every non-empty group of samples has an aggregate, in the forecast
    and in the historical variant alike, and in exact arithmetic its figures
    are the group's means rounded half up: humidity and pressure are whole
    numbers within 1/2 of the mean, wind speed is a whole number of hundredths
    within 1/200 of the mean, precipitation a whole number of hundredths
    within 1/200 of the total. *)
Theorem aggregates_are_rounded_means (withIcon : bool) (day : string)
    (x : Measurement Q) (rest : list (Measurement Q)) :
  let items := x :: rest in
  exists aggregate,
    aggregateGroup withIcon (day, items) = Normal aggregate
    /\ (exists whole, d_humidity aggregate = inject_Z whole)
    /\ Qmean (map (@humidity Q) items) - (1 # 2) < d_humidity aggregate
       <= Qmean (map (@humidity Q) items) + (1 # 2)
    /\ (exists whole, d_pressure aggregate = inject_Z whole)
    /\ Qmean (map (@pressure Q) items) - (1 # 2) < d_pressure aggregate
       <= Qmean (map (@pressure Q) items) + (1 # 2)
    /\ (exists hundredths, d_windSpeed aggregate = inject_Z hundredths / 100)
    /\ Qmean (map (@windSpeed Q) items) - (1 # 200) < d_windSpeed aggregate
       <= Qmean (map (@windSpeed Q) items) + (1 # 200)
    /\ (exists hundredths, d_precipitation aggregate = inject_Z hundredths / 100)
    /\ Qsum (map (@precipitation Q) items) - (1 # 200) < d_precipitation aggregate
       <= Qsum (map (@precipitation Q) items) + (1 # 200).
Proof.
  intros items. unfold aggregateGroup.
  destruct (nth_error items (List.length items / 2)) as [middle|] eqn:E.
  2:{ exfalso. apply nth_error_None in E.
      assert (List.length items / 2 < List.length items)%nat
        by (apply Nat.div_lt; simpl; lia).
      lia. }
  subst items. cbn [map]. eexists. split; [reflexivity|].
  cbn [d_humidity d_pressure d_windSpeed d_precipitation].
  set (items := x :: rest).
  change (ofNat (List.length items)) with (inject_Z (Z.of_nat (List.length items))).
  change (ofZ 0) with 0. change (ofZ 100) with 100.
  change (@Math_round Q Q_JSNumber) with Q_round.
  change (@nadd Q Q_JSNumber) with Qplus. change (@ndiv Q Q_JSNumber) with Qdiv.
  change (@nmul Q Q_JSNumber) with Qmult.
  pose proof (Q_fold_mean (@humidity Q) items) as Hh.
  pose proof (Q_fold_mean (@pressure Q) items) as Hp.
  pose proof (Q_fold_mean (@windSpeed Q) items) as Hw.
  assert (Hr : fold_left (fun sum item => sum + precipitation item) items 0
               == Qsum (map (@precipitation Q) items)).
  { transitivity (0 + Qsum (map (@precipitation Q) items)); [|ring].
    exact (fold_left_Qsum (@precipitation Q) (@precipitation Q) items 0
             (fun item => Qeq_refl (precipitation item))). }
  set (h := fold_left (fun sum item => sum + humidity item) items 0
            / inject_Z (Z.of_nat (List.length items))) in *.
  set (p := fold_left (fun sum item => sum + pressure item) items 0
            / inject_Z (Z.of_nat (List.length items))) in *.
  set (w := fold_left (fun sum item => sum + windSpeed item) items 0
            / inject_Z (Z.of_nat (List.length items))) in *.
  set (r := fold_left (fun sum item => sum + precipitation item) items 0) in *.
  destruct (Q_round_bounds h) as [Hh1 Hh2]. destruct (Q_round_bounds p) as [Hp1 Hp2].
  destruct (Q_round_bounds (w * 100)) as [Hw1 Hw2].
  destruct (Q_round_bounds (r * 100)) as [Hr1 Hr2].
  change (humidity x :: map (@humidity Q) rest) with (map (@humidity Q) items).
  change (pressure x :: map (@pressure Q) rest) with (map (@pressure Q) items).
  change (windSpeed x :: map (@windSpeed Q) rest) with (map (@windSpeed Q) items).
  change (precipitation x :: map (@precipitation Q) rest)
    with (map (@precipitation Q) items).
  set (meanHumidity := Qmean (map (@humidity Q) items)) in *.
  set (meanPressure := Qmean (map (@pressure Q) items)) in *.
  set (meanWind := Qmean (map (@windSpeed Q) items)) in *.
  set (total := Qsum (map (@precipitation Q) items)) in *.
  repeat split; try (eexists; unfold Q_round; reflexivity); try lra;
    (apply Qlt_shift_div_l || apply Qle_shift_div_r); try reflexivity; lra.
Qed.

(** *** The historical days are the forecast days *)

Section SameDays.

Context {num : Type} `{JSNumber num}.

Let byDate (a b : DailyAggregate num) : comparison := localeCompare (d_date a) (d_date b).

Lemma aggregateGroup_withoutIcon (entry : string * list (Measurement num))
    (day : DailyAggregate num) :
  aggregateGroup true entry = Normal day ->
  aggregateGroup false entry = Normal (withoutIcon day).
Proof.
  destruct entry as [d items]. unfold aggregateGroup.
  destruct (map (@temperature num) items) as [|t ts]; [discriminate|].
  destruct (nth_error items (List.length items / 2)) as [middle|]; [|discriminate].
  intros E. injection E as <-. reflexivity.
Qed.

Lemma mapM_withoutIcon (dailyMap : DailyMap num) (days : list (DailyAggregate num)) :
  mapM (aggregateGroup true) dailyMap = Normal days ->
  mapM (aggregateGroup false) dailyMap = Normal (map withoutIcon days).
Proof.
  revert days. induction dailyMap as [|entry dailyMap IH]; cbn [mapM]; intros days E.
  - injection E as <-. reflexivity.
  - destruct (aggregateGroup true entry) as [day|] eqn:Eday; [|discriminate].
    rewrite (aggregateGroup_withoutIcon _ Eday).
    destruct (mapM (aggregateGroup true) dailyMap) as [others|]; [|discriminate].
    rewrite (IH others eq_refl). cbn [bind] in *. injection E as <-. reflexivity.
Qed.

Lemma Array_sort_withoutIcon (days : list (DailyAggregate num)) :
  Array_sort byDate (map withoutIcon days) = map withoutIcon (Array_sort byDate days).
Proof.
  unfold Array_sort. induction days as [|day days IH]; simpl; [reflexivity|].
  rewrite IH. generalize (fold_right (sort_insert byDate) [] days). clear IH days.
  intros sorted. induction sorted as [|y sorted IH]; simpl; [reflexivity|].
  unfold byDate at 1 3. cbn [withoutIcon d_date].
  destruct (localeCompare (d_date day) (d_date y)); simpl; try reflexivity.
  now rewrite IH.
Qed.

Lemma Array_sort_ascending (days : list (DailyAggregate num)) :
  ascending days -> Array_sort byDate days = days.
Proof.
  unfold ascending, Array_sort.
  induction 1 as [|day days Hdays IH Hday]; simpl; [reflexivity|].
  rewrite IH. destruct days as [|next days]; simpl; [reflexivity|].
  inversion Hday as [|? ? Hnext _]; subst. unfold date_lt in Hnext.
  unfold byDate. now rewrite Hnext.
Qed.

End SameDays.

(** X16. On the same samples the two aggregators return the same days: the
    days of [getHistoricalDailyWeather] are those of [getDailyForecast]
    without their icons, sorted by date; when the samples are in
    chronological order they come in the same order too. *)
Theorem historical_days_are_forecast_days {num : Type} `{JSNumber num} (now : string)
    (hourlyResponse : WeatherResponse (WeatherForecast num)) (hourlyData : WeatherForecast num)
    (historicalResponse : WeatherResponse (HistoricalWeather num))
    (historicalData : HistoricalWeather num) :
  success hourlyResponse = true -> data hourlyResponse = Some hourlyData ->
  success historicalResponse = true -> data historicalResponse = Some historicalData ->
  hw_data historicalData = wf_forecast hourlyData ->
  exists forecast historical,
    data (getDailyForecast now hourlyResponse) = Some forecast
    /\ data (getHistoricalDailyWeather now historicalResponse) = Some historical
    /\ hd_data historical
       = Array_sort (fun a b => localeCompare (d_date a) (d_date b))
                    (map withoutIcon (df_forecast forecast))
    /\ (chronological (wf_forecast hourlyData) ->
        hd_data historical = map withoutIcon (df_forecast forecast)).
Proof.
  intros Hs Hd Hs' Hd' Hsame.
  destruct (forecast_grouping now hourlyResponse Hs Hd) as [days [Eforecast [Edays Hdates]]].
  destruct (historical_grouping now historicalResponse Hs' Hd')
    as [days' [Ehistorical [Edays' _]]].
  rewrite Hsame in Edays'. rewrite (mapM_withoutIcon _ Edays) in Edays'.
  injection Edays' as <-.
  rewrite Eforecast, Ehistorical. cbn [ok data]. do 2 eexists.
  split; [reflexivity|]. split; [reflexivity|]. cbn [hd_data df_forecast].
  split; [reflexivity|].
  intros Hchrono. rewrite Array_sort_withoutIcon. f_equal.
  apply Array_sort_ascending. unfold ascending.
  apply StronglySorted_map_key. rewrite Hdates. now apply keysOf_sorted.
Qed.

Lemma historical_days_are_forecast_days_witness :
  exists forecast historical,
    data (getDailyForecast "2024-05-03T00:00:01.000Z" hourlyOk) = Some forecast
    /\ data (getHistoricalDailyWeather "2024-05-03T00:00:01.000Z" historicalOk)
       = Some historical
    /\ hd_data historical
       = Array_sort (fun a b => localeCompare (d_date a) (d_date b))
                    (map withoutIcon (df_forecast forecast))
    /\ (chronological (wf_forecast {| wf_location := farm; wf_forecast := threeSamples;
                                      wf_timestamp := "2024-05-01T20:00:00.000Z" |}) ->
        hd_data historical = map withoutIcon (df_forecast forecast)).
Proof.
  eapply (historical_days_are_forecast_days "2024-05-03T00:00:01.000Z" hourlyOk
            (hourlyData := {| wf_location := farm; wf_forecast := threeSamples;
                              wf_timestamp := "2024-05-01T20:00:00.000Z" |})
            historicalOk);
    reflexivity.
Defined.

(* ================================================================== *)
(** ** Growing degree days over a period *)

Lemma Q_degree_days_sum (days : list (DailyAggregate Q)) (base : Q) (start : Q) :
  fold_left (fun total day =>
               total + Math_max2 (ofZ 0) (t_average (d_temperature day) - base))
            days start
  == start + Qsum (map (fun day => gdd (t_average (d_temperature day)) base) days).
Proof.
  apply (fold_left_Qsum
           (fun day => Math_max2 (ofZ 0) (t_average (d_temperature day) - base))
           (fun day => gdd (t_average (d_temperature day)) base)).
  intros day. rewrite Q_Math_max2_Qmax. reflexivity.
Qed.

Lemma Q_cumulative_degree_days (historicalData : HistoricalDailyWeather Q) (base : Q) :
  calculateGrowingDegreeDays historicalData (Some base)
  == Qsum (map (fun day => gdd (t_average (d_temperature day)) base)
               (hd_data historicalData)).
Proof.
  unfold calculateGrowingDegreeDays.
  transitivity (0 + Qsum (map (fun day => gdd (t_average (d_temperature day)) base)
                              (hd_data historicalData))); [|ring].
  exact (Q_degree_days_sum (hd_data historicalData) base 0).
Qed.

Lemma Qsum_Permutation (xs ys : list Q) : Permutation xs ys -> Qsum xs == Qsum ys.
Proof.
  induction 1 as [|x xs ys Hp IH|x y xs|xs ys zs _ IH1 _ IH2]; simpl.
  - reflexivity.
  - now rewrite IH.
  - ring.
  - now rewrite IH1.
Qed.

Lemma Qsum_app (xs ys : list Q) : Qsum (xs ++ ys) == Qsum xs + Qsum ys.
Proof.
  induction xs as [|x xs IH]; simpl; [ring|]. rewrite IH. ring.
Qed.

Lemma gdd_antitone (T low high : Q) : low <= high -> gdd T high <= gdd T low.
Proof.
  intros Hle. unfold gdd. apply Q.max_le_compat_l. lra.
Qed.

(** X17. The cumulative growing degree days of
    [calculateGrowingDegreeDays], in exact arithmetic: a higher base
    temperature never gives more degree days; the order of the days does not
    matter; the degree days of two periods put end to end add up; and a base
    that no daily average exceeds gives 0. *)
Theorem growing_degree_days_over_periods (historicalData : HistoricalDailyWeather Q) :
  (forall low high,
      low <= high ->
      calculateGrowingDegreeDays historicalData (Some high)
      <= calculateGrowingDegreeDays historicalData (Some low))
  /\ (forall other base,
         Permutation (hd_data historicalData) (hd_data other) ->
         calculateGrowingDegreeDays historicalData (Some base)
         == calculateGrowingDegreeDays other (Some base))
  /\ (forall first second base,
         hd_data historicalData = hd_data first ++ hd_data second ->
         calculateGrowingDegreeDays historicalData (Some base)
         == calculateGrowingDegreeDays first (Some base)
            + calculateGrowingDegreeDays second (Some base))
  /\ (forall base,
         (forall day, In day (hd_data historicalData) ->
                      t_average (d_temperature day) <= base) ->
         calculateGrowingDegreeDays historicalData (Some base) == 0).
Proof.
  split; [|split; [|split]].
  - intros low high Hle. rewrite !Q_cumulative_degree_days.
    induction (hd_data historicalData) as [|day days IH]; simpl; [apply Qle_refl|].
    pose proof (gdd_antitone (t_average (d_temperature day)) Hle). lra.
  - intros other base Hp. rewrite !Q_cumulative_degree_days.
    apply Qsum_Permutation. now apply Permutation_map.
  - intros first second base Hdays. rewrite !Q_cumulative_degree_days.
    now rewrite Hdays, map_app, Qsum_app.
  - intros base Hbelow. rewrite Q_cumulative_degree_days.
    induction (hd_data historicalData) as [|day days IH]; simpl; [reflexivity|].
    rewrite IH by (intros d Hd; apply Hbelow; now right).
    rewrite (gdd_zero (T := t_average (d_temperature day)) (B := base))
      by (apply Hbelow; now left).
    ring.
Qed.

Lemma growing_degree_days_over_periods_witness :
  calculateGrowingDegreeDays springWeek (Some 12)
  <= calculateGrowingDegreeDays springWeek (Some 10).
Proof.
  apply (proj1 (growing_degree_days_over_periods springWeek) 10 12). discriminate.
Defined.

(* ================================================================== *)
(** ** Irrigation and frost are monotone *)

(** Without significant rain, the urgency of the recommendation as regions
    of the plane of temperature and humidity. *)
Lemma Q_urgency_thresholds (currentWeather : Current Q)
    (forecastData : list (Measurement Q)) :
  let temp := c_temperature currentWeather in
  let humidity := c_humidity currentWeather in
  let advice := generateIrrigationAdvice currentWeather forecastData in
  (totalRain forecastData >? ofZ 5)%js = false ->
  ((3 <= urgency (recommendation advice))%nat <-> 35 < temp /\ humidity < 35)
  /\ ((2 <= urgency (recommendation advice))%nat <-> 30 < temp /\ humidity < 40)
  /\ ((1 <= urgency (recommendation advice))%nat <-> 25 < temp /\ humidity < 50)
  /\ (urgency (recommendation advice) <= 3)%nat.
Proof.
  intros temp humidity advice Hdry. subst advice.
  rewrite irrigation_cascade, Hdry. fold temp humidity.
  pose proof (Q_stress_tier temp humidity 35 35) as H35.
  pose proof (Q_stress_tier temp humidity 30 40) as H30.
  pose proof (Q_stress_tier temp humidity 25 50) as H25.
  change (inject_Z 35) with 35 in H35.
  change (inject_Z 30) with 30 in H30. change (inject_Z 40) with 40 in H30.
  change (inject_Z 25) with 25 in H25. change (inject_Z 50) with 50 in H25.
  destruct ((temp >? ofZ 35)%js && (humidity <? ofZ 35)%js).
  { assert (35 < temp /\ humidity < 35) by now apply H35.
    simpl. repeat split; intros; try lia; lra. }
  assert (N35 : ~ (35 < temp /\ humidity < 35)) by (intros C; apply H35 in C; discriminate).
  destruct ((temp >? ofZ 30)%js && (humidity <? ofZ 40)%js).
  { assert (30 < temp /\ humidity < 40) by now apply H30.
    simpl. repeat split; intros; try lia; try lra; exfalso; apply N35; lra. }
  assert (N30 : ~ (30 < temp /\ humidity < 40)) by (intros C; apply H30 in C; discriminate).
  destruct ((temp >? ofZ 25)%js && (humidity <? ofZ 50)%js).
  { assert (25 < temp /\ humidity < 50) by now apply H25.
    simpl. repeat split; intros; try lia; try lra; exfalso;
      solve [apply N35; lra | apply N30; lra]. }
  assert (N25 : ~ (25 < temp /\ humidity < 50)) by (intros C; apply H25 in C; discriminate).
  simpl. repeat split; intros; try lia; exfalso;
    solve [apply N35; lra | apply N30; lra | apply N25; lra].
Qed.

(** X18. The irrigation advice is monotone in the current weather (exact
    arithmetic): on the same forecast, a temperature at least as high with a
    humidity at most as high never gives a less pressing recommendation; and
    whether the answer is "skip" does not depend on the current weather at
    all. *)
Theorem irrigation_monotone (milder harsher : Current Q)
    (forecastData : list (Measurement Q)) :
  c_temperature milder <= c_temperature harsher ->
  c_humidity harsher <= c_humidity milder ->
  (urgency (recommendation (generateIrrigationAdvice milder forecastData))
   <= urgency (recommendation (generateIrrigationAdvice harsher forecastData)))%nat
  /\ (recommendation (generateIrrigationAdvice milder forecastData) = Skip
      <-> recommendation (generateIrrigationAdvice harsher forecastData) = Skip).
Proof.
  intros Htemp Hhumidity.
  destruct (totalRain forecastData >? ofZ 5)%js eqn:Hrain.
  - rewrite !irrigation_cascade, Hrain. split; [simpl; lia | tauto].
  - destruct (Q_urgency_thresholds milder forecastData Hrain) as [A3 [A2 [A1 Amax]]].
    destruct (Q_urgency_thresholds harsher forecastData Hrain) as [B3 [B2 [B1 _]]].
    split.
    + assert (H3 : (3 <= urgency (recommendation (generateIrrigationAdvice milder forecastData))
                    -> 3 <= urgency (recommendation
                                       (generateIrrigationAdvice harsher forecastData)))%nat).
      { intros Hu. apply B3. apply A3 in Hu. lra. }
      assert (H2 : (2 <= urgency (recommendation (generateIrrigationAdvice milder forecastData))
                    -> 2 <= urgency (recommendation
                                       (generateIrrigationAdvice harsher forecastData)))%nat).
      { intros Hu. apply B2. apply A2 in Hu. lra. }
      assert (H1 : (1 <= urgency (recommendation (generateIrrigationAdvice milder forecastData))
                    -> 1 <= urgency (recommendation
                                       (generateIrrigationAdvice harsher forecastData)))%nat).
      { intros Hu. apply B1. apply A1 in Hu. lra. }
      lia.
    + rewrite !irrigation_cascade, Hrain.
      repeat match goal with |- context [if ?c then _ else _] => destruct c end;
        split; intros E; discriminate E.
Qed.

Lemma irrigation_monotone_witness :
  (urgency (recommendation (generateIrrigationAdvice calmNow threeSamples))
   <= urgency (recommendation (generateIrrigationAdvice hotDry threeSamples)))%nat.
Proof.
  apply (irrigation_monotone calmNow hotDry threeSamples); vm_compute; discriminate.
Defined.

(** The frost tier is at least [k] exactly when one of the first 8 samples is
    at or below the threshold of [k]. *)
Lemma Q_frost_rank_thresholds (currentTemp : Q) (forecastData : list (Measurement Q)) :
  let rank := frostRank (f_risk (analyzeFrostRisk currentTemp forecastData)) in
  let reaches (limit : Q) :=
    exists item, In item (firstn 8 forecastData) /\ temperature item <= limit in
  ((4 <= rank)%nat <-> reaches (-2))
  /\ ((3 <= rank)%nat <-> reaches 0)
  /\ ((2 <= rank)%nat <-> reaches 2)
  /\ ((1 <= rank)%nat <-> reaches 5).
Proof.
  intros rank reaches. subst rank.
  destruct (frost_cascade currentTemp forecastData) as [_ Hrisk]. rewrite Hrisk. clear Hrisk.
  assert (Hle : forall limit : Q,
             extremum_le (Math_min (map (@temperature Q) (firstn 8 forecastData))) limit = true
             <-> reaches limit).
  { intros limit. subst reaches. cbv beta.
    destruct (firstn 8 forecastData) as [|x window]; simpl.
    - split; [discriminate | intros [item [[] _]]].
    - destruct (Q_Math_min_of_spec (map (@temperature Q) window) (temperature x))
        as [Hin Hlow].
      rewrite Qle_bool_iff. split.
      + intros Hmin. change (temperature x :: map (@temperature Q) window)
          with (map (@temperature Q) (x :: window)) in Hin.
        apply in_map_iff in Hin. destruct Hin as [item [E Hitem]].
        exists item. split; [exact Hitem|]. now rewrite E.
      + intros [item [Hitem Hcold]].
        apply Qle_trans with (2 := Hcold). apply Hlow.
        change (temperature x :: map (@temperature Q) window)
          with (map (@temperature Q) (x :: window)).
        now apply in_map. }
  assert (Hdown : forall a b : Q, a <= b -> reaches a -> reaches b).
  { intros a b Hab [item [Hitem Hcold]]. exists item. split; [exact Hitem | lra]. }
  change (ofZ (-2)) with (-2). change (ofZ 0) with 0.
  change (ofZ 2) with 2. change (ofZ 5) with 5.
  pose proof (Hle (-2)) as L4. pose proof (Hle 0) as L3.
  pose proof (Hle 2) as L2. pose proof (Hle 5) as L1.
  pose proof (Hdown (-2) 0 ltac:(lra)) as D43. pose proof (Hdown 0 2 ltac:(lra)) as D32.
  pose proof (Hdown 2 5 ltac:(lra)) as D21.
  destruct (extremum_le _ (-2)); [simpl; intuition lia|].
  destruct (extremum_le _ 0); [simpl; intuition (try lia; try discriminate)|].
  destruct (extremum_le _ 2); [simpl; intuition (try lia; try discriminate)|].
  destruct (extremum_le _ 5); simpl; intuition (try lia; try discriminate).
Qed.

Lemma colder_window (forecastData colderData : list (Measurement Q)) (n : nat) :
  Forall2 colder forecastData colderData ->
  forall item, In item (firstn n forecastData) ->
    exists item', In item' (firstn n colderData) /\ temperature item' <= temperature item.
Proof.
  intros Hcolder. revert n.
  induction Hcolder as [|a b xs ys Hab Hrest IH]; intros n item Hitem.
  - rewrite firstn_nil in Hitem. contradiction.
  - destruct n as [|n]; simpl in Hitem; [contradiction|].
    destruct Hitem as [<- | Hitem].
    + exists b. split; [now left | exact Hab].
    + destruct (IH n item Hitem) as [item' [Hin Hle]].
      exists item'. split; [now right | exact Hle].
Qed.

(** X19. The frost tier is monotone in the forecast (exact arithmetic):
    samples added after the forecast never lower it, and a forecast that is
    sample by sample at least as cold never gets a lower tier. *)
Theorem frost_risk_monotone (currentTemp currentTemp' : Q)
    (forecastData : list (Measurement Q)) :
  (forall later,
      (frostRank (f_risk (analyzeFrostRisk currentTemp forecastData))
       <= frostRank (f_risk (analyzeFrostRisk currentTemp' (forecastData ++ later))))%nat)
  /\ (forall colderData,
         Forall2 colder forecastData colderData ->
         (frostRank (f_risk (analyzeFrostRisk currentTemp forecastData))
          <= frostRank (f_risk (analyzeFrostRisk currentTemp' colderData)))%nat).
Proof.
  assert (Hstep : forall other : list (Measurement Q),
             (forall item, In item (firstn 8 forecastData) ->
                exists item', In item' (firstn 8 other)
                              /\ temperature item' <= temperature item) ->
             (frostRank (f_risk (analyzeFrostRisk currentTemp forecastData))
              <= frostRank (f_risk (analyzeFrostRisk currentTemp' other)))%nat).
  { intros other Hcover.
    destruct (Q_frost_rank_thresholds currentTemp forecastData) as [A4 [A3 [A2 A1]]].
    destruct (Q_frost_rank_thresholds currentTemp' other) as [B4 [B3 [B2 B1]]].
    assert (Hreach : forall limit : Q,
               (exists item, In item (firstn 8 forecastData) /\ temperature item <= limit) ->
               exists item, In item (firstn 8 other) /\ temperature item <= limit).
    { intros limit [item [Hitem Hcold]]. destruct (Hcover item Hitem) as [item' [Hin Hle]].
      exists item'. split; [exact Hin | lra]. }
    assert (Hmax : (frostRank (f_risk (analyzeFrostRisk currentTemp forecastData)) <= 4)%nat)
      by (destruct (f_risk (analyzeFrostRisk currentTemp forecastData)); simpl; lia).
    pose proof (fun H => proj2 B4 (Hreach _ (proj1 A4 H))) as H4.
    pose proof (fun H => proj2 B3 (Hreach _ (proj1 A3 H))) as H3.
    pose proof (fun H => proj2 B2 (Hreach _ (proj1 A2 H))) as H2.
    pose proof (fun H => proj2 B1 (Hreach _ (proj1 A1 H))) as H1.
    lia. }
  split.
  - intros later. apply Hstep. intros item Hitem. exists item. split; [|apply Qle_refl].
    rewrite firstn_app. apply in_or_app. now left.
  - intros colderData Hcolder. apply Hstep. now apply colder_window.
Qed.

Lemma frost_risk_monotone_witness :
  (frostRank (f_risk (analyzeFrostRisk 18%Q threeSamples))
   <= frostRank (f_risk (analyzeFrostRisk 3%Q coldNight)))%nat.
Proof.
  apply (proj2 (frost_risk_monotone 18 3 threeSamples) coldNight).
  repeat constructor; discriminate.
Defined.
